(** * Buddy allocator of the kernel (kernel/mem/buddy.c)

    A shallow embedding of the physical page allocator: the page descriptor
    table, the per-order free lists, [buddy_split], [buddy_merge],
    [buddy_find], [page_alloc], [page_free] and [page_decref], followed by
    the properties of the allocator's specification.

    Conventions of the embedding:
    - a [struct page_info *] is the index of the descriptor in [pages];
    - a physical address is an [N];
    - the intrusive list node [pp_node] of a descriptor is represented by
      the presence of its index in one of the sequences of
      [buddy_free_list];
    - an access outside an array (the descriptor table or the array of
      list heads) is undefined behaviour in C; here it ends the run with
      [Fault];
    - orders and page numbers are [nat] and addresses are unbounded: for
      the sizes of a real machine no shift or product of the allocator
      leaves the range of a size_t or of a physaddr_t;
    - a loop is a [Fixpoint] on fuel, one unit a turn; [OutOfFuel] is
      shown never to come out of the functions of the allocator.  *)

From Stdlib Require Import ZArith NArith Lia.
From stdpp Require Import base tactics option numbers list.

Local Open Scope nat_scope.

(** ** Constants of the absent headers *)

(** The macros of paging.h and kernel/mem.h that buddy.c uses are
    compile-time constants of the kernel; the headers are not at hand and
    the allocator is verified for all their values.  [PAGE_SHIFT] is the
    logarithm of PAGE_SIZE and [REF_BITS] the width of the unsigned field
    [pp_ref]. *)
Class Config := {
  BUDDY_MAX_ORDER : nat;
  BUDDY_4K_PAGE : nat;
  BUDDY_2M_PAGE : nat;
  PAGE_SHIFT : N;
  ALLOC_ZERO : Z;
  ALLOC_HUGE : Z;
  REF_BITS : Z
}.

(** Modelled from the spec: PAGE_SIZE of paging.h is absent; a buddy is
    "located by flipping one address bit", so the page size is a power of
    two, [1 << PAGE_SHIFT]. *)
Definition PAGE_SIZE `{Config} : N := N.shiftl 1 PAGE_SHIFT.

(** ** Outcomes *)

Inductive fault :=
  | PageOutOfRange (i : nat)       (* pages[i] with i >= npages *)
  | BadPhysAddr (pa : N)           (* pa2page outside the managed range *)
  | FreeListOutOfRange (k : nat)   (* buddy_free_list[k] outside the array *)
  | NullNode.                      (* container_of applied to NULL *)

Inductive outcome (A : Type) :=
  | Done (a : A)
  | Fault (f : fault)
  | OutOfFuel.
Arguments Done {A} a.
Arguments Fault {A} f.
Arguments OutOfFuel {A}.

(** A run that stopped for want of fuel, not by itself. *)
Definition out_of_fuel {A} (x : outcome A) : bool :=
  match x with OutOfFuel => true | _ => false end.

#[export] Instance outcome_ret : MRet outcome := @Done.
#[export] Instance outcome_bind : MBind outcome := λ A B f x,
  match x with
  | Done a => f a
  | Fault e => Fault e
  | OutOfFuel => OutOfFuel
  end.

(** ** Data model *)

(** struct page_info, with the fields that buddy.c reads and writes;
    [pp_node] is left to [buddy_free_list]. *)
Record page_info := PageInfo {
  pp_ref : Z;
  pp_order : nat;
  pp_free : bool
}.

(** The globals of buddy.c (lines 9-17): [pages] is the descriptor table,
    [npages] its length; [buddy_free_list] is the array of list heads,
    declared with BUDDY_MAX_ORDER entries, each list written as the
    sequence of descriptors met from the head onwards. *)
Record state := State {
  pages : list page_info;
  buddy_free_list : list (list nat)
}.

Definition npages (s : state) : nat := length (pages s).

(** The bytes of the physical memory. *)
Definition memory := N → Z.

Definition set_pages (s : state) (ps : list page_info) : state :=
  State ps (buddy_free_list s).
Definition set_lists (s : state) (ls : list (list nat)) : state :=
  State (pages s) ls.

(** *** Descriptor accesses: [p->field] and [p->field = v] *)

Definition page_get (i : nat) (s : state) : outcome page_info :=
  match pages s !! i with
  | Some p => Done p
  | None => Fault (PageOutOfRange i)
  end.

Definition page_update (f : page_info → page_info) (i : nat) (s : state)
  : outcome state :=
  p ← page_get i s; Done (set_pages s (<[i := f p]> (pages s))).

Definition set_pp_order (i o : nat) : state → outcome state :=
  page_update (λ p, PageInfo (pp_ref p) o (pp_free p)) i.
Definition set_pp_free (i : nat) (b : bool) : state → outcome state :=
  page_update (λ p, PageInfo (pp_ref p) (pp_order p) b) i.
Definition set_pp_ref (i : nat) (r : Z) : state → outcome state :=
  page_update (λ p, PageInfo r (pp_order p) (pp_free p)) i.

(** *** Address and index translation *)

Section Allocator.
Context `{Config}.

(** Modelled from the spec: page2pa of kernel/mem.h is absent; the
    descriptor of index i stands for the frame at [i * PAGE_SIZE]. *)
Definition page2pa (i : nat) : N := N.of_nat i * PAGE_SIZE.

(** Modelled from the spec: pa2page of kernel/mem.h is absent; it is the
    inverse of page2pa, and an address outside the managed range is
    undefined behaviour. *)
Definition pa2page (pa : N) (s : state) : outcome nat :=
  let i := N.to_nat (pa / PAGE_SIZE) in
  if decide (i < npages s) then Done i else Fault (BadPhysAddr pa).

(** The descriptor that the loops of buddy_split and buddy_merge reach
    from [page] at [order]:
    [pa2page(page2pa(page) ^ (PAGE_SIZE << order))]. *)
Definition buddy_of (page order : nat) : nat :=
  N.to_nat (N.lxor (page2pa page) (N.shiftl PAGE_SIZE (N.of_nat order))
            / PAGE_SIZE).

(** *** Free lists *)

(** Modelled from the spec: list.h is absent.  A free list is the
    sequence of the descriptors linked into it; [list_add] links a node
    right after the head, [list_pop] unlinks the node after the head,
    [list_del] unlinks a node from the list it is in (and is without
    effect on a node that is in none), [list_is_empty] tests for no node.
    The head is [buddy_free_list + k]: outside the array, a [Fault].
    A descriptor has a single node, [pp_node]: the sequences stand for the
    lists of the program as long as [list_add] is given a node that is
    linked nowhere, and the numbered properties (C.., X..) that say what
    a list holds after [list_add] are stated for such calls, under
    [free_list_exact] or a hypothesis [¬ linked].  The specification does not say where in its
    list a node goes; a property written with [≡ₚ] holds wherever
    [list_add] puts it. *)
Definition list_head (k : nat) (s : state) : outcome (list nat) :=
  match buddy_free_list s !! k with
  | Some l => Done l
  | None => Fault (FreeListOutOfRange k)
  end.

Definition list_is_empty (k : nat) (s : state) : outcome bool :=
  l ← list_head k s; Done (bool_decide (l = [])).

Definition list_add (k : nat) (node : nat) (s : state) : outcome state :=
  l ← list_head k s;
  Done (set_lists s (<[k := node :: l]> (buddy_free_list s))).

Definition list_pop (k : nat) (s : state) : outcome (option nat * state) :=
  l ← list_head k s;
  match l with
  | [] => Done (None, s)
  | node :: l' => Done (Some node, set_lists s (<[k := l']> (buddy_free_list s)))
  end.

Definition list_del (node : nat) (s : state) : state :=
  set_lists s (filter (λ n, n ≠ node) <$> buddy_free_list s).

(** ** Diagnostics: count_free_pages (lines 21-35) and
    count_total_free_pages (lines 64-78) *)

Definition count_free_pages (order : nat) (s : state) : nat :=
  if decide (BUDDY_MAX_ORDER ≤ order) then 0
  else length (default [] (buddy_free_list s !! order)).

Fixpoint count_total_loop (n : nat) (s : state) : nat :=
  match n with
  | 0 => 0
  | S order => count_total_loop order s + count_free_pages order s * 2 ^ order
  end.

Definition count_total_free_pages (s : state) : nat :=
  count_total_loop BUDDY_MAX_ORDER s.

(** ** buddy_split (lines 91-114) *)

(** The [while] loop of buddy_split (lines 99-112); every turn costs one
    unit of fuel. *)
Fixpoint buddy_split_loop (fuel : nat) (lhs req_order : nat) (s : state)
  : outcome state :=
  l ← page_get lhs s;
  if decide (req_order < pp_order l) then
    match fuel with
    | 0 => OutOfFuel
    | S fuel' =>
        let order := pp_order l - 1 in
        let lhs_pa := page2pa lhs in
        let buddy_pa :=
          N.lxor lhs_pa (N.shiftl PAGE_SIZE (N.of_nat (pp_order l - 1))) in
        buddy ← pa2page buddy_pa s;
        s ← set_pp_order lhs order s;
        s ← set_pp_free lhs false s;
        s ← set_pp_order buddy order s;
        s ← set_pp_free buddy true s;
        s ← list_add order buddy s;
        buddy_split_loop fuel' lhs req_order s
    end
  else Done s.

(** The order of [lhs] falls by one on every turn, so its value at entry
    is fuel enough ([buddy_split_total] below). *)
Definition buddy_split (lhs req_order : nat) (s : state)
  : outcome (nat * state) :=
  l ← page_get lhs s;
  s ← buddy_split_loop (pp_order l) lhs req_order s;
  Done (lhs, s).

(** ** buddy_merge (lines 132-166) *)

(** The [while] loop of buddy_merge (lines 142-162), with its local
    variables [order] and [page]; every turn costs one unit of fuel. *)
Fixpoint buddy_merge_loop (fuel : nat) (order page : nat) (s : state)
  : outcome (nat * state) :=
  if decide (order < BUDDY_MAX_ORDER) then
    match fuel with
    | 0 => OutOfFuel
    | S fuel' =>
        p ← page_get page s;
        let page_pa := page2pa page in
        let buddy_pa :=
          N.lxor page_pa (N.shiftl PAGE_SIZE (N.of_nat (pp_order p))) in
        buddy ← pa2page buddy_pa s;
        b ← page_get buddy s;
        if negb (pp_free b) || negb (bool_decide (pp_order b = order))
        then Done (page, s)
        else
          let page := if decide (buddy_pa < page_pa)%N then buddy else page in
          let s := list_del buddy s in
          let order := S order in
          s ← set_pp_order buddy order s;
          s ← set_pp_free buddy false s;
          s ← set_pp_order page order s;
          s ← set_pp_free page false s;
          buddy_merge_loop fuel' order page s
    end
  else Done (page, s).

Definition buddy_merge (page : nat) (s : state) : outcome (nat * state) :=
  p ← page_get page s;
  '(page, s) ← buddy_merge_loop BUDDY_MAX_ORDER (pp_order p) page s;
  s ← set_pp_free page true s;
  p ← page_get page s;
  s ← list_add (pp_order p) page s;
  Done (page, s).

(** ** buddy_find (lines 175-195) *)

(** The [for] loop of buddy_find (lines 180-191), whose bound is
    [order <= BUDDY_MAX_ORDER]; [None] is NULL.  The store
    [page->pp_free = 0] of line 188 is commented out in the source and
    has no counterpart here. *)
Fixpoint buddy_find_loop (fuel : nat) (order req_order : nat) (s : state)
  : outcome (option nat * state) :=
  if decide (order ≤ BUDDY_MAX_ORDER) then
    match fuel with
    | 0 => OutOfFuel
    | S fuel' =>
        e ← list_is_empty order s;
        if negb e then
          '(node, s) ← list_pop order s;
          match node with
          | None => Fault NullNode
          | Some page =>
              if decide (req_order < order) then
                '(page, s) ← buddy_split page req_order s;
                Done (Some page, s)
              else Done (Some page, s)
          end
        else buddy_find_loop fuel' (S order) req_order s
    end
  else Done (None, s).

Definition buddy_find (req_order : nat) (s : state)
  : outcome (option nat * state) :=
  buddy_find_loop (S BUDDY_MAX_ORDER) req_order req_order s.

(** ** page_alloc (lines 212-231), page_free (lines 240-244),
    page_decref (lines 250-255) *)

(** Modelled from the spec: memset of string.h and page2kva of
    kernel/mem.h are absent.  The memory is indexed by physical address,
    as the kernel sees it through its direct map; memset makes the bytes
    of the range [pa, pa + len) equal to [c]. *)
Definition memset (m : memory) (pa : N) (c : Z) (len : N) : memory :=
  λ a, if decide (pa ≤ a < pa + len)%N then c else m a.

Definition page_alloc (alloc_flags : Z) (s : state) (m : memory)
  : outcome (option nat * state * memory) :=
  let order :=
    if decide (Z.land alloc_flags ALLOC_HUGE ≠ 0%Z) then BUDDY_2M_PAGE
    else BUDDY_4K_PAGE in
  '(page, s) ← buddy_find order s;
  match page with
  | None => Done (None, s, m)
  | Some page =>
      if decide (Z.land alloc_flags ALLOC_ZERO ≠ 0%Z) then
        p ← page_get page s;
        Done (Some page, s,
              memset m (page2pa page) 0%Z
                     (N.shiftl PAGE_SIZE (N.of_nat (pp_order p))))
      else Done (Some page, s, m)
  end.

Definition page_free (pp : nat) (s : state) : outcome state :=
  '(_, s) ← buddy_merge pp s; Done s.

Definition page_decref (pp : nat) (s : state) : outcome state :=
  p ← page_get pp s;
  let r := ((pp_ref p - 1) mod 2 ^ REF_BITS)%Z in
  s ← set_pp_ref pp r s;
  if decide (r = 0%Z) then page_free pp s else Done s.

(** ** Properties of states *)

(** [linked i s]: the node of descriptor [i] is in some free list. *)
Definition linked (i : nat) (s : state) : Prop :=
  ∃ k l, buddy_free_list s !! k = Some l ∧ i ∈ l.

(** Free-list exactness: there is one list per order below
    BUDDY_MAX_ORDER; a descriptor in list k has order k and is marked
    free; no descriptor is linked twice; a descriptor marked free is
    linked. *)
Record free_list_exact (s : state) : Prop := {
  fle_heads : length (buddy_free_list s) = BUDDY_MAX_ORDER;
  fle_member : ∀ k l i, buddy_free_list s !! k = Some l → i ∈ l →
    ∃ p, pages s !! i = Some p ∧ pp_order p = k ∧ pp_free p = true;
  fle_once : NoDup (concat (buddy_free_list s));
  fle_free : ∀ i p, pages s !! i = Some p → pp_free p = true → linked i s
}.

(** Exactness but for descriptor [x], which may be marked free, and is
    linked nowhere: the state in which buddy_find hands the block it has
    popped to buddy_split. *)
Record exact_but (x : nat) (s : state) : Prop := {
  eb_heads : length (buddy_free_list s) = BUDDY_MAX_ORDER;
  eb_member : ∀ k l i, buddy_free_list s !! k = Some l → i ∈ l →
    ∃ p, pages s !! i = Some p ∧ pp_order p = k ∧ pp_free p = true;
  eb_once : NoDup (concat (buddy_free_list s));
  eb_free : ∀ i p, i ≠ x → pages s !! i = Some p → pp_free p = true →
    linked i s;
  eb_out : ¬ linked x s
}.

(** [same_refs s s']: no reference count differs between the tables of
    [s] and [s'] (which then have the same length). *)
Definition same_refs (s s' : state) : Prop :=
  ∀ i, pp_ref <$> pages s' !! i = pp_ref <$> pages s !! i.

(** The nodes of the lists are nodes of descriptors of the table. *)
Definition lists_in_table (s : state) : Prop :=
  ∀ i, linked i s → i < npages s.

End Allocator.

(** ** A kernel configuration and states for the examples *)

(** 4 KiB pages, ten orders, 2 MiB huge pages, a 16-bit reference count. *)
Definition lab : Config := {|
  BUDDY_MAX_ORDER := 10;
  BUDDY_4K_PAGE := 0;
  BUDDY_2M_PAGE := 9;
  PAGE_SHIFT := 12;
  ALLOC_ZERO := 1;
  ALLOC_HUGE := 2;
  REF_BITS := 16
|}.

Definition no_free_block : list (list nat) := replicate 10 [].

(** A descriptor of a free block head, of a page with one holder, and of
    a page whose last holder has just gone. *)
Definition avail (order : nat) : page_info := PageInfo 0 order true.
Definition used (order : nat) : page_info := PageInfo 1 order false.
Definition released (order : nat) : page_info := PageInfo 0 order false.

(** Sixteen pages, the first eight forming the only free block. *)
Definition one_block_of_8 : state :=
  State (avail 3 :: replicate 7 (released 0) ++ replicate 8 (used 0))
        (<[3 := [0]]> no_free_block).

(** Sixteen pages; the block of order 3 at page 8 has just been taken off
    its list. *)
Definition block_of_8_taken : state :=
  State (replicate 8 (used 0) ++ avail 3 :: replicate 7 (released 0))
        no_free_block.

(** Two pages, the first one free as an order-0 block. *)
Definition one_page_free : state :=
  State [avail 0; used 0] (<[0 := [0]]> no_free_block).

(** Four pages, all in use. *)
Definition all_used : state := State (replicate 4 (used 0)) no_free_block.

(** 1024 pages: the upper half a free block of order 9, the lower half a
    block of order 9 about to be released. *)
Definition two_top_blocks : state :=
  State ((released 9 :: replicate 511 (released 0))
         ++ avail 9 :: replicate 511 (released 0))
        (<[9 := [512]]> no_free_block).

(** Four pages, none free; pages 0 and 1 are about to be released, pages
    2 and 3 are in use for good. *)
Definition pair_in_use : state :=
  State [released 0; released 0; used 0; used 0] no_free_block.

(** The same four pages once pages 0 and 1 are released: they form a free
    block of order 1. *)
Definition one_pair : state :=
  State [avail 1; released 0; used 0; used 0] (<[1 := [0]]> no_free_block).

(** Two pages in use, nothing free. *)
Definition two_used : state := State [used 0; used 0] no_free_block.

Definition blank : memory := λ _, 255%Z.

(** Modelled from the spec: "total allocated page count"; the source keeps
    no such counter.  A page is counted while it has a holder. *)
Definition count_held_pages (s : state) : nat :=
  length (filter (λ p, pp_ref p ≠ 0%Z) (pages s)).

(** A caller: two base pages allocated, each given its first reference
    ([pp_ref] from 0 to 1, which page_alloc leaves to its callers), then
    the first one released. *)
Definition take_two_release_first `{Config} (s : state) (m : memory)
  : outcome (option nat * option nat * state) :=
  '(a, s, m) ← page_alloc 0 s m;
  s ← (if a is Some pa then set_pp_ref pa 1 s else Done s);
  '(b, s, m) ← page_alloc 0 s m;
  s ← (if b is Some pb then set_pp_ref pb 1 s else Done s);
  s ← (if a is Some pa then page_decref pa s else Done s);
  Done (a, b, s).

(** ** show_buddy_info (buddy.c, lines 42-61) *)

(** cprintf is absent; a call is stood for by the numbers handed to it:
    one pair (order, pages) a line of the loop, and the kiB figure of the
    last line.  [1 << (order + 12)] is written [2 ^ (order + 12)]. *)
Fixpoint show_buddy_loop (n : nat) `{Config} (s : state)
  : list (nat * nat) * nat :=
  match n with
  | 0 => ([], 0)
  | S order =>
      let '(lines, nfree) := show_buddy_loop order s in
      let nfree_pages := count_free_pages order s in
      (lines ++ [(order, nfree_pages)],
       nfree + nfree_pages * 2 ^ (order + 12))
  end.

Definition show_buddy_info `{Config} (s : state) : list (nat * nat) * nat :=
  let '(lines, nfree) := show_buddy_loop BUDDY_MAX_ORDER s in
  (lines, nfree / 1024).

(** ** The boot-time allocator and the memory map (kernel/mem/boot.c) *)

(** Addresses and lengths of boot.c are unsigned 64-bit integers (the
    memory map is printed with sixteen hexadecimal digits), here [Z] with
    the wrap-around written out. *)
Definition wrap64 (a : Z) : Z := (a mod 2 ^ 64)%Z.

(** Modelled from the spec: ROUNDDOWN and ROUNDUP of types.h are absent;
    they round "to page granularity", down and up to a multiple of [n]. *)
Definition ROUNDDOWN (a n : Z) : Z := (a - a mod n)%Z.
Definition ROUNDUP (a n : Z) : Z := ROUNDDOWN (wrap64 (a + n - 1)) n.

(** boot_alloc (boot.c, lines 19-46).  [next_free] is the static
    variable, 0 for NULL, passed in and handed back beside the result;
    [kernel_end] is the address of the linker symbol [end]; [n] is the
    argument as received. *)
Definition boot_alloc `{Config} (kernel_end : Z) (n : Z) (next_free : Z)
  : Z * Z :=
  let next_free :=
    if decide (next_free = 0%Z) then ROUNDUP kernel_end (Z.of_N PAGE_SIZE)
    else next_free in
  let result := next_free in
  let next_free :=
    if decide (n ≠ 0%Z)
    then ROUNDUP (wrap64 (next_free + n)) (Z.of_N PAGE_SIZE)
    else next_free in
  (result, next_free).

(** The region types that boot.c tells apart; any other value of the
    field is [MMAP_OTHER]. *)
Inductive mmap_type :=
  | MMAP_FREE
  | MMAP_RESERVED
  | MMAP_ACPI_RECLAIMABLE
  | MMAP_ACPI_NVS
  | MMAP_BAD
  | MMAP_OTHER (code : Z).

(** struct mmap_entry, with the fields that boot.c reads and writes. *)
Record mmap_entry := MmapEntry {
  entry_addr : Z;
  entry_len : Z;
  entry_type : mmap_type
}.

(** The body of the loop of align_boot_info (boot.c, lines 65-79) on one
    entry. *)
Definition align_entry `{Config} (entry : mmap_entry) : mmap_entry :=
  let page := Z.of_N PAGE_SIZE in
  let '(base, end_) :=
    match entry_type entry with
    | MMAP_FREE =>
        let base := ROUNDUP (entry_addr entry) page in
        let end_ := wrap64 (entry_len entry - wrap64 (base - entry_addr entry)) in
        let end_ := ROUNDDOWN (wrap64 (base + end_)) page in
        (base, end_)
    | _ =>
        let base := ROUNDDOWN (entry_addr entry) page in
        let end_ := wrap64 (entry_len entry + wrap64 (entry_addr entry - base)) in
        let end_ := ROUNDUP (wrap64 (base + end_)) page in
        (base, end_)
    end in
  MmapEntry base (wrap64 (end_ - base)) (entry_type entry).

(** align_boot_info (boot.c, lines 56-81): the memory map is the array of
    the [mmap_len] entries at [mmap_addr], each aligned in place. *)
Definition align_boot_info `{Config} (mmap : list mmap_entry)
  : list mmap_entry :=
  align_entry <$> mmap.

(** An entry as the boot loader writes it: two unsigned 64-bit fields. *)
Definition entry_in_range (entry : mmap_entry) : Prop :=
  (0 ≤ entry_addr entry < 2 ^ 64)%Z ∧ (0 ≤ entry_len entry < 2 ^ 64)%Z.

(** Both fields of an entry are multiples of the page size. *)
Definition entry_aligned `{Config} (entry : mmap_entry) : Prop :=
  (Z.of_N PAGE_SIZE | entry_addr entry)%Z ∧
  (Z.of_N PAGE_SIZE | entry_len entry)%Z.

(** ** A memory map for the examples *)

(** The first entries of the memory map of a PC: the conventional memory
    below the extended BIOS data area (0 to 0x9FC00, free), and that area
    (0x9FC00 to 0xA0000, reserved). *)
Definition low_memory : mmap_entry := MmapEntry 0 654336 MMAP_FREE.
Definition bios_area : mmap_entry := MmapEntry 654336 1024 MMAP_RESERVED.
Definition boot_map : list mmap_entry := [low_memory; bios_area].

(** A free region of 256 bytes inside the page at 0x1000. *)
Definition sliver : mmap_entry := MmapEntry 4352 256 MMAP_FREE.

(** ** States reached from the examples *)

(** [one_block_of_8] once a base page has been allocated: the block is
    split into page 0 and the free blocks at pages 1, 2 and 4. *)
Definition block_of_8_split : state :=
  State ([released 0; avail 0; avail 1; released 0; avail 2]
         ++ replicate 3 (released 0) ++ replicate 8 (used 0))
        (<[0 := [1]]> (<[1 := [2]]> (<[2 := [4]]> no_free_block))).

(** The same pages once page 0 has been released again: the block is
    whole; the descriptors of pages 1, 2 and 4 keep the orders that the
    merge has left in them. *)
Definition block_of_8_rejoined : state :=
  State ([avail 3; released 1; released 2; released 0; released 3]
         ++ replicate 3 (released 0) ++ replicate 8 (used 0))
        (<[3 := [0]]> no_free_block).

(** [one_pair] once page 2 has been released, by page_free and by
    page_decref. *)
Definition pair_and_held_page : state :=
  State [avail 1; released 0; PageInfo 1 0 true; used 0]
        (<[0 := [2]]> (<[1 := [0]]> no_free_block)).
Definition pair_and_page : state :=
  State [avail 1; released 0; avail 0; used 0]
        (<[0 := [2]]> (<[1 := [0]]> no_free_block)).

(** * Properties *)

Section Arithmetic.
Context `{Config}.

Lemma PAGE_SIZE_pow2 : PAGE_SIZE = (2 ^ PAGE_SHIFT)%N.
Proof. unfold PAGE_SIZE. by rewrite N.shiftl_1_l. Qed.

(** On page numbers, the buddy is reached by flipping bit [order]. *)
Lemma buddy_of_lxor page order :
  buddy_of page order = N.to_nat (N.lxor (N.of_nat page) (2 ^ N.of_nat order)).
Proof.
  unfold buddy_of, page2pa. f_equal.
  rewrite PAGE_SIZE_pow2, (N.shiftl_mul_pow2 (2 ^ PAGE_SHIFT)).
  rewrite (N.mul_comm (2 ^ PAGE_SHIFT)), <- !N.shiftl_mul_pow2.
  rewrite <- N.shiftl_lxor, <- N.shiftr_div_pow2.
  rewrite N.shiftr_shiftl_l by lia.
  by rewrite N.sub_diag, N.shiftl_0_r.
Qed.

(** The address reached by the XOR is the address of the buddy. *)
Lemma buddy_pa_page2pa page order :
  N.lxor (page2pa page) (N.shiftl PAGE_SIZE (N.of_nat order))
  = page2pa (buddy_of page order).
Proof.
  rewrite buddy_of_lxor. unfold page2pa. rewrite N2Nat.id.
  rewrite PAGE_SIZE_pow2, (N.shiftl_mul_pow2 (2 ^ PAGE_SHIFT)).
  rewrite (N.mul_comm (2 ^ PAGE_SHIFT)), <- !N.shiftl_mul_pow2.
  by rewrite <- N.shiftl_lxor.
Qed.

Lemma page2pa_lt i j : (page2pa i < page2pa j)%N ↔ i < j.
Proof.
  unfold page2pa. rewrite <- N.mul_lt_mono_pos_r; [lia|].
  rewrite PAGE_SIZE_pow2. apply N.neq_0_lt_0, N.pow_nonzero. lia.
Qed.

Lemma buddy_of_ne page order : buddy_of page order ≠ page.
Proof.
  rewrite buddy_of_lxor. intros E.
  assert (E' : N.lxor (N.of_nat page) (2 ^ N.of_nat order) = N.of_nat page) by lia.
  assert (Z : (2 ^ N.of_nat order = 0)%N).
  { transitivity (N.lxor (N.of_nat page)
                    (N.lxor (N.of_nat page) (2 ^ N.of_nat order))).
    - by rewrite <- N.lxor_assoc, N.lxor_nilpotent, N.lxor_0_l.
    - by rewrite E', N.lxor_nilpotent. }
  apply N.pow_nonzero in Z; [done | lia].
Qed.

Lemma buddy_of_inj page o1 o2 : buddy_of page o1 = buddy_of page o2 → o1 = o2.
Proof.
  rewrite !buddy_of_lxor. intros E.
  assert (E' : N.lxor (N.of_nat page) (2 ^ N.of_nat o1)
             = N.lxor (N.of_nat page) (2 ^ N.of_nat o2)) by lia.
  assert (P : (2 ^ N.of_nat o1 = 2 ^ N.of_nat o2)%N).
  { apply (f_equal (N.lxor (N.of_nat page))) in E'.
    by rewrite <- !N.lxor_assoc, !N.lxor_nilpotent, !N.lxor_0_l in E'. }
  apply N.pow_inj_r in P; lia.
Qed.

(** For a block aligned to twice the size, the buddy is the upper half. *)
Lemma buddy_of_aligned page order :
  (2 ^ S order | page) → buddy_of page order = page + 2 ^ order.
Proof.
  intros [q ->]. rewrite buddy_of_lxor.
  rewrite <- N.add_nocarry_lxor.
  - rewrite Nat2N.inj_mul, Nat2N.inj_pow. 
    rewrite N2Nat.inj_add, N2Nat.inj_mul, !N2Nat.inj_pow, !Nat2N.id. 
    change (N.to_nat 2) with 2. lia.
  - apply N.bits_inj_0. intros n. rewrite N.land_spec.
    destruct (decide (n = N.of_nat order)) as [->|Hn].
    + rewrite Nat2N.inj_mul, Nat2N.inj_pow.
      change (N.of_nat 2) with 2%N.
      rewrite N.mul_pow2_bits_low; [done | lia].
    + rewrite N.pow2_bits_false by done. by rewrite andb_false_r.
Qed.

End Arithmetic.

(** ** Elementary steps *)

Section Steps.
Context `{Config}.

Lemma page_get_Some i s p : pages s !! i = Some p → page_get i s = Done p.
Proof. unfold page_get. by intros ->. Qed.

Lemma page_get_Done i s p : page_get i s = Done p → pages s !! i = Some p.
Proof. unfold page_get. destruct (pages s !! i); by inversion 1. Qed.

Lemma page_update_Some f i s p :
  pages s !! i = Some p →
  page_update f i s = Done (set_pages s (<[i := f p]> (pages s))).
Proof. intros Hp. unfold page_update. by rewrite (page_get_Some _ _ _ Hp). Qed.

Lemma pa2page_buddy page order s :
  buddy_of page order < npages s →
  pa2page (N.lxor (page2pa page) (N.shiftl PAGE_SIZE (N.of_nat order))) s
  = Done (buddy_of page order).
Proof. intros Hlt. unfold pa2page. fold (buddy_of page order). by case_decide. Qed.

Lemma list_head_Some k s l :
  buddy_free_list s !! k = Some l → list_head k s = Done l.
Proof. unfold list_head. by intros ->. Qed.

Lemma list_head_None k s :
  length (buddy_free_list s) ≤ k → list_head k s = Fault (FreeListOutOfRange k).
Proof. intros Hk. unfold list_head. by rewrite (lookup_ge_None_2 _ _ Hk). Qed.

Lemma list_add_Some k node s l :
  buddy_free_list s !! k = Some l →
  list_add k node s = Done (set_lists s (<[k := node :: l]> (buddy_free_list s))).
Proof. intros Hl. unfold list_add. by rewrite (list_head_Some _ _ _ Hl). Qed.

(** One turn of the loop of buddy_split, with the five stores merged. *)
Lemma buddy_split_step fuel lhs req s p q l o :
  pages s !! lhs = Some p → pp_order p = S o → req ≤ o →
  pages s !! buddy_of lhs o = Some q →
  buddy_free_list s !! o = Some l →
  buddy_split_loop (S fuel) lhs req s =
  buddy_split_loop fuel lhs req
    (State (<[buddy_of lhs o := PageInfo (pp_ref q) o true]>
              (<[lhs := PageInfo (pp_ref p) o false]> (pages s)))
           (<[o := buddy_of lhs o :: l]> (buddy_free_list s))).
Proof.
  intros Hp Ho Hreq Hq Hl.
  assert (Hlhs : lhs < length (pages s)) by (by eapply lookup_lt_Some).
  assert (Hb : buddy_of lhs o < length (pages s)) by (by eapply lookup_lt_Some).
  pose proof (buddy_of_ne lhs o) as Hne.
  cbn [buddy_split_loop]. rewrite (page_get_Some _ _ _ Hp). cbn [mbind outcome_bind].
  rewrite decide_True by lia. rewrite Ho. replace (S o - 1) with o by lia.
  rewrite pa2page_buddy by done. cbn [mbind outcome_bind].
  unfold set_pp_order, set_pp_free.
  rewrite (page_update_Some _ _ _ _ Hp). cbn [mbind outcome_bind].
  erewrite page_update_Some
    by (cbn [pages set_pages]; by apply list_lookup_insert_eq).
  cbn [mbind outcome_bind pages set_pages pp_ref pp_order pp_free].
  rewrite list_insert_insert_eq.
  erewrite page_update_Some
    by (cbn [pages set_pages]; by rewrite list_lookup_insert_ne).
  cbn [mbind outcome_bind pages set_pages pp_ref pp_order pp_free].
  erewrite page_update_Some
    by (cbn [pages set_pages];
        apply list_lookup_insert_eq; by rewrite length_insert).
  cbn [mbind outcome_bind pages set_pages pp_ref pp_order pp_free].
  rewrite list_insert_insert_eq.
  erewrite list_add_Some by (cbn; done).
  done.
Qed.

End Steps.

(** ** The split engine *)

Section Split.
Context `{Config}.

(** A block of order [j + n] split down to order [j]: [n] turns, fuel
    [n] is enough, and the final state is described field by field. *)
Lemma buddy_split_loop_spec n : ∀ fuel lhs j s p,
  pages s !! lhs = Some p → pp_order p = j + n → n ≤ fuel →
  j + n ≤ length (buddy_free_list s) →
  (∀ i, j ≤ i < j + n → buddy_of lhs i < npages s) →
  ∃ s', buddy_split_loop fuel lhs j s = Done s' ∧
    length (pages s') = length (pages s) ∧
    length (buddy_free_list s') = length (buddy_free_list s) ∧
    pages s' !! lhs
      = Some (PageInfo (pp_ref p) j (if n is 0 then pp_free p else false)) ∧
    (∀ i, j ≤ i < j + n → ∃ q,
       pages s !! buddy_of lhs i = Some q ∧
       pages s' !! buddy_of lhs i = Some (PageInfo (pp_ref q) i true)) ∧
    (∀ x, x ≠ lhs → (∀ i, j ≤ i < j + n → x ≠ buddy_of lhs i) →
       pages s' !! x = pages s !! x) ∧
    (∀ i l, j ≤ i < j + n → buddy_free_list s !! i = Some l →
       buddy_free_list s' !! i = Some (buddy_of lhs i :: l)) ∧
    (∀ i, ¬ (j ≤ i < j + n) →
       buddy_free_list s' !! i = buddy_free_list s !! i).
Proof.
  induction n as [|m IH]; intros fuel lhs j s p Hp Ho Hfuel Hlen Hrange.
  - exists s. split_and!; try done; try (intros; lia).
    + destruct fuel; cbn [buddy_split_loop];
        rewrite (page_get_Some _ _ _ Hp); cbn [mbind outcome_bind];
        by rewrite decide_False by lia.
    + rewrite Hp. f_equal. destruct p; cbn in *. f_equal. lia.
  - destruct fuel as [|fuel]; [lia|].
    set (o := j + m).
    assert (Hb : buddy_of lhs o < npages s) by (apply Hrange; lia).
    destruct (lookup_lt_is_Some_2 _ _ Hb) as [q Hq].
    destruct (lookup_lt_is_Some_2 (buddy_free_list s) o ltac:(lia)) as [l Hl].
    assert (Hlhs : lhs < length (pages s)) by (by eapply lookup_lt_Some).
    pose proof (buddy_of_ne lhs o) as Hne.
    rewrite (buddy_split_step fuel lhs j s p q l o) by (done || lia).
    set (s1 := State _ _).
    destruct (IH fuel lhs j s1 (PageInfo (pp_ref p) o false))
      as (s' & Hrun & Hlp & Hll & Hlhs' & Hbud & Hoth & Hin & Hout).
    { subst s1; cbn. rewrite list_lookup_insert_ne by done.
      by apply list_lookup_insert_eq. }
    { done. }
    { lia. }
    { subst s1; cbn. rewrite length_insert. lia. }
    { intros i Hi. subst s1. unfold npages; cbn. rewrite !length_insert.
      apply Hrange. lia. }
    exists s'. split_and!.
    + done.
    + rewrite Hlp. subst s1; cbn. by rewrite !length_insert.
    + rewrite Hll. subst s1; cbn. by rewrite length_insert.
    + rewrite Hlhs'. cbn. by destruct m.
    + intros i Hi. destruct (decide (i = o)) as [->|Hio].
      * exists q. split; [done|].
        rewrite Hoth; [| done |].
        -- subst s1; cbn. apply list_lookup_insert_eq.
           by rewrite length_insert.
        -- intros i Hi' E. apply buddy_of_inj in E. lia.
      * destruct (Hbud i ltac:(lia)) as (q' & Hq' & Hq'').
        exists q'. split; [|done].
        rewrite <- Hq'. subst s1; cbn.
        rewrite !list_lookup_insert_ne; [done | apply not_eq_sym, buddy_of_ne |].
        intros E. apply buddy_of_inj in E. lia.
    + intros x Hx Hxb. rewrite Hoth by (done || (intros; apply Hxb; lia)).
      subst s1; cbn. rewrite !list_lookup_insert_ne; [done | done |].
      apply not_eq_sym, Hxb. lia.
    + intros i l' Hi Hl'. destruct (decide (i = o)) as [->|Hio].
      * rewrite Hout by lia. subst s1; cbn.
        rewrite Hl in Hl'. injection Hl' as <-.
        apply list_lookup_insert_eq. by eapply lookup_lt_Some.
      * apply Hin; [lia|]. subst s1; cbn.
        by rewrite list_lookup_insert_ne.
    + intros i Hi. rewrite Hout by lia. subst s1; cbn.
      apply list_lookup_insert_ne. lia.
Qed.

(** buddy_split never runs out of fuel and, when the buddies it reaches
    are in the table, returns its argument with the state below. *)
Lemma buddy_split_spec s lhs k j p :
  pages s !! lhs = Some p → pp_order p = k → j ≤ k →
  k ≤ length (buddy_free_list s) →
  (∀ i, j ≤ i < k → buddy_of lhs i < npages s) →
  ∃ s', buddy_split lhs j s = Done (lhs, s') ∧
    npages s' = npages s ∧
    length (buddy_free_list s') = length (buddy_free_list s) ∧
    pages s' !! lhs
      = Some (PageInfo (pp_ref p) j (if decide (j = k) then pp_free p else false)) ∧
    (∀ i, j ≤ i < k → ∃ q,
       pages s !! buddy_of lhs i = Some q ∧
       pages s' !! buddy_of lhs i = Some (PageInfo (pp_ref q) i true)) ∧
    (∀ x, x ≠ lhs → (∀ i, j ≤ i < k → x ≠ buddy_of lhs i) →
       pages s' !! x = pages s !! x) ∧
    (∀ i l, j ≤ i < k → buddy_free_list s !! i = Some l →
       buddy_free_list s' !! i = Some (buddy_of lhs i :: l)) ∧
    (∀ i, ¬ (j ≤ i < k) →
       buddy_free_list s' !! i = buddy_free_list s !! i).
Proof.
  intros Hp Ho Hjk Hlen Hrange.
  destruct (buddy_split_loop_spec (k - j) k lhs j s p)
    as (s' & Hrun & Hlp & Hll & Hlhs & Hbud & Hoth & Hin & Hout);
    try done; try lia.
  { intros i Hi. apply Hrange. lia. }
  exists s'. unfold buddy_split.
  rewrite (page_get_Some _ _ _ Hp). cbn [mbind outcome_bind].
  rewrite Ho, Hrun. cbn [mbind outcome_bind]. split_and!; try done.
  - rewrite Hlhs. do 2 f_equal.
    case_decide; destruct (k - j) eqn:E; done || lia.
  - intros i Hi. apply Hbud. lia.
  - intros x Hx Hxb. apply Hoth; [done|]. intros i Hi. apply Hxb. lia.
  - intros i l Hi. apply Hin. lia.
  - intros i Hi. apply Hout. lia.
Qed.

(** In a block aligned to its order, every lower-order buddy of the base
    is the upper half of its pair and lies inside the block. *)
Lemma buddy_of_in_block lhs k i :
  (2 ^ k | lhs) → i < k →
  buddy_of lhs i = lhs + 2 ^ i ∧ lhs + 2 ^ i < lhs + 2 ^ k.
Proof.
  intros Hal Hi. split.
  - apply buddy_of_aligned. etrans; [|exact Hal].
    exists (2 ^ (k - S i)). rewrite <- Nat.pow_add_r. f_equal. lia.
  - apply Nat.add_lt_mono_l, Nat.pow_lt_mono_r; lia.
Qed.

Lemma not_linked_split s s' lhs j k :
  k ≤ length (buddy_free_list s) →
  (∀ i l, j ≤ i < k → buddy_free_list s !! i = Some l →
     buddy_free_list s' !! i = Some (buddy_of lhs i :: l)) →
  (∀ i, ¬ (j ≤ i < k) →
     buddy_free_list s' !! i = buddy_free_list s !! i) →
  ¬ linked lhs s → ¬ linked lhs s'.
Proof.
  intros Hlen Hin Hout Hnl (i & l' & Hl' & Hmem). apply Hnl.
  destruct (decide (j ≤ i < k)) as [Hi|Hi].
  - destruct (lookup_lt_is_Some_2 (buddy_free_list s) i ltac:(lia)) as [l Hl].
    rewrite (Hin i l Hi Hl) in Hl'. injection Hl' as <-.
    apply elem_of_cons in Hmem as [E|Hmem].
    + by destruct (buddy_of_ne lhs i).
    + by exists i, l.
  - rewrite (Hout i Hi) in Hl'. by exists i, l'.
Qed.

End Split.

(** ** Termination *)

Section Termination.
Context `{Config}.

Lemma page_update_inv f i s s' :
  page_update f i s = Done s' →
  ∃ p, pages s !! i = Some p ∧ s' = set_pages s (<[i := f p]> (pages s)).
Proof.
  unfold page_update, page_get. destruct (pages s !! i) as [p|]; [|done].
  cbn. intros [= <-]. by exists p.
Qed.

Lemma pa2page_inv pa s i :
  pa2page pa s = Done i → i = N.to_nat (pa / PAGE_SIZE) ∧ i < npages s.
Proof. unfold pa2page. case_decide; [|done]. by intros [= <-]. Qed.

Lemma list_add_inv k node s s' :
  list_add k node s = Done s' →
  ∃ l, buddy_free_list s !! k = Some l ∧
       s' = set_lists s (<[k := node :: l]> (buddy_free_list s)).
Proof.
  unfold list_add, list_head. destruct (buddy_free_list s !! k) as [l|]; [|done].
  cbn. intros [= <-]. by exists l.
Qed.

(** Two runs that start with the same action. *)
Ltac step_bind :=
  match goal with
  | |- mbind _ ?x = mbind _ ?x =>
      destruct x; cbn [mbind outcome_bind]; try done
  end.

(** Case analysis on the first action of a run. *)
Lemma bind_Done {A B} (x : outcome A) (f : A → outcome B) b :
  x ≫= f = Done b → ∃ a, x = Done a ∧ f a = Done b.
Proof. destruct x; cbn; [eauto | done | done]. Qed.

Lemma bind_not_OutOfFuel {A B} (x : outcome A) (f : A → outcome B) :
  x ≠ OutOfFuel → (∀ a, x = Done a → f a ≠ OutOfFuel) → x ≫= f ≠ OutOfFuel.
Proof. destruct x; cbn; [eauto | done | done]. Qed.

Lemma page_get_fuel i s : page_get i s ≠ OutOfFuel.
Proof. unfold page_get. by destruct (pages s !! i). Qed.

Lemma page_update_fuel f i s : page_update f i s ≠ OutOfFuel.
Proof. unfold page_update, page_get. by destruct (pages s !! i). Qed.

Lemma pa2page_fuel pa s : pa2page pa s ≠ OutOfFuel.
Proof. unfold pa2page. by case_decide. Qed.

Lemma list_head_fuel k s : list_head k s ≠ OutOfFuel.
Proof. unfold list_head. by destruct (buddy_free_list s !! k). Qed.

Lemma list_add_fuel k node s : list_add k node s ≠ OutOfFuel.
Proof. unfold list_add, list_head. by destruct (buddy_free_list s !! k). Qed.

(** The order of [lhs] bounds the turns of the loop of buddy_split. *)
Lemma buddy_split_loop_fuel fuel : ∀ lhs req s,
  (∀ l, pages s !! lhs = Some l → pp_order l - req ≤ fuel) →
  buddy_split_loop fuel lhs req s ≠ OutOfFuel.
Proof.
  induction fuel as [|fuel IH]; intros lhs req s Hbound.
  - cbn [buddy_split_loop]. apply bind_not_OutOfFuel; [apply page_get_fuel|].
    intros l Hl%page_get_Done. specialize (Hbound l Hl).
    by rewrite decide_False by lia.
  - cbn [buddy_split_loop]. apply bind_not_OutOfFuel; [apply page_get_fuel|].
    intros l Hl%page_get_Done. specialize (Hbound l Hl).
    case_decide; [|done].
    apply bind_not_OutOfFuel; [apply pa2page_fuel|].
    intros buddy [Hbuddy _]%pa2page_inv.
    apply bind_not_OutOfFuel; [apply page_update_fuel|].
    intros s1 (p1 & Hp1 & ->)%page_update_inv.
    apply bind_not_OutOfFuel; [apply page_update_fuel|].
    intros s2 (p2 & Hp2 & ->)%page_update_inv.
    apply bind_not_OutOfFuel; [apply page_update_fuel|].
    intros s3 (p3 & Hp3 & ->)%page_update_inv.
    apply bind_not_OutOfFuel; [apply page_update_fuel|].
    intros s4 (p4 & Hp4 & ->)%page_update_inv.
    apply bind_not_OutOfFuel; [apply list_add_fuel|].
    intros s5 (l5 & Hl5 & ->)%list_add_inv.
    apply IH. cbn. intros l'.
    assert (Hne : buddy ≠ lhs).
    { rewrite Hbuddy. apply (buddy_of_ne lhs (pp_order l - 1)). }
    rewrite !list_lookup_insert_ne by done.
    rewrite list_insert_insert_eq.
    rewrite list_lookup_insert_eq by (by eapply lookup_lt_Some).
    intros [= <-]. cbn in Hp2 |- *.
    rewrite list_lookup_insert_eq in Hp2 by (by eapply lookup_lt_Some).
    injection Hp2 as <-. cbn. lia.
Qed.

Lemma buddy_split_total lhs req s : buddy_split lhs req s ≠ OutOfFuel.
Proof.
  unfold buddy_split. apply bind_not_OutOfFuel; [apply page_get_fuel|].
  intros l Hl%page_get_Done.
  apply bind_not_OutOfFuel; [|done].
  apply buddy_split_loop_fuel. intros l'. rewrite Hl. intros [= <-]. lia.
Qed.

(** [order] rises by one on every turn of the loop of buddy_merge. *)
Lemma buddy_merge_loop_fuel fuel : ∀ order page s,
  BUDDY_MAX_ORDER - order ≤ fuel →
  buddy_merge_loop fuel order page s ≠ OutOfFuel.
Proof.
  induction fuel as [|fuel IH]; intros order page s Hfuel;
    cbn [buddy_merge_loop]; case_decide; try done; try lia.
  apply bind_not_OutOfFuel; [apply page_get_fuel|]. intros p _.
  apply bind_not_OutOfFuel; [apply pa2page_fuel|]. intros buddy _.
  apply bind_not_OutOfFuel; [apply page_get_fuel|]. intros b _.
  destruct (negb (pp_free b) || negb (bool_decide (pp_order b = order)));
    [done|].
  apply bind_not_OutOfFuel; [apply page_update_fuel|]. intros s1 _.
  apply bind_not_OutOfFuel; [apply page_update_fuel|]. intros s2 _.
  apply bind_not_OutOfFuel; [apply page_update_fuel|]. intros s3 _.
  apply bind_not_OutOfFuel; [apply page_update_fuel|]. intros s4 _.
  apply IH. lia.
Qed.

(** Fuel beyond [BUDDY_MAX_ORDER - order] is not looked at. *)
Lemma buddy_merge_loop_more_fuel fuel1 : ∀ fuel2 order page s,
  BUDDY_MAX_ORDER - order ≤ fuel1 → BUDDY_MAX_ORDER - order ≤ fuel2 →
  buddy_merge_loop fuel1 order page s = buddy_merge_loop fuel2 order page s.
Proof.
  induction fuel1 as [|fuel1 IH]; intros [|fuel2] order page s H1 H2;
    cbn [buddy_merge_loop]; case_decide; try done; try lia.
  repeat step_bind.
  destruct (negb _ || negb _); [done|].
  repeat step_bind. apply IH; lia.
Qed.

Lemma buddy_merge_total page s : buddy_merge page s ≠ OutOfFuel.
Proof.
  unfold buddy_merge. apply bind_not_OutOfFuel; [apply page_get_fuel|].
  intros p _. apply bind_not_OutOfFuel; [apply buddy_merge_loop_fuel; lia|].
  intros [pg s1] _. apply bind_not_OutOfFuel; [apply page_update_fuel|].
  intros s2 _. apply bind_not_OutOfFuel; [apply page_get_fuel|].
  intros p2 _. apply bind_not_OutOfFuel; [apply list_add_fuel|]. done.
Qed.

(** The loop of buddy_find visits the orders req_order, ...,
    BUDDY_MAX_ORDER. *)
Lemma buddy_find_loop_fuel fuel : ∀ order req s,
  S BUDDY_MAX_ORDER - order ≤ fuel →
  buddy_find_loop fuel order req s ≠ OutOfFuel.
Proof.
  induction fuel as [|fuel IH]; intros order req s Hfuel;
    cbn [buddy_find_loop]; case_decide; try done; try lia.
  apply bind_not_OutOfFuel.
  { unfold list_is_empty. apply bind_not_OutOfFuel; [apply list_head_fuel|done]. }
  intros e _. destruct e; cbn [negb]; [apply IH; lia|].
  apply bind_not_OutOfFuel.
  { unfold list_pop. apply bind_not_OutOfFuel; [apply list_head_fuel|].
    by intros [|??] _. }
  intros [[page|] s1] _; [|done].
  case_decide; [|done].
  apply bind_not_OutOfFuel; [apply buddy_split_total|]. by intros [??] _.
Qed.

Lemma buddy_find_total req s : buddy_find req s ≠ OutOfFuel.
Proof. apply buddy_find_loop_fuel. lia. Qed.

End Termination.

(** ** Block search *)

Section Find.
Context `{Config}.

Lemma list_is_empty_Some k s l :
  buddy_free_list s !! k = Some l →
  list_is_empty k s = Done (bool_decide (l = [])).
Proof. intros Hl. unfold list_is_empty. by rewrite (list_head_Some _ _ _ Hl). Qed.

Lemma list_pop_cons k s node l :
  buddy_free_list s !! k = Some (node :: l) →
  list_pop k s = Done (Some node, set_lists s (<[k := l]> (buddy_free_list s))).
Proof. intros Hl. unfold list_pop. by rewrite (list_head_Some _ _ _ Hl). Qed.

(** The search stops at the first order, from [order] on, whose list is
    not empty; there it pops the first block and splits it if need be. *)
Lemma buddy_find_loop_hit d : ∀ fuel order req s blk rest,
  (∀ i, order ≤ i < order + d → buddy_free_list s !! i = Some []) →
  buddy_free_list s !! (order + d) = Some (blk :: rest) →
  order + d ≤ BUDDY_MAX_ORDER → d < fuel →
  buddy_find_loop fuel order req s =
    let s1 := set_lists s (<[order + d := rest]> (buddy_free_list s)) in
    if decide (req < order + d)
    then '(page, s2) ← buddy_split blk req s1; Done (Some page, s2)
    else Done (Some blk, s1).
Proof.
  induction d as [|d IH]; intros fuel order req s blk rest Hempty Hhit Hmax Hfuel;
    (destruct fuel as [|fuel]; [lia|]); cbn [buddy_find_loop];
    rewrite decide_True by lia.
  - rewrite Nat.add_0_r in *.
    rewrite (list_is_empty_Some _ _ _ Hhit). cbn [mbind outcome_bind].
    rewrite bool_decide_eq_false_2 by done. cbn [negb].
    rewrite (list_pop_cons _ _ _ _ Hhit). done.
  - rewrite (list_is_empty_Some _ _ [] (Hempty order ltac:(lia))).
    cbn [mbind outcome_bind]. rewrite bool_decide_eq_true_2 by done. cbn [negb].
    rewrite (IH fuel (S order) req s blk rest); try lia.
    + by replace (S order + d) with (order + S d) by lia.
    + intros i Hi. apply Hempty. lia.
    + by replace (S order + d) with (order + S d) by lia.
Qed.

(** With every list from [order] on empty, the search goes on to the
    index BUDDY_MAX_ORDER, which is outside the array of heads. *)
Lemma buddy_find_loop_exhausted d : ∀ fuel order req s,
  order + d = BUDDY_MAX_ORDER →
  length (buddy_free_list s) = BUDDY_MAX_ORDER →
  (∀ i, order ≤ i < BUDDY_MAX_ORDER → buddy_free_list s !! i = Some []) →
  d < fuel →
  buddy_find_loop fuel order req s
  = Fault (FreeListOutOfRange BUDDY_MAX_ORDER).
Proof.
  induction d as [|d IH]; intros fuel order req s Hd Hlen Hempty Hfuel;
    (destruct fuel as [|fuel]; [lia|]); cbn [buddy_find_loop];
    rewrite decide_True by lia.
  - rewrite Nat.add_0_r in Hd. subst order. unfold list_is_empty.
    by rewrite list_head_None by lia.
  - rewrite (list_is_empty_Some _ _ [] (Hempty order ltac:(lia))).
    cbn [mbind outcome_bind]. rewrite bool_decide_eq_true_2 by done. cbn [negb].
    apply IH; try lia. intros i Hi. apply Hempty. lia.
Qed.

Lemma buddy_find_exhausted req s :
  req ≤ BUDDY_MAX_ORDER →
  length (buddy_free_list s) = BUDDY_MAX_ORDER →
  (∀ i, req ≤ i < BUDDY_MAX_ORDER → buddy_free_list s !! i = Some []) →
  buddy_find req s = Fault (FreeListOutOfRange BUDDY_MAX_ORDER).
Proof.
  intros Hreq Hlen Hempty.
  apply (buddy_find_loop_exhausted (BUDDY_MAX_ORDER - req)); (done || lia).
Qed.

(** Beyond BUDDY_MAX_ORDER the loop is not entered. *)
Lemma buddy_find_beyond req s :
  BUDDY_MAX_ORDER < req → buddy_find req s = Done (None, s).
Proof. intros Hreq. unfold buddy_find. cbn. by rewrite decide_False by lia. Qed.

Lemma buddy_find_hit req k s blk rest :
  req ≤ k → k ≤ BUDDY_MAX_ORDER →
  (∀ i, req ≤ i < k → buddy_free_list s !! i = Some []) →
  buddy_free_list s !! k = Some (blk :: rest) →
  buddy_find req s =
    let s1 := set_lists s (<[k := rest]> (buddy_free_list s)) in
    if decide (req < k)
    then '(page, s2) ← buddy_split blk req s1; Done (Some page, s2)
    else Done (Some blk, s1).
Proof.
  intros Hreq Hk Hempty Hhit. unfold buddy_find.
  rewrite (buddy_find_loop_hit (k - req) _ req req s blk rest);
    replace (req + (k - req)) with k by lia; (done || lia).
Qed.

End Find.

(** ** What the allocation path leaves alone *)

Section Frame.
Context `{Config}.

Lemma same_refs_refl s : same_refs s s.
Proof. done. Qed.

Lemma same_refs_trans s1 s2 s3 :
  same_refs s1 s2 → same_refs s2 s3 → same_refs s1 s3.
Proof. intros H12 H23 i. by rewrite H23, H12. Qed.

Lemma same_refs_npages s s' : same_refs s s' → npages s' = npages s.
Proof.
  intros Hrefs. unfold npages.
  destruct (Nat.lt_trichotomy (length (pages s')) (length (pages s)))
    as [Hlt|[Heq|Hlt]]; [|done|]; exfalso.
  - specialize (Hrefs (length (pages s'))).
    rewrite (lookup_ge_None_2 (pages s')) in Hrefs by lia.
    destruct (lookup_lt_is_Some_2 _ _ Hlt) as [p Hp]. by rewrite Hp in Hrefs.
  - specialize (Hrefs (length (pages s))).
    rewrite (lookup_ge_None_2 (pages s)) in Hrefs by lia.
    destruct (lookup_lt_is_Some_2 _ _ Hlt) as [p Hp]. by rewrite Hp in Hrefs.
Qed.

Lemma page_update_refs f i s s' :
  (∀ p, pp_ref (f p) = pp_ref p) →
  page_update f i s = Done s' → same_refs s s'.
Proof.
  intros Hf (p & Hp & ->)%page_update_inv x. cbn.
  destruct (decide (i = x)) as [->|Hne].
  - rewrite list_lookup_insert_eq by (by eapply lookup_lt_Some).
    rewrite Hp. cbn. by rewrite Hf.
  - by rewrite list_lookup_insert_ne.
Qed.

Lemma set_pp_order_refs i o s s' : set_pp_order i o s = Done s' → same_refs s s'.
Proof. by apply page_update_refs. Qed.

Lemma set_pp_free_refs i b s s' : set_pp_free i b s = Done s' → same_refs s s'.
Proof. by apply page_update_refs. Qed.

Lemma list_add_refs k node s s' : list_add k node s = Done s' → same_refs s s'.
Proof. by intros (l & _ & ->)%list_add_inv. Qed.

Lemma buddy_split_loop_refs fuel : ∀ lhs req s s',
  buddy_split_loop fuel lhs req s = Done s' → same_refs s s'.
Proof.
  induction fuel as [|fuel IH]; intros lhs req s s'; cbn [buddy_split_loop];
    intros (l & _ & Hrun)%bind_Done; case_decide; try done;
    try (injection Hrun as <-; apply same_refs_refl).
  apply bind_Done in Hrun as (buddy & _ & Hrun).
  apply bind_Done in Hrun as (s1 & H1%set_pp_order_refs & Hrun).
  apply bind_Done in Hrun as (s2 & H2%set_pp_free_refs & Hrun).
  apply bind_Done in Hrun as (s3 & H3%set_pp_order_refs & Hrun).
  apply bind_Done in Hrun as (s4 & H4%set_pp_free_refs & Hrun).
  apply bind_Done in Hrun as (s5 & H5%list_add_refs & Hrun%IH).
  repeat (eapply same_refs_trans; [eassumption|]). done.
Qed.

Lemma buddy_split_inv lhs req s page s' :
  buddy_split lhs req s = Done (page, s') →
  page = lhs ∧ lhs < npages s ∧ same_refs s s'.
Proof.
  unfold buddy_split. intros (l & Hl%page_get_Done & Hrun)%bind_Done.
  apply bind_Done in Hrun as (s1 & Hrefs%buddy_split_loop_refs & Hrun).
  injection Hrun as <- <-. split_and!; [done | by eapply lookup_lt_Some | done].
Qed.

Lemma list_pop_inv k s node s' :
  list_pop k s = Done (Some node, s') →
  ∃ l, buddy_free_list s !! k = Some (node :: l) ∧
       s' = set_lists s (<[k := l]> (buddy_free_list s)).
Proof.
  unfold list_pop, list_head. destruct (buddy_free_list s !! k) as [[|n l]|];
    cbn; try done. intros [= <- <-]. by exists l.
Qed.

(** A block handed out by the search is a descriptor of the table, and
    the search changes no reference count. *)
Lemma buddy_find_loop_inv fuel : ∀ order req s r s',
  buddy_find_loop fuel order req s = Done (r, s') →
  same_refs s s' ∧
  (lists_in_table s → ∀ page, r = Some page → page < npages s').
Proof.
  induction fuel as [|fuel IH]; intros order req s r s'; cbn [buddy_find_loop];
    case_decide; try done;
    try (intros [= <- <-]; split; [apply same_refs_refl | done]).
  intros (e & _ & Hrun)%bind_Done. destruct e; cbn [negb] in Hrun.
  { by apply IH in Hrun. }
  apply bind_Done in Hrun as ([[node|] s1] & Hpop & Hrun); [|done].
  apply list_pop_inv in Hpop as (l & Hl & ->).
  assert (Hlinked : linked node s).
  { exists order, (node :: l). split; [done | by left]. }
  case_decide.
  - apply bind_Done in Hrun as ([page s2] & Hsplit & Hrun).
    injection Hrun as <- <-.
    apply buddy_split_inv in Hsplit as (-> & Hlt & Hrefs).
    split; [done|]. intros _ page [= <-].
    by rewrite (same_refs_npages _ _ Hrefs).
  - injection Hrun as <- <-. split; [done|].
    intros Htable page [= <-]. by apply Htable.
Qed.

End Frame.

(** ** The merge engine *)

Section Merge.
Context `{Config}.

(** A released block whose buddy cannot be merged (in use, or free at
    another order) is marked free and linked at the head of the list of
    its own order. *)
Lemma buddy_merge_unmergeable page s p b l :
  pages s !! page = Some p → pp_order p < BUDDY_MAX_ORDER →
  pages s !! buddy_of page (pp_order p) = Some b →
  pp_free b = false ∨ pp_order b ≠ pp_order p →
  buddy_free_list s !! pp_order p = Some l →
  buddy_merge page s =
    Done (page, State (<[page := PageInfo (pp_ref p) (pp_order p) true]> (pages s))
                      (<[pp_order p := page :: l]> (buddy_free_list s))).
Proof.
  intros Hp Ho Hb Hun Hl. unfold buddy_merge.
  rewrite (page_get_Some _ _ _ Hp). cbn [mbind outcome_bind].
  destruct BUDDY_MAX_ORDER as [|fuel] eqn:Hmax; [lia|].
  cbn [buddy_merge_loop]. rewrite Hmax, decide_True by lia.
  rewrite (page_get_Some _ _ _ Hp). cbn [mbind outcome_bind].
  rewrite pa2page_buddy by (by eapply lookup_lt_Some).
  cbn [mbind outcome_bind].
  rewrite (page_get_Some _ _ _ Hb). cbn [mbind outcome_bind].
  assert (negb (pp_free b) || negb (bool_decide (pp_order b = pp_order p)) = true)
    as ->.
  { destruct Hun as [->|Hne]; [done|].
    rewrite (bool_decide_eq_false_2 _ Hne). apply orb_true_r. }
  cbn [mbind outcome_bind]. unfold set_pp_free.
  rewrite (page_update_Some _ _ _ _ Hp). cbn [mbind outcome_bind].
  erewrite page_get_Some
    by (cbn; apply list_lookup_insert_eq; by eapply lookup_lt_Some).
  cbn [mbind outcome_bind pp_order].
  erewrite list_add_Some by (cbn; done).
  done.
Qed.

(** A turn of the loop that merges: the buddy is unlinked, the one of the
    two with the lower address goes on as [page], and its order (like the
    order of the buddy descriptor) rises by one. *)
Lemma buddy_merge_loop_step fuel order page s p b :
  order < BUDDY_MAX_ORDER →
  pages s !! page = Some p → pp_order p = order →
  pages s !! buddy_of page order = Some b →
  pp_free b = true → pp_order b = order →
  buddy_merge_loop (S fuel) order page s =
    let buddy := buddy_of page order in
    let lists := filter (λ n, n ≠ buddy) <$> buddy_free_list s in
    let marked := <[buddy := PageInfo (pp_ref b) (S order) false]> (pages s) in
    if decide (buddy < page)
    then buddy_merge_loop fuel (S order) buddy (State marked lists)
    else buddy_merge_loop fuel (S order) page
           (State (<[page := PageInfo (pp_ref p) (S order) false]> marked) lists).
Proof.
  intros Ho Hp Hpo Hb Hbf Hbo.
  assert (Hpage : page < length (pages s)) by (by eapply lookup_lt_Some).
  assert (Hbuddy : buddy_of page order < length (pages s))
    by (by eapply lookup_lt_Some).
  pose proof (buddy_of_ne page order) as Hne.
  cbn [buddy_merge_loop]. rewrite decide_True by done.
  rewrite (page_get_Some _ _ _ Hp). cbn [mbind outcome_bind]. rewrite Hpo.
  rewrite pa2page_buddy by done. cbn [mbind outcome_bind].
  rewrite (page_get_Some _ _ _ Hb). cbn [mbind outcome_bind].
  rewrite Hbf, Hbo, bool_decide_eq_true_2 by done. cbn [negb orb].
  rewrite buddy_pa_page2pa.
  unfold set_pp_order, set_pp_free, list_del.
  erewrite page_update_Some by (cbn [pages set_lists]; exact Hb).
  cbn [mbind outcome_bind pages set_pages set_lists pp_ref pp_order pp_free].
  erewrite page_update_Some
    by (cbn [pages set_pages]; by apply list_lookup_insert_eq).
  cbn [mbind outcome_bind pages set_pages set_lists pp_ref pp_order pp_free].
  rewrite list_insert_insert_eq.
  destruct (decide (page2pa (buddy_of page order) < page2pa page)%N) as [Hlt|Hge];
    [rewrite decide_True by (by apply page2pa_lt)
    |rewrite decide_False by (by rewrite <- page2pa_lt)].
  - erewrite page_update_Some
      by (cbn [pages set_pages]; by apply list_lookup_insert_eq).
    cbn [mbind outcome_bind pages set_pages set_lists pp_ref pp_order pp_free].
    rewrite list_insert_insert_eq.
    erewrite page_update_Some
      by (cbn [pages set_pages]; by apply list_lookup_insert_eq).
    cbn [mbind outcome_bind pages set_pages set_lists pp_ref pp_order pp_free].
    by rewrite list_insert_insert_eq.
  - erewrite page_update_Some
      by (cbn [pages set_pages]; by rewrite list_lookup_insert_ne).
    cbn [mbind outcome_bind pages set_pages set_lists pp_ref pp_order pp_free].
    erewrite page_update_Some
      by (cbn [pages set_pages]; apply list_lookup_insert_eq;
          by rewrite length_insert).
    cbn [mbind outcome_bind pages set_pages set_lists pp_ref pp_order pp_free].
    by rewrite list_insert_insert_eq.
Qed.

(** The end of buddy_merge once the loop has stopped at [page]. *)
Lemma buddy_merge_finish page0 page s s1 p0 p1 :
  pages s !! page0 = Some p0 →
  buddy_merge_loop BUDDY_MAX_ORDER (pp_order p0) page0 s = Done (page, s1) →
  pages s1 !! page = Some p1 →
  buddy_merge page0 s =
    list_add (pp_order p1) page
      (set_pages s1 (<[page := PageInfo (pp_ref p1) (pp_order p1) true]> (pages s1)))
    ≫= λ s2, Done (page, s2).
Proof.
  intros Hp0 Hloop Hp1. unfold buddy_merge.
  rewrite (page_get_Some _ _ _ Hp0). cbn [mbind outcome_bind].
  rewrite Hloop. cbn [mbind outcome_bind]. unfold set_pp_free.
  rewrite (page_update_Some _ _ _ _ Hp1). cbn [mbind outcome_bind].
  erewrite page_get_Some
    by (cbn; apply list_lookup_insert_eq; by eapply lookup_lt_Some).
  done.
Qed.

(** The defect at the top order, for every state: a released block of
    order [BUDDY_MAX_ORDER - 1] whose buddy is free at that order is merged
    into a block of order BUDDY_MAX_ORDER, for which there is no list. *)
Lemma buddy_merge_top_order page s p b :
  length (buddy_free_list s) = BUDDY_MAX_ORDER →
  pages s !! page = Some p → S (pp_order p) = BUDDY_MAX_ORDER →
  pages s !! buddy_of page (pp_order p) = Some b →
  pp_free b = true → pp_order b = pp_order p →
  buddy_merge page s = Fault (FreeListOutOfRange BUDDY_MAX_ORDER).
Proof.
  intros Hlen Hp Hmax Hb Hbf Hbo.
  assert (Hpage : page < length (pages s)) by (by eapply lookup_lt_Some).
  assert (Hbuddy : buddy_of page (pp_order p) < length (pages s))
    by (by eapply lookup_lt_Some).
  pose proof (buddy_of_ne page (pp_order p)) as Hne.
  set (buddy := buddy_of page (pp_order p)) in *.
  set (marked := <[buddy := PageInfo (pp_ref b) BUDDY_MAX_ORDER false]> (pages s)).
  set (lists := filter (λ n, n ≠ buddy) <$> buddy_free_list s).
  assert (Hstep : ∃ page1 s1 p1,
    buddy_merge_loop BUDDY_MAX_ORDER (pp_order p) page s = Done (page1, s1) ∧
    pages s1 !! page1 = Some p1 ∧ pp_order p1 = BUDDY_MAX_ORDER ∧
    length (buddy_free_list s1) = BUDDY_MAX_ORDER).
  { pose proof (buddy_merge_loop_step (pp_order p) (pp_order p) page s p b
                    ltac:(lia) Hp eq_refl Hb Hbf Hbo) as Hturn.
    rewrite Hmax in Hturn. rewrite Hturn. clear Hturn.
    cbn zeta. fold buddy marked lists.
    assert (Hll : length lists = BUDDY_MAX_ORDER)
      by (subst lists; by rewrite length_fmap).
    case_decide.
    - exists buddy, (State marked lists), (PageInfo (pp_ref b) BUDDY_MAX_ORDER false).
      split_and!; try done.
      + destruct (pp_order p); cbn [buddy_merge_loop];
          by rewrite decide_False by lia.
      + subst marked; cbn. by apply list_lookup_insert_eq.
    - exists page,
        (State (<[page := PageInfo (pp_ref p) BUDDY_MAX_ORDER false]> marked) lists),
        (PageInfo (pp_ref p) BUDDY_MAX_ORDER false).
      split_and!; try done.
      + destruct (pp_order p); cbn [buddy_merge_loop];
          by rewrite decide_False by lia.
      + cbn. apply list_lookup_insert_eq. subst marked.
        by rewrite length_insert. }
  destruct Hstep as (page1 & s1 & p1 & Hloop & Hp1 & Ho1 & Hl1).
  rewrite (buddy_merge_finish page page1 s s1 p p1) by done.
  unfold list_add. rewrite list_head_None; [by rewrite Ho1|].
  cbn. lia.
Qed.

Lemma filter_ne_absent (node : nat) (l : list nat) :
  node ∉ l → filter (λ n, n ≠ node) l = l.
Proof.
  induction l as [|n l IH]; [done|]. intros [Hn Hl]%not_elem_of_cons.
  rewrite filter_cons_True by done. f_equal. by apply IH.
Qed.

Lemma filter_ne_present (node : nat) (l : list nat) :
  NoDup l → node ∈ l → S (length (filter (λ n, n ≠ node) l)) = length l.
Proof.
  induction l as [|n l IH]; [by intros _ ?%elem_of_nil|].
  intros [Hn Hnd]%NoDup_cons [->|Hin]%elem_of_cons.
  - rewrite filter_cons_False by (by intros ?).
    by rewrite filter_ne_absent.
  - rewrite filter_cons_True by (by intros ->). cbn. f_equal. by apply IH.
Qed.

(** Unlinking a descriptor that is linked nowhere changes no list. *)
Lemma list_del_not_linked node s :
  ¬ linked node s →
  filter (λ n, n ≠ node) <$> buddy_free_list s = buddy_free_list s.
Proof.
  intros Hnl. apply list_eq. intros k. rewrite list_lookup_fmap.
  destruct (buddy_free_list s !! k) as [l|] eqn:Hl; [|done]. cbn. f_equal.
  apply filter_ne_absent. intros Hn. apply Hnl. by exists k, l.
Qed.

(** Two adjacent pages of order 0 released one after the other, first the
    case of true buddies (the lower one even): they end up as one free
    block of order 1 headed by the lower page, provided the buddy of that
    block cannot be merged in turn. *)
Lemma release_true_buddies a s pa pb c l0 l1 :
  1 < BUDDY_MAX_ORDER → (2 | a) →
  pages s !! a = Some pa → pp_order pa = 0 →
  pages s !! (a + 1) = Some pb → pp_order pb = 0 → pp_free pb = false →
  ¬ linked a s →
  pages s !! buddy_of a 1 = Some c → pp_free c = false ∨ pp_order c ≠ 1 →
  buddy_free_list s !! 0 = Some l0 → buddy_free_list s !! 1 = Some l1 →
  page_free a s ≫= page_free (a + 1) =
    Done (State (<[a := PageInfo (pp_ref pa) 1 true]> (pages s))
                (<[1 := a :: l1]> (buddy_free_list s))).
Proof.
  intros Hmax Heven Hpa Hoa Hpb Hob Hfb Hnl Hc Hcun Hl0 Hl1.
  assert (Hba : buddy_of a 0 = a + 1).
  { rewrite buddy_of_aligned; [done | by rewrite Nat.pow_1_r]. }
  assert (Hbb : buddy_of (a + 1) 0 = a).
  { rewrite buddy_of_lxor. rewrite <- Hba at 1. rewrite buddy_of_lxor.
    rewrite N2Nat.id, N.lxor_assoc, N.lxor_nilpotent, N.lxor_0_r. lia. }
  assert (Hca : buddy_of a 1 ≠ a) by apply buddy_of_ne.
  assert (Hlen : a < length (pages s)) by (by eapply lookup_lt_Some).
  (* the first release: the buddy a + 1 is still in use *)
  unfold page_free.
  rewrite (buddy_merge_unmergeable a s pa pb l0); rewrite ?Hoa; try done;
    [| lia | by rewrite Hba | by left].
  cbn [mbind outcome_bind]. set (s1 := State _ _).
  (* the second release merges with a, then stops at order 1 *)
  assert (Hloop :
    buddy_merge_loop BUDDY_MAX_ORDER 0 (a + 1) s1 =
    Done (a, State (<[a := PageInfo (pp_ref pa) 1 false]> (pages s))
                   (buddy_free_list s))).
  { destruct BUDDY_MAX_ORDER as [|[|fuel]] eqn:Hm; [lia|lia|].
    rewrite (buddy_merge_loop_step _ 0 (a + 1) s1 pb (PageInfo (pp_ref pa) 0 true));
      try done; try lia.
    - cbn zeta. rewrite Hbb. rewrite decide_True by lia.
      subst s1. cbn [pages buddy_free_list].
      rewrite list_insert_insert_eq.
      assert (Hlists : filter (λ n, n ≠ a) <$> <[0 := a :: l0]> (buddy_free_list s)
                       = buddy_free_list s).
      { assert (Hf0 : filter (λ n, n ≠ a) l0 = l0).
        { pose proof (f_equal (.!! 0) (list_del_not_linked a s Hnl)) as E.
          cbn beta in E. rewrite list_lookup_fmap, Hl0 in E. by injection E. }
        rewrite list_fmap_insert. rewrite filter_cons_False by (by intros ?).
        rewrite Hf0, (list_del_not_linked a s Hnl).
        by apply list_insert_id. }
      rewrite Hlists.
      cbn [buddy_merge_loop]. rewrite Hm, decide_True by lia.
      erewrite page_get_Some
        by (cbn; by apply list_lookup_insert_eq).
      cbn [mbind outcome_bind pp_order].
      rewrite pa2page_buddy
        by (unfold npages; cbn; rewrite length_insert; by eapply lookup_lt_Some).
      cbn [mbind outcome_bind].
      erewrite page_get_Some by (cbn; by rewrite list_lookup_insert_ne).
      cbn [mbind outcome_bind].
      assert (negb (pp_free c) || negb (bool_decide (pp_order c = 1)) = true)
        as ->; [|done].
      destruct Hcun as [->|Hne]; [done|].
      rewrite (bool_decide_eq_false_2 _ Hne). apply orb_true_r.
    - subst s1; cbn. rewrite list_lookup_insert_ne by lia. done.
    - rewrite Hbb. subst s1; cbn. by apply list_lookup_insert_eq. }
  erewrite (buddy_merge_finish (a + 1) a s1 _ pb (PageInfo (pp_ref pa) 1 false));
    [| subst s1; cbn; by rewrite list_lookup_insert_ne by lia
     | by rewrite Hob
     | cbn; by apply list_lookup_insert_eq ].
  cbn [pp_order pp_ref pages set_pages].
  erewrite list_add_Some by (cbn; exact Hl1).
  cbn [mbind outcome_bind set_lists set_pages pages buddy_free_list].
  by rewrite list_insert_insert_eq.
Qed.

(** The other case: the lower page is odd, so the two pages are not
    buddies; each stays a free block of order 0, provided its own buddy
    cannot be merged. *)
Lemma release_adjacent_strangers a s pa pb ca cb l0 :
  0 < BUDDY_MAX_ORDER → ¬ (2 | a) →
  pages s !! a = Some pa → pp_order pa = 0 →
  pages s !! (a + 1) = Some pb → pp_order pb = 0 →
  pages s !! buddy_of a 0 = Some ca → pp_free ca = false ∨ pp_order ca ≠ 0 →
  pages s !! buddy_of (a + 1) 0 = Some cb → pp_free cb = false ∨ pp_order cb ≠ 0 →
  buddy_free_list s !! 0 = Some l0 →
  buddy_of a 0 ≠ a + 1 ∧
  page_free a s ≫= page_free (a + 1) =
    Done (State (<[a + 1 := PageInfo (pp_ref pb) 0 true]>
                   (<[a := PageInfo (pp_ref pa) 0 true]> (pages s)))
                (<[0 := (a + 1) :: a :: l0]> (buddy_free_list s))).
Proof.
  intros Hmax Hodd Hpa Hoa Hpb Hob Hca Hcau Hcb Hcbu Hl0.
  assert (Heven : (2 ^ 1 | a + 1)).
  { rewrite Nat.pow_1_r. destruct (Nat.Even_or_Odd a) as [[q ->]|[q ->]].
    - destruct Hodd. exists q. lia.
    - exists (q + 1). lia. }
  assert (Hbb : buddy_of (a + 1) 0 = a + 2).
  { rewrite buddy_of_aligned by done. cbn. lia. }
  assert (Hba : buddy_of a 0 ≠ a + 1).
  { intros E. apply (f_equal (λ x, buddy_of x 0)) in E.
    rewrite Hbb in E. rewrite !buddy_of_lxor in E.
    rewrite N2Nat.id, N.lxor_assoc, N.lxor_nilpotent, N.lxor_0_r in E. lia. }
  split; [done|].
  assert (Hlen : a < length (pages s)) by (by eapply lookup_lt_Some).
  unfold page_free.
  rewrite (buddy_merge_unmergeable a s pa ca l0); rewrite ?Hoa; try done.
  cbn [mbind outcome_bind].
  erewrite (buddy_merge_unmergeable (a + 1) _ pb cb (a :: l0));
    rewrite ?Hob; try done.
  - cbn [mbind outcome_bind pages buddy_free_list].
    by rewrite list_insert_insert_eq.
  - cbn. by rewrite list_lookup_insert_ne by lia.
  - cbn. rewrite Hbb in *. by rewrite list_lookup_insert_ne by lia.
  - cbn. apply list_lookup_insert_eq. by eapply lookup_lt_Some.
Qed.

End Merge.

(** ** Exactness and the search *)

Section Exactness.
Context `{Config}.

Lemma elem_of_concat_lookup (ls : list (list nat)) k l x :
  ls !! k = Some l → x ∈ l → x ∈ concat ls.
Proof.
  revert k. induction ls as [|l' ls IH]; intros [|k] Hl Hx; try done;
    cbn in *; apply elem_of_app.
  - injection Hl as ->. by left.
  - right. by eapply IH.
Qed.

Lemma NoDup_concat_once (ls : list (list nat)) i j l1 l2 x :
  NoDup (concat ls) → ls !! i = Some l1 → ls !! j = Some l2 →
  x ∈ l1 → x ∈ l2 → i = j.
Proof.
  revert i j. induction ls as [|l ls IH]; intros i j Hnd Hi Hj Hx1 Hx2;
    [done|]. cbn in Hnd. apply NoDup_app in Hnd as (_ & Hdisj & Hnd).
  destruct i as [|i], j as [|j]; cbn in *; try done.
  - injection Hi as ->. destruct (Hdisj x Hx1). by eapply elem_of_concat_lookup.
  - injection Hj as ->. destruct (Hdisj x Hx2). by eapply elem_of_concat_lookup.
  - f_equal. by eapply IH.
Qed.

Lemma NoDup_concat_inner (ls : list (list nat)) i l :
  NoDup (concat ls) → ls !! i = Some l → NoDup l.
Proof.
  revert i. induction ls as [|l' ls IH]; intros i Hnd Hi; [done|].
  cbn in Hnd. apply NoDup_app in Hnd as (Hl' & _ & Hnd).
  destruct i as [|i]; cbn in Hi.
  - by injection Hi as <-.
  - by eapply IH.
Qed.

Lemma elem_of_concat_inv (ls : list (list nat)) x :
  x ∈ concat ls → ∃ k l, ls !! k = Some l ∧ x ∈ l.
Proof.
  induction ls as [|l ls IH]; cbn; [by intros ?%elem_of_nil|].
  intros [Hx|Hx]%elem_of_app.
  - by exists 0, l.
  - destruct (IH Hx) as (k & l' & Hl' & Hx'). by exists (S k), l'.
Qed.

(** No descriptor linked twice, list by list. *)
Lemma NoDup_concat_lists (ls : list (list nat)) :
  (∀ k l, ls !! k = Some l → NoDup l) →
  (∀ i j l1 l2 x, ls !! i = Some l1 → ls !! j = Some l2 →
     x ∈ l1 → x ∈ l2 → i = j) →
  NoDup (concat ls).
Proof.
  induction ls as [|l ls IH]; intros Hin Hap; cbn; [constructor|].
  apply NoDup_app. split_and!.
  - by apply (Hin 0).
  - intros x Hx (k & l' & Hl' & Hx')%elem_of_concat_inv.
    by specialize (Hap 0 (S k) l l' x eq_refl Hl' Hx Hx').
  - apply IH.
    + intros k l' Hl'. by apply (Hin (S k)).
    + intros i j l1 l2 x H1 H2 Hx1 Hx2.
      by specialize (Hap (S i) (S j) l1 l2 x H1 H2 Hx1 Hx2) as [= ->].
Qed.

Lemma not_free_not_linked s i p :
  (∀ k l i, buddy_free_list s !! k = Some l → i ∈ l →
     ∃ p, pages s !! i = Some p ∧ pp_order p = k ∧ pp_free p = true) →
  pages s !! i = Some p → pp_free p = false → ¬ linked i s.
Proof.
  intros Hmem Hp Hfree (k & l & Hl & Hi).
  destruct (Hmem k l i Hl Hi) as (p' & Hp' & _ & Hfree').
  rewrite Hp in Hp'. injection Hp' as <-. congruence.
Qed.

Lemma exact_but_of_exact s x p :
  free_list_exact s → pages s !! x = Some p → pp_free p = false →
  exact_but x s.
Proof.
  intros [Hh Hm Ho Hf] Hp Hfree. split; try done.
  - intros i p' _. apply Hf.
  - by eapply not_free_not_linked.
Qed.

Lemma exact_of_exact_but s x p :
  exact_but x s → pages s !! x = Some p → pp_free p = false →
  free_list_exact s.
Proof.
  intros [Hh Hm Ho Hf Hout] Hp Hfree. split; try done.
  intros i p' Hp' Hfree'. apply (Hf i p'); try done.
  intros ->. rewrite Hp in Hp'. injection Hp' as <-. congruence.
Qed.

(** Linking an unlinked descriptor at the head of the list of its order
    and marking it free: the last two statements of buddy_merge, and the
    publication of a buddy in buddy_split. *)
Lemma exact_link s x node order l r (pgs : list page_info) :
  exact_but x s →
  buddy_free_list s !! order = Some l →
  ¬ linked node s →
  pgs !! node = Some (PageInfo r order true) →
  (∀ i p, pages s !! i = Some p → pp_free p = true → i ≠ x →
     pgs !! i = Some p) →
  (∀ i p, pgs !! i = Some p → pp_free p = true → i ≠ node →
     i ≠ x ∧ pages s !! i = Some p) →
  free_list_exact (State pgs (<[order := node :: l]> (buddy_free_list s))).
Proof.
  intros [Hh Hm Ho Hf Hout] Hl Hnl Hnode Hkeep Hold.
  assert (Hlt : order < length (buddy_free_list s)) by (by eapply lookup_lt_Some).
  assert (Hfree_ne : ∀ k l' i, buddy_free_list s !! k = Some l' → i ∈ l' →
            i ≠ x ∧ i ≠ node).
  { intros k l' i Hl' Hi. split; intros ->; [apply Hout | apply Hnl];
      by exists k, l'. }
  split; cbn.
  - by rewrite length_insert.
  - intros k l' i Hl' Hi.
    apply list_lookup_insert_Some in Hl' as [(-> & <- & _)|[Hne Hl']].
    + apply elem_of_cons in Hi as [->|Hi]; [by eexists|].
      destruct (Hm _ _ _ Hl Hi) as (p & Hp & Hpo & Hpf).
      exists p. split_and!; try done. apply Hkeep; try done.
      by destruct (Hfree_ne _ _ _ Hl Hi).
    + destruct (Hm _ _ _ Hl' Hi) as (p & Hp & Hpo & Hpf).
      exists p. split_and!; try done. apply Hkeep; try done.
      by destruct (Hfree_ne _ _ _ Hl' Hi).
  - apply NoDup_concat_lists.
    + intros k l' Hl'.
      apply list_lookup_insert_Some in Hl' as [(-> & <- & _)|[Hne Hl']].
      * apply NoDup_cons. split.
        -- intros Hin. apply Hnl. by exists k, l.
        -- by eapply NoDup_concat_inner.
      * by eapply NoDup_concat_inner.
    + intros i j l1 l2 y H1 H2 Hy1 Hy2.
      apply list_lookup_insert_Some in H1 as [(-> & <- & _)|[Hne1 H1]];
        apply list_lookup_insert_Some in H2 as [(Hj & <- & _)|[Hne2 H2]];
        try done.
      * apply elem_of_cons in Hy1 as [->|Hy1].
        -- destruct Hnl. by exists j, l2.
        -- by eapply (NoDup_concat_once _ _ _ _ _ y Ho).
      * subst j. apply elem_of_cons in Hy2 as [->|Hy2].
        -- destruct Hnl. by exists i, l1.
        -- by eapply (NoDup_concat_once _ _ _ _ _ y Ho).
      * by eapply (NoDup_concat_once _ _ _ _ _ y Ho).
  - intros i p Hp Hfree. unfold linked; cbn.
    destruct (decide (i = node)) as [->|Hne].
    + exists order, (node :: l). split; [by apply list_lookup_insert_eq | by left].
    + destruct (Hold i p Hp Hfree Hne) as [Hix Hp'].
      destruct (Hf i p Hix Hp' Hfree) as (k & l' & Hl' & Hi).
      destruct (decide (k = order)) as [->|Hk].
      * exists order, (node :: l). split; [by apply list_lookup_insert_eq|].
        rewrite Hl in Hl'. injection Hl' as <-. by right.
      * exists k, l'. split; [by rewrite list_lookup_insert_ne | done].
Qed.

(** list_pop on an exact state: the block taken off its list is the one
    descriptor out of line. *)
Lemma exact_pop s k blk rest :
  free_list_exact s → buddy_free_list s !! k = Some (blk :: rest) →
  exact_but blk (set_lists s (<[k := rest]> (buddy_free_list s))).
Proof.
  intros [Hh Hm Ho Hf] Hhit.
  assert (Hlt : k < length (buddy_free_list s)) by (by eapply lookup_lt_Some).
  assert (Hsub : ∀ j l i, <[k := rest]> (buddy_free_list s) !! j = Some l →
            i ∈ l → ∃ l', buddy_free_list s !! j = Some l' ∧ i ∈ l' ∧
                          (j = k → l' = blk :: l)).
  { intros j l i Hl Hi.
    apply list_lookup_insert_Some in Hl as [(-> & <- & _)|[Hne Hl]].
    - exists (blk :: rest). split_and!; [done | by right | done].
    - exists l. split_and!; [done | done | by intros ->]. }
  split; cbn.
  - by rewrite length_insert.
  - intros j l i Hl Hi. destruct (Hsub j l i Hl Hi) as (l' & Hl' & Hi' & _).
    by eapply Hm.
  - apply NoDup_concat_lists.
    + intros j l Hl.
      apply list_lookup_insert_Some in Hl as [(-> & <- & _)|[Hne Hl]].
      * pose proof (NoDup_concat_inner _ _ _ Ho Hhit) as Hnd.
        by apply NoDup_cons in Hnd as [_ ?].
      * by eapply NoDup_concat_inner.
    + intros i j l1 l2 y H1 H2 Hy1 Hy2.
      destruct (Hsub i l1 y H1 Hy1) as (l1' & H1' & Hy1' & _).
      destruct (Hsub j l2 y H2 Hy2) as (l2' & H2' & Hy2' & _).
      by eapply (NoDup_concat_once _ _ _ _ _ y Ho).
  - intros i p Hne Hp Hfree.
    destruct (Hf i p Hp Hfree) as (j & l & Hl & Hi). unfold linked; cbn.
    destruct (decide (j = k)) as [->|Hjk].
    + exists k, rest. split; [by apply list_lookup_insert_eq|].
      rewrite Hhit in Hl. injection Hl as <-.
      by apply elem_of_cons in Hi as [->|Hi].
    + exists j, l. by rewrite list_lookup_insert_ne.
  - intros (j & l & Hl & Hi). cbn in Hl.
    destruct (Hsub j l blk Hl Hi) as (l' & Hl' & Hi' & Hjk).
    assert (j = k) as -> by
      (eapply (NoDup_concat_once _ _ _ _ _ blk Ho); [done | done | done | by left]).
    specialize (Hjk eq_refl). subst l'. rewrite Hhit in Hl'.
    injection Hl' as ->.
    pose proof (NoDup_concat_inner _ _ _ Ho Hhit) as Hnd.
    by apply NoDup_cons in Hnd as [? _].
Qed.

(** list_del of a free block whose mark is cleared along with it: a
    merging turn of buddy_merge. *)
Lemma exact_unlink s buddy (pgs : list page_info) :
  free_list_exact s →
  (∀ i p, pages s !! i = Some p → pp_free p = true → i ≠ buddy →
     pgs !! i = Some p) →
  (∀ i p, pgs !! i = Some p → pp_free p = true →
     i ≠ buddy ∧ pages s !! i = Some p) →
  free_list_exact
    (State pgs (filter (λ n, n ≠ buddy) <$> buddy_free_list s)).
Proof.
  intros [Hh Hm Ho Hf] Hkeep Hold.
  assert (Hsub : ∀ k l i,
            (filter (λ n, n ≠ buddy) <$> buddy_free_list s) !! k = Some l →
            i ∈ l → ∃ l', buddy_free_list s !! k = Some l' ∧ i ∈ l' ∧
                          i ≠ buddy ∧ l = filter (λ n, n ≠ buddy) l').
  { intros k l i Hl Hi. rewrite list_lookup_fmap in Hl.
    destruct (buddy_free_list s !! k) as [l'|]; [|done].
    injection Hl as <-. apply list_elem_of_filter in Hi as [Hne Hi].
    by exists l'. }
  split; cbn.
  - by rewrite length_fmap.
  - intros k l i Hl Hi. destruct (Hsub k l i Hl Hi) as (l' & Hl' & Hi' & Hne & _).
    destruct (Hm _ _ _ Hl' Hi') as (p & Hp & Hpo & Hpf).
    exists p. split_and!; try done. by apply Hkeep.
  - apply NoDup_concat_lists.
    + intros k l Hl. rewrite list_lookup_fmap in Hl.
      destruct (buddy_free_list s !! k) as [l'|] eqn:Hl'; [|done].
      injection Hl as <-. apply NoDup_filter. by eapply NoDup_concat_inner.
    + intros i j l1 l2 y H1 H2 Hy1 Hy2.
      destruct (Hsub i l1 y H1 Hy1) as (l1' & H1' & Hy1' & _).
      destruct (Hsub j l2 y H2 Hy2) as (l2' & H2' & Hy2' & _).
      by eapply (NoDup_concat_once _ _ _ _ _ y Ho).
  - intros i p Hp Hfree. destruct (Hold i p Hp Hfree) as [Hne Hp'].
    destruct (Hf i p Hp' Hfree) as (k & l & Hl & Hi).
    exists k, (filter (λ n, n ≠ buddy) l). cbn. split.
    + by rewrite list_lookup_fmap, Hl.
    + by apply list_elem_of_filter.
Qed.

(** *** Counting free pages *)

Lemma count_total_loop_insert n : ∀ s (pgs : list page_info) k l l',
  buddy_free_list s !! k = Some l →
  count_total_loop n (State pgs (<[k := l']> (buddy_free_list s)))
  + (if decide (k < n ∧ k < BUDDY_MAX_ORDER) then length l * 2 ^ k else 0)
  = count_total_loop n s
    + (if decide (k < n ∧ k < BUDDY_MAX_ORDER) then length l' * 2 ^ k else 0).
Proof.
  induction n as [|n IH]; intros s pgs k l l' Hl; cbn [count_total_loop].
  { by rewrite !decide_False by lia. }
  specialize (IH s pgs k l l' Hl).
  assert (Hlt : k < length (buddy_free_list s)) by (by eapply lookup_lt_Some).
  unfold count_free_pages. cbn [buddy_free_list].
  destruct (decide (BUDDY_MAX_ORDER ≤ n)) as [Hn|Hn].
  - destruct (decide (k < n ∧ k < BUDDY_MAX_ORDER));
      [rewrite !decide_True by lia | rewrite !decide_False by lia]; lia.
  - destruct (decide (n = k)) as [->|Hnk].
    + rewrite list_lookup_insert_eq by done. rewrite Hl. cbn [default].
      rewrite decide_False in IH by lia. rewrite decide_False in IH by lia.
      rewrite !decide_True by lia. unfold id. lia.
    + rewrite list_lookup_insert_ne by done.
      destruct (decide (k < n ∧ k < BUDDY_MAX_ORDER));
        [rewrite !decide_True by lia | rewrite !decide_False by lia]; lia.
Qed.

(** Linking a block of order [k] adds [2 ^ k] free pages, taking the
    first block off list [k] removes as many. *)
Lemma count_link s (pgs : list page_info) k node l :
  k < BUDDY_MAX_ORDER → buddy_free_list s !! k = Some l →
  count_total_free_pages (State pgs (<[k := node :: l]> (buddy_free_list s)))
  = count_total_free_pages s + 2 ^ k.
Proof.
  intros Hk Hl. unfold count_total_free_pages.
  pose proof (count_total_loop_insert BUDDY_MAX_ORDER s pgs k l (node :: l) Hl) as E.
  rewrite !decide_True in E by lia. cbn [length] in E. lia.
Qed.

Lemma count_pop s (pgs : list page_info) k node l :
  k < BUDDY_MAX_ORDER → buddy_free_list s !! k = Some (node :: l) →
  count_total_free_pages (State pgs (<[k := l]> (buddy_free_list s))) + 2 ^ k
  = count_total_free_pages s.
Proof.
  intros Hk Hl. unfold count_total_free_pages.
  pose proof (count_total_loop_insert BUDDY_MAX_ORDER s pgs k (node :: l) l Hl) as E.
  rewrite !decide_True in E by lia. cbn [length] in E. lia.
Qed.

(** list_del of a block that is free at order [k] in an exact state
    removes [2 ^ k] free pages. *)
Lemma count_unlink s (pgs : list page_info) buddy b :
  free_list_exact s → pages s !! buddy = Some b → pp_free b = true →
  count_total_free_pages
    (State pgs (filter (λ n, n ≠ buddy) <$> buddy_free_list s))
  + 2 ^ pp_order b
  = count_total_free_pages s.
Proof.
  intros Hex Hb Hbf.
  destruct (fle_free _ Hex buddy b Hb Hbf) as (k & l & Hl & Hin).
  destruct (fle_member _ Hex k l buddy Hl Hin) as (b' & Hb' & Hbo & _).
  rewrite Hb in Hb'. injection Hb' as <-.
  assert (Hk : k < BUDDY_MAX_ORDER).
  { rewrite <- (fle_heads _ Hex). by eapply lookup_lt_Some. }
  assert (Hlists : filter (λ n, n ≠ buddy) <$> buddy_free_list s
                   = <[k := filter (λ n, n ≠ buddy) l]> (buddy_free_list s)).
  { apply list_eq. intros j. rewrite list_lookup_fmap.
    destruct (decide (j = k)) as [->|Hjk].
    - rewrite Hl, list_lookup_insert_eq by (by eapply lookup_lt_Some). done.
    - rewrite list_lookup_insert_ne by done.
      destruct (buddy_free_list s !! j) as [l'|] eqn:Hl'; [|done].
      cbn. f_equal. apply filter_ne_absent. intros Hin'.
      apply Hjk. by eapply (NoDup_concat_once _ _ _ _ _ buddy (fle_once _ Hex)). }
  rewrite Hlists. unfold count_total_free_pages.
  pose proof (count_total_loop_insert BUDDY_MAX_ORDER s pgs k l
                (filter (λ n, n ≠ buddy) l) Hl) as E.
  rewrite !decide_True in E by lia.
  pose proof (filter_ne_present buddy l
                (NoDup_concat_inner _ _ _ (fle_once _ Hex) Hl) Hin) as Hlen.
  rewrite Hbo. rewrite <- Hlen in E. lia.
Qed.

(** *** The loops on exact states *)

(** What a turn of buddy_split that completes has found. *)
Lemma buddy_split_turn_inv fuel lhs j s s' p :
  buddy_split_loop (S fuel) lhs j s = Done s' →
  pages s !! lhs = Some p → j < pp_order p →
  ∃ q l, pages s !! buddy_of lhs (pp_order p - 1) = Some q ∧
         buddy_free_list s !! (pp_order p - 1) = Some l.
Proof.
  intros Hrun Hp Hj. cbn [buddy_split_loop] in Hrun.
  rewrite (page_get_Some _ _ _ Hp) in Hrun. cbn [mbind outcome_bind] in Hrun.
  rewrite decide_True in Hrun by done.
  apply bind_Done in Hrun as (buddy & [-> Hlt]%pa2page_inv & Hrun).
  fold (buddy_of lhs (pp_order p - 1)) in *.
  destruct (lookup_lt_is_Some_2 _ _ Hlt) as [q Hq].
  apply bind_Done in Hrun as (s1 & (? & _ & ->)%page_update_inv & Hrun).
  apply bind_Done in Hrun as (s2 & (? & _ & ->)%page_update_inv & Hrun).
  apply bind_Done in Hrun as (s3 & (? & _ & ->)%page_update_inv & Hrun).
  apply bind_Done in Hrun as (s4 & (? & _ & ->)%page_update_inv & Hrun).
  apply bind_Done in Hrun as (s5 & (l & Hl & _)%list_add_inv & _).
  by exists q, l.
Qed.

(** buddy_split on the block that buddy_find has popped, when the inner
    buddies of the block are not marked free: exactness is back once the
    block is split, and the block itself is in use. *)
Lemma buddy_split_loop_exact fuel : ∀ lhs j s s' p,
  exact_but lhs s → pages s !! lhs = Some p → j < pp_order p →
  (∀ i q, j ≤ i < pp_order p → pages s !! buddy_of lhs i = Some q →
     pp_free q = false) →
  buddy_split_loop fuel lhs j s = Done s' →
  free_list_exact s' ∧ ¬ linked lhs s' ∧
  pages s' !! lhs = Some (PageInfo (pp_ref p) j false) ∧
  count_total_free_pages s' + 2 ^ j = count_total_free_pages s + 2 ^ pp_order p.
Proof.
  induction fuel as [|fuel IH]; intros lhs j s s' p Hex Hp Hj Hinner Hrun.
  { cbn [buddy_split_loop] in Hrun. rewrite (page_get_Some _ _ _ Hp) in Hrun.
    cbn [mbind outcome_bind] in Hrun. by rewrite decide_True in Hrun by done. }
  destruct (buddy_split_turn_inv _ _ _ _ _ _ Hrun Hp Hj) as (q & l & Hq & Hl).
  destruct (pp_order p) as [|o] eqn:Ho; [lia|].
  replace (S o - 1) with o in * by lia.
  rewrite (buddy_split_step fuel lhs j s p q l o) in Hrun by (done || lia).
  set (pgs := <[buddy_of lhs o := _]> _) in Hrun.
  set (s1 := State pgs _) in Hrun.
  pose proof (buddy_of_ne lhs o) as Hne.
  assert (Hlhs : lhs < length (pages s)) by (by eapply lookup_lt_Some).
  assert (Hb : buddy_of lhs o < length (pages s)) by (by eapply lookup_lt_Some).
  assert (Hqf : pp_free q = false) by (apply (Hinner o q); [lia | done]).
  assert (Hlhs1 : pages s1 !! lhs = Some (PageInfo (pp_ref p) o false)).
  { subst s1 pgs; cbn. rewrite list_lookup_insert_ne by done.
    by apply list_lookup_insert_eq. }
  assert (Hex1 : free_list_exact s1).
  { apply (exact_link s lhs (buddy_of lhs o) o l (pp_ref q) pgs); try done.
    - eapply not_free_not_linked; [apply (eb_member _ _ Hex) | done | done].
    - subst pgs. apply list_lookup_insert_eq. by rewrite length_insert.
    - intros i p' Hp' Hfree Hi. subst pgs.
      rewrite !list_lookup_insert_ne; [done | done |].
      intros <-. rewrite Hq in Hp'. injection Hp' as <-. congruence.
    - intros i p' Hp' Hfree Hi. subst pgs.
      rewrite list_lookup_insert_ne in Hp' by done.
      destruct (decide (i = lhs)) as [->|Hil].
      + rewrite list_lookup_insert_eq in Hp' by done.
        injection Hp' as <-. done.
      + by rewrite list_lookup_insert_ne in Hp' by done. }
  assert (Hcount : count_total_free_pages s1 = count_total_free_pages s + 2 ^ o).
  { apply count_link; [|done]. rewrite <- (eb_heads _ _ Hex).
    by eapply lookup_lt_Some. }
  assert (Hpow : 2 ^ S o = 2 ^ o + 2 ^ o) by (cbn; lia).
  destruct (decide (j < o)) as [Hjo|Hjo].
  - destruct (IH lhs j s1 s' (PageInfo (pp_ref p) o false)) as (? & ? & ? & Hc);
      try done.
    + by eapply exact_but_of_exact.
    + intros i q' Hi. cbn in Hi. subst s1 pgs; cbn.
      rewrite !list_lookup_insert_ne; [apply Hinner; lia | apply not_eq_sym, buddy_of_ne |].
      intros E%buddy_of_inj. lia.
    + cbn [pp_order] in Hc. split_and!; try done. lia.
  - assert (j = o) as -> by lia.
    assert (s' = s1) as ->.
    { destruct fuel; cbn [buddy_split_loop] in Hrun;
        rewrite (page_get_Some _ _ _ Hlhs1) in Hrun;
        cbn [mbind outcome_bind pp_order] in Hrun;
        rewrite decide_False in Hrun by lia; by injection Hrun. }
    split_and!; [done | | done | lia].
    eapply not_free_not_linked; [apply (fle_member _ Hex1) | done | done].
Qed.

(** What a search that returns a block has done. *)
Lemma buddy_find_loop_Done fuel : ∀ order req s blk s',
  buddy_find_loop fuel order req s = Done (Some blk, s') →
  ∃ k rest, order ≤ k ∧ buddy_free_list s !! k = Some (blk :: rest) ∧
    let s1 := set_lists s (<[k := rest]> (buddy_free_list s)) in
    if decide (req < k) then buddy_split blk req s1 = Done (blk, s')
    else s' = s1.
Proof.
  induction fuel as [|fuel IH]; intros order req s blk s' Hrun;
    cbn [buddy_find_loop] in Hrun; case_decide; try done.
  apply bind_Done in Hrun as (e & He & Hrun).
  destruct e; cbn [negb] in Hrun.
  { destruct (IH _ _ _ _ _ Hrun) as (k & rest & Hk & Hrest).
    exists k, rest. split; [lia | done]. }
  apply bind_Done in Hrun as ([[node|] s1] & Hpop & Hrun); [|done].
  apply list_pop_inv in Hpop as (rest & Hl & ->).
  exists order, rest. split; [done|]. cbn zeta.
  destruct (decide (req < order)).
  - apply bind_Done in Hrun as ([page s2] & Hsplit & Hrun).
    injection Hrun as <- <-.
    by destruct (buddy_split_inv _ _ _ _ _ Hsplit) as (-> & _ & _).
  - by injection Hrun as <- <-.
Qed.

(** The search on an exact state, when the block comes from a higher
    order (the list of the requested order is empty) and the inner
    buddies of that block are not marked free: the state left is exact,
    and the block returned is neither marked free nor linked. *)
Lemma buddy_find_split_exact req s blk s' :
  free_list_exact s →
  buddy_free_list s !! req = Some [] →
  (∀ p i q, pages s !! blk = Some p → req ≤ i < pp_order p →
     pages s !! buddy_of blk i = Some q → pp_free q = false) →
  buddy_find req s = Done (Some blk, s') →
  free_list_exact s' ∧ ¬ linked blk s' ∧
  (∃ p', pages s' !! blk = Some p' ∧ pp_free p' = false ∧ pp_order p' = req) ∧
  count_total_free_pages s' + 2 ^ req = count_total_free_pages s.
Proof.
  intros Hex Hempty Hinner Hrun.
  apply buddy_find_loop_Done in Hrun as (k & rest & Hk & Hhit & Hrun).
  cbn zeta in Hrun.
  destruct (decide (req < k)) as [Hlt|Hge].
  2:{ assert (k = req) as -> by lia. by rewrite Hempty in Hhit. }
  destruct (fle_member _ Hex k (blk :: rest) blk Hhit) as (p & Hp & Hpo & _);
    [by left|].
  unfold buddy_split in Hrun.
  erewrite page_get_Some in Hrun by (cbn; exact Hp).
  cbn [mbind outcome_bind] in Hrun.
  apply bind_Done in Hrun as (s2 & Hloop & Hrun). injection Hrun as <-.
  destruct (buddy_split_loop_exact (pp_order p) blk req
              (set_lists s (<[k := rest]> (buddy_free_list s))) s2 p)
    as (Hex' & Hnl & Hblk & Hcount); try done.
  - by apply exact_pop.
  - lia.
  - intros i q Hi Hq. by apply (Hinner p i q).
  - split_and!; [done | done | by eexists |].
    assert (Hkm : k < BUDDY_MAX_ORDER).
    { rewrite <- (fle_heads _ Hex). by eapply lookup_lt_Some. }
    pose proof (count_pop s (pages s) k blk rest Hkm Hhit) as Hpop.
    unfold set_lists in Hcount. rewrite Hpo in Hcount. lia.
Qed.

(** What a turn of buddy_merge that completes has found. *)
Lemma buddy_merge_turn_inv fuel order page s page' s' p :
  buddy_merge_loop (S fuel) order page s = Done (page', s') →
  order < BUDDY_MAX_ORDER → pages s !! page = Some p →
  ∃ b, pages s !! buddy_of page (pp_order p) = Some b.
Proof.
  intros Hrun Ho Hp. cbn [buddy_merge_loop] in Hrun.
  rewrite decide_True in Hrun by done.
  rewrite (page_get_Some _ _ _ Hp) in Hrun. cbn [mbind outcome_bind] in Hrun.
  apply bind_Done in Hrun as (buddy & [-> Hlt]%pa2page_inv & _).
  fold (buddy_of page (pp_order p)) in *.
  by apply lookup_lt_is_Some_2.
Qed.

(** The loop of buddy_merge on an exact state, for a block that is not
    marked free: every turn keeps the state exact, and the block the loop
    ends with is not marked free either. *)
Lemma buddy_merge_loop_exact fuel : ∀ order page s p page' s',
  free_list_exact s →
  pages s !! page = Some p → pp_free p = false → pp_order p = order →
  buddy_merge_loop fuel order page s = Done (page', s') →
  free_list_exact s' ∧
  ∃ p', pages s' !! page' = Some p' ∧ pp_free p' = false ∧
    count_total_free_pages s' + 2 ^ pp_order p'
    = count_total_free_pages s + 2 ^ order.
Proof.
  induction fuel as [|fuel IH]; intros order page s p page' s' Hex Hp Hpf Hpo Hrun;
    destruct (decide (order < BUDDY_MAX_ORDER)) as [Ho|Ho].
  - cbn [buddy_merge_loop] in Hrun. by rewrite decide_True in Hrun by done.
  - cbn [buddy_merge_loop] in Hrun. rewrite decide_False in Hrun by done.
    injection Hrun as <- <-. split; [done|]. exists p. by rewrite Hpo.
  - destruct (buddy_merge_turn_inv _ _ _ _ _ _ _ Hrun Ho Hp) as [b Hb].
    rewrite Hpo in Hb.
    pose proof (buddy_of_ne page order) as Hne.
    assert (Hpage : page < length (pages s)) by (by eapply lookup_lt_Some).
    assert (Hbuddy : buddy_of page order < length (pages s))
      by (by eapply lookup_lt_Some).
    destruct (pp_free b) eqn:Hbf;
      [destruct (decide (pp_order b = order)) as [Hbo|Hbo]|].
    + (* the buddy is merged *)
      rewrite (buddy_merge_loop_step fuel order page s p b) in Hrun by done.
      cbn zeta in Hrun.
      set (marked := <[buddy_of page order := _]> (pages s)) in Hrun.
      destruct (decide (buddy_of page order < page)).
      * pose proof (count_unlink s marked _ b Hex Hb Hbf) as Hu.
        eapply (IH _ _ _ (PageInfo (pp_ref b) (S order) false)) in Hrun;
          try done.
        -- destruct Hrun as (Hex' & p' & Hp' & Hpf' & Hc).
           split; [done|]. exists p'. split_and!; try done.
           rewrite Nat.pow_succ_r' in Hc. rewrite Hbo in Hu. lia.
        -- apply exact_unlink; [done | |].
           ++ intros i q Hq Hqf Hi. subst marked.
              by rewrite list_lookup_insert_ne.
           ++ intros i q Hq Hqf. subst marked.
              destruct (decide (i = buddy_of page order)) as [->|Hi].
              ** rewrite list_lookup_insert_eq in Hq by done.
                 injection Hq as <-. done.
              ** by rewrite list_lookup_insert_ne in Hq.
        -- subst marked; cbn. by apply list_lookup_insert_eq.
      * pose proof (count_unlink s
                      (<[page := PageInfo (pp_ref p) (S order) false]> marked)
                      _ b Hex Hb Hbf) as Hu.
        eapply (IH _ _ _ (PageInfo (pp_ref p) (S order) false)) in Hrun;
          try done.
        -- destruct Hrun as (Hex' & p' & Hp' & Hpf' & Hc).
           split; [done|]. exists p'. split_and!; try done.
           rewrite Nat.pow_succ_r' in Hc. rewrite Hbo in Hu. lia.
        -- apply exact_unlink; [done | |].
           ++ intros i q Hq Hqf Hi. subst marked.
              rewrite !list_lookup_insert_ne; [done | done |].
              intros <-. rewrite Hp in Hq. injection Hq as <-. congruence.
           ++ intros i q Hq Hqf. subst marked.
              destruct (decide (i = page)) as [->|Hip].
              ** rewrite list_lookup_insert_eq in Hq
                   by (by rewrite length_insert).
                 injection Hq as <-. done.
              ** rewrite list_lookup_insert_ne in Hq by done.
                 destruct (decide (i = buddy_of page order)) as [->|Hi].
                 --- rewrite list_lookup_insert_eq in Hq by done.
                     injection Hq as <-. done.
                 --- by rewrite list_lookup_insert_ne in Hq.
        -- cbn. apply list_lookup_insert_eq. subst marked.
           by rewrite length_insert.
    + (* the buddy is free at another order: the loop stops *)
      cbn [buddy_merge_loop] in Hrun. rewrite decide_True in Hrun by done.
      rewrite (page_get_Some _ _ _ Hp) in Hrun. cbn [mbind outcome_bind] in Hrun.
      rewrite Hpo, pa2page_buddy in Hrun by done.
      cbn [mbind outcome_bind] in Hrun.
      rewrite (page_get_Some _ _ _ Hb) in Hrun. cbn [mbind outcome_bind] in Hrun.
      rewrite Hbf, bool_decide_eq_false_2 in Hrun by done.
      injection Hrun as <- <-. split; [done|]. exists p. by rewrite Hpo.
    + (* the buddy is in use: the loop stops *)
      cbn [buddy_merge_loop] in Hrun. rewrite decide_True in Hrun by done.
      rewrite (page_get_Some _ _ _ Hp) in Hrun. cbn [mbind outcome_bind] in Hrun.
      rewrite Hpo, pa2page_buddy in Hrun by done.
      cbn [mbind outcome_bind] in Hrun.
      rewrite (page_get_Some _ _ _ Hb) in Hrun. cbn [mbind outcome_bind] in Hrun.
      rewrite Hbf in Hrun. injection Hrun as <- <-.
      split; [done|]. exists p. by rewrite Hpo.
  - cbn [buddy_merge_loop] in Hrun. rewrite decide_False in Hrun by done.
    injection Hrun as <- <-. split; [done|]. exists p. by rewrite Hpo.
Qed.

(** buddy_merge, and with it page_free, on an exact state and a block
    that is not marked free: whenever the call completes, the state is
    exact again and the block returned is marked free and linked into the
    list of its order. *)
Lemma buddy_merge_exact page s p page' s' :
  free_list_exact s → pages s !! page = Some p → pp_free p = false →
  buddy_merge page s = Done (page', s') →
  free_list_exact s' ∧
  (∃ p' l, pages s' !! page' = Some p' ∧ pp_free p' = true ∧
           buddy_free_list s' !! pp_order p' = Some (page' :: l)) ∧
  count_total_free_pages s' = count_total_free_pages s + 2 ^ pp_order p.
Proof.
  intros Hex Hp Hpf Hrun. unfold buddy_merge in Hrun.
  rewrite (page_get_Some _ _ _ Hp) in Hrun. cbn [mbind outcome_bind] in Hrun.
  apply bind_Done in Hrun as ([pg s1] & Hloop & Hrun).
  apply buddy_merge_loop_exact with (p := p) in Hloop
    as (Hex1 & p1 & Hp1 & Hpf1 & Hcount); try done.
  unfold set_pp_free in Hrun.
  rewrite (page_update_Some _ _ _ _ Hp1) in Hrun.
  cbn [mbind outcome_bind] in Hrun.
  assert (Hlt : pg < length (pages s1)) by (by eapply lookup_lt_Some).
  erewrite page_get_Some in Hrun by (cbn; by apply list_lookup_insert_eq).
  cbn [mbind outcome_bind pp_order] in Hrun.
  apply bind_Done in Hrun as (s2 & (l & Hl & ->)%list_add_inv & Hrun).
  injection Hrun as <- <-. cbn in Hl. cbn [set_lists set_pages pages buddy_free_list].
  split_and!.
  - apply (exact_link s1 pg pg (pp_order p1) l (pp_ref p1)).
    + by eapply exact_but_of_exact.
    + done.
    + eapply not_free_not_linked; [apply (fle_member _ Hex1) | done | done].
    + by apply list_lookup_insert_eq.
    + intros i q Hq Hqf Hi. cbn. by rewrite list_lookup_insert_ne.
    + intros i q Hq Hqf Hi. cbn in Hq. by rewrite list_lookup_insert_ne in Hq.
  - eexists _, l. split_and!.
    + by apply list_lookup_insert_eq.
    + done.
    + cbn. apply list_lookup_insert_eq. by eapply lookup_lt_Some.
  - unfold set_lists, set_pages. cbn [pages buddy_free_list].
    rewrite (count_link s1 _ (pp_order p1) pg l); [lia | | done].
    rewrite <- (fle_heads _ Hex1). by eapply lookup_lt_Some.
Qed.

Lemma count_total_lists s1 s2 :
  buddy_free_list s1 = buddy_free_list s2 →
  count_total_free_pages s1 = count_total_free_pages s2.
Proof.
  intros Hl. unfold count_total_free_pages.
  induction BUDDY_MAX_ORDER as [|n IH]; [done|]. cbn [count_total_loop].
  unfold count_free_pages. by rewrite IH, Hl.
Qed.

(** Exactness does not look at reference counts. *)
Lemma exact_set_ref s pp p r :
  free_list_exact s → pages s !! pp = Some p →
  free_list_exact
    (set_pages s (<[pp := PageInfo r (pp_order p) (pp_free p)]> (pages s))).
Proof.
  intros [Hh Hm Ho Hf] Hp.
  assert (Hlt : pp < length (pages s)) by (by eapply lookup_lt_Some).
  split; cbn; try done.
  - intros k l i Hl Hi. destruct (Hm k l i Hl Hi) as (q & Hq & Hqo & Hqf).
    destruct (decide (i = pp)) as [->|Hne].
    + rewrite Hp in Hq. injection Hq as <-.
      rewrite list_lookup_insert_eq by done. by eexists.
    + rewrite list_lookup_insert_ne by done. by exists q.
  - intros i q Hq Hqf. destruct (decide (i = pp)) as [->|Hne].
    + rewrite list_lookup_insert_eq in Hq by done. injection Hq as <-.
      by apply (Hf pp p).
    + rewrite list_lookup_insert_ne in Hq by done. by apply (Hf i q).
Qed.

(** page_decref on an exact state and a page that is held and not marked
    free: whenever the call completes the state is exact; the page is
    released, with the pages of its block counted free, exactly when the
    count falls to zero. *)
Lemma page_decref_exact pp s p s' :
  free_list_exact s → pages s !! pp = Some p → pp_free p = false →
  page_decref pp s = Done s' →
  free_list_exact s' ∧
  count_total_free_pages s' =
    count_total_free_pages s
    + (if decide ((pp_ref p - 1) mod 2 ^ REF_BITS = 0)%Z
       then 2 ^ pp_order p else 0).
Proof.
  intros Hex Hp Hpf Hrun. unfold page_decref in Hrun.
  rewrite (page_get_Some _ _ _ Hp) in Hrun. cbn [mbind outcome_bind] in Hrun.
  unfold set_pp_ref in Hrun. rewrite (page_update_Some _ _ _ _ Hp) in Hrun.
  cbn [mbind outcome_bind] in Hrun.
  set (r := ((pp_ref p - 1) mod 2 ^ REF_BITS)%Z) in *.
  pose proof (exact_set_ref s pp p r Hex Hp) as Hex1.
  set (s1 := set_pages s _) in *.
  assert (Hc1 : count_total_free_pages s1 = count_total_free_pages s)
    by (by apply count_total_lists).
  destruct (decide (r = 0%Z)).
  - unfold page_free in Hrun.
    apply bind_Done in Hrun as ([pg s2] & Hmerge & Hrun). injection Hrun as <-.
    eapply (buddy_merge_exact pp s1 (PageInfo r (pp_order p) (pp_free p)))
      in Hmerge as (Hex2 & _ & Hc2); try done.
    + split; [done|]. cbn [pp_order] in Hc2. lia.
    + subst s1; cbn. apply list_lookup_insert_eq. by eapply lookup_lt_Some.
  - injection Hrun as <-. split; [done | lia].
Qed.

(** The defect of the exact-order hit, for every exact state: when the
    list of the requested order is not empty, the search returns its
    first block with the table untouched, so the block is still marked
    free while linked nowhere, and exactness is lost. *)
Lemma buddy_find_exact_hit req s blk rest :
  free_list_exact s →
  buddy_free_list s !! req = Some (blk :: rest) →
  ∃ s', buddy_find req s = Done (Some blk, s') ∧
    pages s' = pages s ∧
    (∃ p, pages s' !! blk = Some p ∧ pp_free p = true) ∧
    ¬ linked blk s' ∧
    ¬ free_list_exact s'.
Proof.
  intros Hex Hhit.
  assert (Hreq : req < BUDDY_MAX_ORDER).
  { rewrite <- (fle_heads _ Hex). by eapply lookup_lt_Some. }
  destruct (fle_member _ Hex req (blk :: rest) blk Hhit) as (p & Hp & _ & Hfree);
    [by left|].
  set (s' := set_lists s (<[req := rest]> (buddy_free_list s))).
  assert (Hnl : ¬ linked blk s').
  { intros (k & l & Hl & Hin). subst s'. cbn in Hl.
    destruct (decide (k = req)) as [->|Hne].
    - rewrite list_lookup_insert_eq in Hl by (by eapply lookup_lt_Some).
      injection Hl as <-.
      pose proof (NoDup_concat_inner _ _ _ (fle_once _ Hex) Hhit) as Hnd.
      by apply NoDup_cons in Hnd as [? _].
    - rewrite list_lookup_insert_ne in Hl by done.
      apply Hne.
      eapply (NoDup_concat_once _ k req l (blk :: rest) blk (fle_once _ Hex));
        [done | done | done | by left]. }
  exists s'. split_and!.
  - rewrite (buddy_find_hit req req s blk rest); try done; try lia.
    cbn zeta. by rewrite decide_False by lia.
  - done.
  - by exists p.
  - done.
  - intros Hex'. apply Hnl. by eapply (fle_free _ Hex' blk p).
Qed.

End Exactness.

(** * The claims of the specification *)

Section Claims.
Context `{Config}.

(** C4, the split engine.  (1) For a block [lhs] of order [k] (aligned,
    inside the table, not linked, its upper halves [lhs + 2 ^ i] linked
    nowhere either) and a target order [j < k], buddy_split
    returns [lhs] with order [j], not free and not linked; for every order
    [i] from [k - 1] down to [j] the buddy [buddy_of lhs i], reached by
    the address XOR with [PAGE_SIZE << i], has order [i], is marked free
    and heads free list [i]; nothing else changes.  (2) From a single free
    block of order 3, allocating one base page (order 0) leaves one entry
    in each of the lists 2, 1, 0 and every other list empty. *)
Theorem split_engine_correct :
  (∀ s lhs k j p,
     pages s !! lhs = Some p → pp_order p = k → j < k →
     length (buddy_free_list s) = BUDDY_MAX_ORDER → k < BUDDY_MAX_ORDER →
     (2 ^ k | lhs) → lhs + 2 ^ k ≤ npages s → ¬ linked lhs s →
     (∀ i, j ≤ i < k → ¬ linked (lhs + 2 ^ i) s) →
     ∃ s', buddy_split lhs j s = Done (lhs, s') ∧
       pages s' !! lhs = Some (PageInfo (pp_ref p) j false) ∧
       ¬ linked lhs s' ∧
       (∀ i, j ≤ i < k → ∃ q l,
          pages s !! buddy_of lhs i = Some q ∧
          buddy_free_list s !! i = Some l ∧
          pages s' !! buddy_of lhs i = Some (PageInfo (pp_ref q) i true) ∧
          buddy_free_list s' !! i = Some (buddy_of lhs i :: l)) ∧
       (∀ x, x ≠ lhs → (∀ i, j ≤ i < k → x ≠ buddy_of lhs i) →
          pages s' !! x = pages s !! x) ∧
       (∀ i, ¬ (j ≤ i < k) →
          buddy_free_list s' !! i = buddy_free_list s !! i))
  ∧
  (∀ s blk p alloc_flags m,
     3 < BUDDY_MAX_ORDER → BUDDY_4K_PAGE = 0 →
     Z.land alloc_flags ALLOC_HUGE = 0%Z →
     length (buddy_free_list s) = BUDDY_MAX_ORDER →
     (∀ i, i < BUDDY_MAX_ORDER →
        buddy_free_list s !! i = Some (if decide (i = 3) then [blk] else [])) →
     pages s !! blk = Some p → pp_order p = 3 →
     (2 ^ 3 | blk) → blk + 2 ^ 3 ≤ npages s →
     ∃ s' m', page_alloc alloc_flags s m = Done (Some blk, s', m') ∧
       pages s' !! blk = Some (PageInfo (pp_ref p) 0 false) ∧
       ∀ i, i < BUDDY_MAX_ORDER →
         buddy_free_list s' !! i
         = Some (if decide (i < 3) then [blk + 2 ^ i] else [])).
Proof.
  split.
  - intros s lhs k j p Hp Ho Hjk Hlen Hk Hal Hin Hnl Hupper.
    destruct (buddy_split_spec s lhs k j p)
      as (s' & Hrun & _ & _ & Hlhs & Hbud & Hoth & Hli & Hlo);
      try done; try lia.
    { intros i Hi. destruct (buddy_of_in_block lhs k i) as [-> ?]; [done|lia|].
      unfold npages in *. lia. }
    exists s'. split_and!; try done.
    + rewrite Hlhs. by rewrite decide_False by lia.
    + eapply not_linked_split; [| done | done | done]. lia.
    + intros i Hi. destruct (Hbud i Hi) as (q & Hq & Hq').
      destruct (lookup_lt_is_Some_2 (buddy_free_list s) i ltac:(lia)) as [l Hl].
      exists q, l. split_and!; try done. by apply Hli.
  - intros s blk p alloc_flags m Hmax H4k Hhuge Hlen Hlists Hp Ho Hal Hin.
    set (s1 := set_lists s (<[3 := []]> (buddy_free_list s))).
    destruct (buddy_split_spec s1 blk 3 0 p)
      as (s' & Hrun & Hnp & _ & Hlhs & _ & _ & Hli & Hlo);
      try done; try lia.
    { subst s1; cbn. rewrite length_insert. lia. }
    { intros i Hi. destruct (buddy_of_in_block blk 3 i) as [-> ?]; [done|lia|].
      unfold npages in *. subst s1; cbn. lia. }
    rewrite decide_False in Hlhs by lia.
    assert (Hfind : buddy_find 0 s = Done (Some blk, s')).
    { rewrite (buddy_find_hit 0 3 s blk []); try lia.
      - cbn zeta. rewrite decide_True by lia. fold s1. by rewrite Hrun.
      - intros i Hi. rewrite Hlists by lia. by rewrite decide_False by lia.
      - rewrite Hlists by lia. by rewrite decide_True. }
    assert (Hblk : pages s' !! blk = Some (PageInfo (pp_ref p) 0 false))
      by done.
    assert (Hall : ∀ i, i < BUDDY_MAX_ORDER →
      buddy_free_list s' !! i = Some (if decide (i < 3) then [blk + 2 ^ i] else [])).
    { intros i Hi. destruct (decide (i < 3)).
      - destruct (buddy_of_in_block blk 3 i) as [<- _]; [done|lia|].
        apply Hli; [lia|]. subst s1; cbn.
        rewrite list_lookup_insert_ne by lia. rewrite Hlists by lia.
        by rewrite decide_False by lia.
      - rewrite Hlo by lia. subst s1; cbn.
        destruct (decide (i = 3)) as [->|Hne].
        + apply list_lookup_insert_eq. lia.
        + rewrite list_lookup_insert_ne by lia. rewrite Hlists by lia.
          by rewrite decide_False by lia. }
    unfold page_alloc. rewrite decide_False by (by intros ?).
    rewrite H4k, Hfind. cbn [mbind outcome_bind].
    destruct (decide (Z.land alloc_flags ALLOC_ZERO ≠ 0%Z)).
    + rewrite (page_get_Some _ _ _ Hblk). cbn [mbind outcome_bind]. eauto.
    + eauto.
Qed.

(** C10.  For a block aligned to its order and inside the table, whose
    upper halves [lhs + 2 ^ i] are linked nowhere, and a
    target order below its order, buddy_split returns the descriptor it
    was given; the block linked into list [i] during the split is
    [lhs + 2^i], the buddy of [lhs] at order [i] and the half of the pair
    with the higher address; no other list changes. *)
Theorem buddy_split_returns_lower_half s lhs k j p :
  pages s !! lhs = Some p → pp_order p = k → j < k →
  length (buddy_free_list s) = BUDDY_MAX_ORDER → k < BUDDY_MAX_ORDER →
  (2 ^ k | lhs) → lhs + 2 ^ k ≤ npages s →
  (∀ i, j ≤ i < k → ¬ linked (lhs + 2 ^ i) s) →
  ∃ s', buddy_split lhs j s = Done (lhs, s') ∧
    (∀ i, j ≤ i < k → ∃ l,
       buddy_free_list s !! i = Some l ∧
       buddy_free_list s' !! i = Some (lhs + 2 ^ i :: l) ∧
       buddy_of lhs i = lhs + 2 ^ i ∧
       (page2pa lhs < page2pa (lhs + 2 ^ i))%N) ∧
    (∀ i, ¬ (j ≤ i < k) →
       buddy_free_list s' !! i = buddy_free_list s !! i).
Proof.
  intros Hp Ho Hjk Hlen Hk Hal Hin Hupper.
  destruct (buddy_split_spec s lhs k j p)
    as (s' & Hrun & _ & _ & _ & _ & _ & Hli & Hlo);
    try done; try lia.
  { intros i Hi. destruct (buddy_of_in_block lhs k i) as [-> ?]; [done|lia|].
    unfold npages in *. lia. }
  exists s'. split_and!; try done.
  intros i Hi.
  destruct (lookup_lt_is_Some_2 (buddy_free_list s) i ltac:(lia)) as [l Hl].
  destruct (buddy_of_in_block lhs k i) as [Hb _]; [done|lia|].
  exists l. split_and!; try done.
  - rewrite <- Hb. by apply Hli.
  - apply page2pa_lt. pose proof (Nat.pow_nonzero 2 i). lia.
Qed.

(** C9.  The loop of buddy_merge takes at most
    [BUDDY_MAX_ORDER - order] turns, hence at most BUDDY_MAX_ORDER: that
    much fuel is never used up, more fuel changes nothing, and buddy_merge
    itself always comes to an end. *)
Theorem buddy_merge_terminates page s :
  out_of_fuel (buddy_merge page s) = false ∧
  ∀ order extra,
    out_of_fuel (buddy_merge_loop (BUDDY_MAX_ORDER - order) order page s)
    = false ∧
    buddy_merge_loop (BUDDY_MAX_ORDER - order + extra) order page s
    = buddy_merge_loop (BUDDY_MAX_ORDER - order) order page s.
Proof.
  split.
  - pose proof (buddy_merge_total page s). by destruct (buddy_merge page s).
  - intros order extra. split.
    + pose proof (buddy_merge_loop_fuel (BUDDY_MAX_ORDER - order) order page s
                    ltac:(lia)).
      by destruct (buddy_merge_loop _ _ _ _).
    + apply buddy_merge_loop_more_fuel; lia.
Qed.

Lemma block_bytes order :
  N.shiftl PAGE_SIZE (N.of_nat order) = (N.of_nat (2 ^ order) * PAGE_SIZE)%N.
Proof.
  rewrite N.shiftl_mul_pow2, Nat2N.inj_pow. change (N.of_nat 2) with 2%N. lia.
Qed.

(** C5, the contract of page_alloc.  The order asked of buddy_find is
    BUDDY_2M_PAGE when ALLOC_HUGE is set in the flags and BUDDY_4K_PAGE
    otherwise.  page_alloc returns NULL exactly when buddy_find does, with
    nothing else done.  When buddy_find returns a block, page_alloc returns
    it; no reference count of the table has changed; with ALLOC_ZERO set
    every byte of the [2 ^ pp_order] pages of the block reads zero and the
    other bytes are as before, and without it the memory is untouched. *)
Theorem page_alloc_contract (alloc_flags : Z) (s : state) (m : memory) :
  lists_in_table s →
  let order :=
    if decide (Z.land alloc_flags ALLOC_HUGE ≠ 0%Z) then BUDDY_2M_PAGE
    else BUDDY_4K_PAGE in
  match buddy_find order s with
  | Done (None, s') => page_alloc alloc_flags s m = Done (None, s', m)
  | Done (Some page, s') =>
      same_refs s s' ∧
      ∃ p m', pages s' !! page = Some p ∧
        page_alloc alloc_flags s m = Done (Some page, s', m') ∧
        if decide (Z.land alloc_flags ALLOC_ZERO ≠ 0%Z) then
          ∀ a, m' a =
            if decide (page2pa page ≤ a
                       < page2pa page + N.of_nat (2 ^ pp_order p) * PAGE_SIZE)%N
            then 0%Z else m a
        else m' = m
  | Fault f => page_alloc alloc_flags s m = Fault f
  | OutOfFuel => False
  end.
Proof.
  intros Htable order. unfold page_alloc. fold order.
  pose proof (buddy_find_total order s) as Htotal.
  destruct (buddy_find order s) as [[[page|] s']| |] eqn:Hfind; try done.
  apply buddy_find_loop_inv in Hfind as [Hrefs Hpage].
  specialize (Hpage Htable page eq_refl).
  destruct (lookup_lt_is_Some_2 _ _ Hpage) as [p Hp].
  split; [done|]. cbn [mbind outcome_bind].
  destruct (decide (Z.land alloc_flags ALLOC_ZERO ≠ 0%Z)).
  - rewrite (page_get_Some _ _ _ Hp). cbn [mbind outcome_bind].
    eexists p, _. split_and!; [done | done |].
    intros a. unfold memset. by rewrite block_bytes.
  - by exists p, m.
Qed.

(** C6, as the code has it: no contract is checked.  (1) page_free does
    not look at the reference count: a page of valid order that is linked
    nowhere, and whose buddy is in the table and cannot be merged, is
    marked free and linked into the list of its order, whatever its
    count; nothing else changes.  (2) page_decref on
    a page whose count is already zero stores the wrapped count
    [2 ^ REF_BITS - 1] and returns without freeing.  (3) buddy_find for an
    order above BUDDY_MAX_ORDER returns NULL and leaves the state as it
    is. *)
Theorem contract_violations_go_unchecked :
  (∀ pp s p b l,
     pages s !! pp = Some p → pp_order p < BUDDY_MAX_ORDER →
     pages s !! buddy_of pp (pp_order p) = Some b →
     pp_free b = false ∨ pp_order b ≠ pp_order p →
     buddy_free_list s !! pp_order p = Some l →
     ¬ linked pp s →
     ∃ s' l',
       page_free pp s = Done s' ∧
       pages s' = <[pp := PageInfo (pp_ref p) (pp_order p) true]> (pages s) ∧
       buddy_free_list s' = <[pp_order p := l']> (buddy_free_list s) ∧
       l' ≡ₚ pp :: l)
  ∧
  (∀ pp s p,
     pages s !! pp = Some p → pp_ref p = 0%Z → (0 < REF_BITS)%Z →
     page_decref pp s =
       Done (set_pages s
               (<[pp := PageInfo (2 ^ REF_BITS - 1) (pp_order p) (pp_free p)]>
                  (pages s))))
  ∧
  (∀ req s, BUDDY_MAX_ORDER < req → buddy_find req s = Done (None, s)).
Proof.
  split_and!.
  - intros pp s p b l Hp Ho Hb Hun Hl Hnl. unfold page_free.
    rewrite (buddy_merge_unmergeable pp s p b l) by done.
    eexists _, (pp :: l). split_and!; done.
  - intros pp s p Hp Href Hbits. unfold page_decref.
    rewrite (page_get_Some _ _ _ Hp). cbn [mbind outcome_bind].
    unfold set_pp_ref. rewrite (page_update_Some _ _ _ _ Hp).
    cbn [mbind outcome_bind]. rewrite Href.
    assert (Hpow : (1 < 2 ^ REF_BITS)%Z) by (apply Z.pow_gt_1; lia).
    assert (Hwrap : ((0 - 1) mod 2 ^ REF_BITS = 2 ^ REF_BITS - 1)%Z).
    { symmetry. apply (Z.mod_unique _ _ (-1)); lia. }
    rewrite Hwrap. by rewrite decide_False by lia.
  - intros req s Hreq. by apply buddy_find_beyond.
Qed.

End Claims.

(** ** The claims at work on the example states *)

Section Examples.
#[local] Existing Instance lab.

Lemma lists_in_table_Forall s :
  Forall (Forall (λ i, i < npages s)) (buddy_free_list s) → lists_in_table s.
Proof.
  unfold lists_in_table, linked. intros Hall i (k & l & Hl & Hi).
  eapply Forall_lookup_1 in Hall; [|exact Hl].
  apply list_elem_of_lookup in Hi as [j Hj].
  by eapply Forall_lookup_1 in Hall.
Qed.

Lemma not_linked_Forall s i :
  Forall (Forall (λ n, n ≠ i)) (buddy_free_list s) → ¬ linked i s.
Proof.
  unfold linked. intros Hall (k & l & Hl & Hi).
  eapply Forall_lookup_1 in Hall; [|exact Hl].
  apply list_elem_of_lookup in Hi as [j Hj].
  by eapply Forall_lookup_1 in Hall.
Qed.

Lemma split_engine_correct_witness :
  (∃ s', buddy_split 0 1 (set_lists one_block_of_8 no_free_block) = Done (0, s') ∧
     pages s' !! 0 = Some (PageInfo 0 1 false) ∧ ¬ linked 0 s') ∧
  (∃ s' m', page_alloc 1 one_block_of_8 blank = Done (Some 0, s', m') ∧
     ∀ i, i < 10 →
       buddy_free_list s' !! i = Some (if decide (i < 3) then [0 + 2 ^ i] else [])).
Proof.
  split.
  - destruct (proj1 split_engine_correct
                (set_lists one_block_of_8 no_free_block) 0 3 1 (avail 3))
      as (s' & Hrun & Hp & Hnl & _).
    + reflexivity.
    + reflexivity.
    + lia.
    + reflexivity.
    + cbn. lia.
    + exists 0. reflexivity.
    + cbn. lia.
    + apply not_linked_Forall. cbn. repeat constructor.
    + intros i Hi. apply not_linked_Forall. cbn. repeat constructor.
    + exists s'. auto.
  - destruct (proj2 split_engine_correct one_block_of_8 0 (avail 3) 1%Z blank)
      as (s' & m' & Hrun & _ & Hlists).
    + cbn. lia.
    + reflexivity.
    + reflexivity.
    + reflexivity.
    + intros i Hi. cbn in Hi.
      do 10 (destruct i as [|i]; [reflexivity|]). lia.
    + reflexivity.
    + reflexivity.
    + exists 0. reflexivity.
    + cbn. lia.
    + exists s', m'. auto.
Defined.

Lemma buddy_split_returns_lower_half_witness :
  ∃ s', buddy_split 8 0 block_of_8_taken = Done (8, s') ∧
    ∀ i, 0 ≤ i < 3 → ∃ l,
      no_free_block !! i = Some l ∧
      buddy_free_list s' !! i = Some (8 + 2 ^ i :: l) ∧
      buddy_of 8 i = 8 + 2 ^ i ∧
      (page2pa 8 < page2pa (8 + 2 ^ i))%N.
Proof.
  destruct (buddy_split_returns_lower_half block_of_8_taken 8 3 0 (avail 3))
    as (s' & Hrun & Hin & _).
  - reflexivity.
  - reflexivity.
  - lia.
  - reflexivity.
  - cbn. lia.
  - exists 1. reflexivity.
  - cbn. lia.
  - intros i Hi. apply not_linked_Forall. cbn. repeat constructor.
  - exists s'. auto.
Defined.

Lemma page_alloc_contract_witness :
  lists_in_table one_block_of_8 ∧
  ∃ s' m', page_alloc 1 one_block_of_8 blank = Done (Some 0, s', m') ∧
    same_refs one_block_of_8 s' ∧
    m' 0%N = 0%Z ∧ m' 4095%N = 0%Z ∧ m' 4096%N = 255%Z.
Proof.
  assert (Htable : lists_in_table one_block_of_8).
  { apply lists_in_table_Forall. cbn. repeat constructor. }
  split; [exact Htable|].
  pose proof (page_alloc_contract 1 one_block_of_8 blank Htable) as Hc.
  cbv zeta in Hc.
  destruct (buddy_find _ one_block_of_8) as [[[page|] s']| |] eqn:Hfind;
    try discriminate Hfind.
  injection Hfind as <- <-.
  destruct Hc as (Hrefs & p & m' & Hp & Hrun & Hmem).
  injection Hp as <-.
  eexists _, m'. split_and!; [exact Hrun | exact Hrefs | | |];
    rewrite (Hmem _); reflexivity.
Defined.

(** Exactness of a state given by its table and lists is checked list by
    list and descriptor by descriptor. *)
Ltac by_cases_on_lists k Hl Hi :=
  cbn in Hl;
  repeat (destruct k as [|k];
          [ injection Hl as <-;
            repeat (apply elem_of_cons in Hi as [->|Hi]; [eauto|]);
            by apply elem_of_nil in Hi
          | cbn in Hl ]);
  discriminate Hl.

Lemma one_page_free_exact : free_list_exact one_page_free.
Proof.
  split.
  - reflexivity.
  - intros k l i Hl Hi. by_cases_on_lists k Hl Hi.
  - cbn. apply NoDup_singleton.
  - intros [|[|i]] p Hp Hfree; cbn in Hp; try discriminate Hp;
      injection Hp as <-; try discriminate Hfree.
    exists 0, [0]. split; [reflexivity | by left].
Qed.

(** C1, at a state where the list of the requested order is not empty:
    [one_page_free] is exact; buddy_find 0 pops page 0 and returns it as it
    is, still marked free though linked nowhere, so the state it leaves is
    not exact.  On the other path, where the block comes from a higher
    order, buddy_split clears the mark ([one_block_of_8]). *)
Theorem buddy_find_leaves_block_marked_free :
  free_list_exact one_page_free ∧
  (∃ s', buddy_find 0 one_page_free = Done (Some 0, s') ∧
     pp_free <$> pages s' !! 0 = Some true ∧
     ¬ linked 0 s' ∧
     ¬ free_list_exact s') ∧
  (∃ s', buddy_find 0 one_block_of_8 = Done (Some 0, s') ∧
     pp_free <$> pages s' !! 0 = Some false).
Proof.
  split_and!.
  - exact one_page_free_exact.
  - eexists. split; [reflexivity|].
    assert (Hnl : ¬ linked 0 (set_lists one_page_free
                                (<[0 := []]> (buddy_free_list one_page_free)))).
    { apply not_linked_Forall. cbn. repeat constructor. }
    split_and!; [reflexivity | exact Hnl |].
    intros Hex. apply Hnl. by eapply (fle_free _ Hex 0).
  - eexists. split; reflexivity.
Qed.

(** C2, at a state with nothing free: for every order up to
    BUDDY_MAX_ORDER the search reads the list head of index
    BUDDY_MAX_ORDER, one past the ten heads of the array, instead of
    returning NULL; only above BUDDY_MAX_ORDER does it return NULL. *)
Theorem buddy_find_reads_past_the_heads :
  length (buddy_free_list all_used) = BUDDY_MAX_ORDER ∧
  ∀ req, buddy_find req all_used =
    if decide (req ≤ BUDDY_MAX_ORDER)
    then Fault (FreeListOutOfRange BUDDY_MAX_ORDER)
    else Done (None, all_used).
Proof.
  split; [reflexivity|]. intros req. case_decide.
  - apply buddy_find_exhausted; [done | reflexivity |].
    intros i Hi. apply lookup_replicate_2. cbn in Hi. lia.
  - apply buddy_find_beyond. lia.
Qed.

(** C7, at the same state: page_alloc, whatever the flags, does not
    return NULL; the search it starts reads past the array of heads. *)
Theorem page_alloc_exhausted_reads_past_the_heads :
  ∀ alloc_flags m,
    page_alloc alloc_flags all_used m
    = Fault (FreeListOutOfRange BUDDY_MAX_ORDER).
Proof.
  intros alloc_flags m. unfold page_alloc.
  destruct (decide (Z.land alloc_flags ALLOC_HUGE ≠ 0%Z)); reflexivity.
Qed.

(** C6 as the specification has it fails at [two_used]: page 0 has a
    holder, yet page_free completes and links it as a free block; a
    second page_decref on a page whose count is already zero completes
    as well, and so does a search for order 11. *)
Lemma page_free_with_holder_completes :
  pp_ref <$> pages two_used !! 0 = Some 1%Z ∧
  (∃ s', page_free 0 two_used = Done s' ∧
     buddy_free_list s' !! 0 = Some [0] ∧
     pages s' !! 0 = Some (PageInfo 1 0 true)) ∧
  (∃ s', page_decref 0 pair_in_use = Done s' ∧
     pages s' !! 0 = Some (PageInfo 65535 0 false)) ∧
  buddy_find 11 two_used = Done (None, two_used).
Proof.
  split_and!; [reflexivity | | | reflexivity]; eexists; split_and!; reflexivity.
Qed.

Lemma contract_violations_go_unchecked_witness :
  (∃ s' l',
     page_free 0 two_used = Done s' ∧
     pages s' = [PageInfo 1 0 true; used 0] ∧
     buddy_free_list s' = <[0 := l']> no_free_block ∧
     l' ≡ₚ [0]) ∧
  page_decref 0 pair_in_use
  = Done (set_pages pair_in_use
            [PageInfo 65535 0 false; released 0; used 0; used 0]) ∧
  buddy_find 11 all_used = Done (None, all_used).
Proof.
  split_and!.
  - refine (proj1 contract_violations_go_unchecked 0 two_used (used 0) (used 0) []
              _ _ _ _ _ _).
    + reflexivity.
    + cbn. lia.
    + reflexivity.
    + left. reflexivity.
    + reflexivity.
    + apply not_linked_Forall. cbn. repeat constructor.
  - exact (proj1 (proj2 contract_violations_go_unchecked) 0 pair_in_use
             (released 0) eq_refl eq_refl eq_refl).
  - apply (proj2 (proj2 contract_violations_go_unchecked)). cbn. lia.
Defined.

Lemma two_top_blocks_exact : free_list_exact two_top_blocks.
Proof.
  split.
  - reflexivity.
  - intros k l i Hl Hi. by_cases_on_lists k Hl Hi.
  - cbn. apply NoDup_singleton.
  - intros i p Hp Hfree. unfold two_top_blocks in Hp. cbn [pages] in Hp.
    assert (Hhalf : ∀ o j, (released o :: replicate 511 (released 0)) !! j = Some p
                           → False).
    { intros o [|j] Hj.
      - injection Hj as <-. discriminate Hfree.
      - change (replicate 511 (released 0) !! j = Some p) in Hj.
        apply lookup_replicate in Hj as [-> _]. discriminate Hfree. }
    apply lookup_app_Some in Hp as [Hp|[Hlen Hp]]; [by destruct (Hhalf 9 i)|].
    change (length _) with 512 in *.
    destruct (i - 512) as [|j] eqn:Hi.
    + assert (i = 512) as -> by lia.
      exists 9, [512]. split; [reflexivity | by left].
    + change (replicate 511 (released 0) !! j = Some p) in Hp.
      apply lookup_replicate in Hp as [-> _]. discriminate Hfree.
Qed.

(** C3, at the top order: [two_top_blocks] is exact, page 0 heads a
    released block of order 9 (not marked free, linked nowhere) and its
    buddy, page 512, is free at order 9.  The loop of buddy_merge merges
    them and stops at order 10 = BUDDY_MAX_ORDER; buddy_merge then links
    page 0 at [buddy_free_list + 10], past the ten heads of the array. *)
Theorem buddy_merge_overshoots_the_top_order :
  free_list_exact two_top_blocks ∧
  pages two_top_blocks !! 0 = Some (released 9) ∧
  ¬ linked 0 two_top_blocks ∧
  buddy_of 0 9 = 512 ∧
  (∃ s1, buddy_merge_loop BUDDY_MAX_ORDER 9 0 two_top_blocks = Done (0, s1) ∧
     pages s1 !! 0 = Some (PageInfo 0 10 false) ∧
     length (buddy_free_list s1) = 10) ∧
  buddy_merge 0 two_top_blocks = Fault (FreeListOutOfRange 10) ∧
  page_free 0 two_top_blocks = Fault (FreeListOutOfRange 10).
Proof.
  split_and!.
  - exact two_top_blocks_exact.
  - reflexivity.
  - apply not_linked_Forall. cbn. repeat constructor. lia.
  - vm_compute. reflexivity.
  - eexists. split_and!; [vm_compute; reflexivity | reflexivity | reflexivity].
  - vm_compute. reflexivity.
  - vm_compute. reflexivity.
Qed.

Lemma one_pair_exact : free_list_exact one_pair.
Proof.
  split.
  - reflexivity.
  - intros k l i Hl Hi. by_cases_on_lists k Hl Hi.
  - cbn. apply NoDup_singleton.
  - intros [|[|[|[|i]]]] p Hp Hfree; cbn in Hp; try discriminate Hp;
      injection Hp as <-; try discriminate Hfree.
    exists 1, [0]. split; [reflexivity | by left].
Qed.

(** C8, on a run of the allocator.  Releasing pages 0 and 1 of
    [pair_in_use] gives [one_pair], an exact state in which free and held
    pages add up to npages.  A caller then takes two base pages, pages 0
    and 1, and releases page 0: page 1, still held, is merged into a free
    block of order 1, so that two pages are counted free while three of
    the four pages are held. *)
Theorem conservation_lost_after_exact_order_hit :
  (page_free 0 pair_in_use ≫= page_free 1) = Done one_pair ∧
  free_list_exact one_pair ∧
  count_total_free_pages one_pair + count_held_pages one_pair = npages one_pair ∧
  ∃ s', take_two_release_first one_pair blank = Done (Some 0, Some 1, s') ∧
    npages s' = 4 ∧
    pages s' !! 1 = Some (PageInfo 1 1 false) ∧
    buddy_free_list s' !! 1 = Some [0] ∧
    count_total_free_pages s' = 2 ∧
    count_held_pages s' = 3.
Proof.
  split_and!; [reflexivity | exact one_pair_exact | reflexivity |].
  eexists. split_and!; reflexivity.
Qed.

End Examples.

(** * Further properties of the allocator *)

Section Pairing.
Context `{Config}.

Lemma lxor_pow2_low (p o : N) :
  N.testbit p o = false → N.lxor p (2 ^ o) = (p + 2 ^ o)%N.
Proof.
  intros Hbit. symmetry. apply N.add_nocarry_lxor.
  apply N.bits_inj_0. intros n. rewrite N.land_spec.
  destruct (decide (n = o)) as [->|Hn].
  - by rewrite Hbit.
  - rewrite N.pow2_bits_false by done. apply andb_false_r.
Qed.

(** X1.  The address XOR of lines 102 and 146 pairs the blocks of an
    order: the buddy of the buddy is the block itself, a block is never
    its own buddy, and the two lie [2 ^ order] pages apart. *)
Theorem buddy_pairing page order :
  buddy_of (buddy_of page order) order = page ∧
  buddy_of page order ≠ page ∧
  (buddy_of page order = page + 2 ^ order ∨
   page = buddy_of page order + 2 ^ order).
Proof.
  assert (Hinv : ∀ p, buddy_of (buddy_of p order) order = p).
  { intros p. rewrite !buddy_of_lxor, N2Nat.id.
    rewrite N.lxor_assoc, N.lxor_nilpotent, N.lxor_0_r. lia. }
  assert (Hlow : ∀ p, N.testbit (N.of_nat p) (N.of_nat order) = false →
                      buddy_of p order = p + 2 ^ order).
  { intros p Hbit. rewrite buddy_of_lxor, lxor_pow2_low by done.
    rewrite N2Nat.inj_add, N2Nat.inj_pow, !Nat2N.id. done. }
  split_and!; [apply Hinv | apply buddy_of_ne |].
  destruct (N.testbit (N.of_nat page) (N.of_nat order)) eqn:Hbit.
  - right. rewrite <- (Hinv page) at 1. apply Hlow.
    rewrite buddy_of_lxor, N2Nat.id, N.lxor_spec, Hbit, N.pow2_bits_true.
    done.
  - left. by apply Hlow.
Qed.

End Pairing.

Section Search.
Context `{Config}.

(** When page_alloc returns a block, buddy_find has returned it for the
    order that the flags select. *)
Lemma page_alloc_Some alloc_flags s m blk s' m' :
  page_alloc alloc_flags s m = Done (Some blk, s', m') →
  buddy_find (if decide (Z.land alloc_flags ALLOC_HUGE ≠ 0%Z)
              then BUDDY_2M_PAGE else BUDDY_4K_PAGE) s
  = Done (Some blk, s').
Proof.
  unfold page_alloc. cbn zeta.
  intros ([[page|] s1] & Hfind & Hrun)%bind_Done; [|discriminate Hrun].
  destruct (decide (Z.land alloc_flags ALLOC_ZERO ≠ 0%Z)).
  - apply bind_Done in Hrun as (p & _ & Hrun). by injection Hrun as <- <- _.
  - by injection Hrun as <- <- _.
Qed.

(** X2.  Out of memory is not reported: in every state whose lists from
    the requested order upwards are empty, buddy_find reads the list head
    of index BUDDY_MAX_ORDER, past the array, and so does page_alloc; NULL
    is not returned. *)
Theorem page_alloc_out_of_memory_faults alloc_flags s m :
  let order :=
    if decide (Z.land alloc_flags ALLOC_HUGE ≠ 0%Z) then BUDDY_2M_PAGE
    else BUDDY_4K_PAGE in
  order ≤ BUDDY_MAX_ORDER →
  length (buddy_free_list s) = BUDDY_MAX_ORDER →
  (∀ i, order ≤ i < BUDDY_MAX_ORDER → buddy_free_list s !! i = Some []) →
  buddy_find order s = Fault (FreeListOutOfRange BUDDY_MAX_ORDER) ∧
  page_alloc alloc_flags s m = Fault (FreeListOutOfRange BUDDY_MAX_ORDER).
Proof.
  intros order Ho Hlen Hempty.
  pose proof (buddy_find_exhausted order s Ho Hlen Hempty) as Hfind.
  split; [done|]. unfold page_alloc. fold order. by rewrite Hfind.
Qed.

(** X3.  In every exact state whose list of the requested order is not
    empty, page_alloc returns the head of that list with the descriptor
    table untouched: the block is still marked free though it is linked
    nowhere, and the state is no longer exact. *)
Theorem page_alloc_exact_hit_breaks_exactness alloc_flags s m blk rest :
  let order :=
    if decide (Z.land alloc_flags ALLOC_HUGE ≠ 0%Z) then BUDDY_2M_PAGE
    else BUDDY_4K_PAGE in
  free_list_exact s →
  buddy_free_list s !! order = Some (blk :: rest) →
  ∃ s' m', page_alloc alloc_flags s m = Done (Some blk, s', m') ∧
    pages s' = pages s ∧
    (∃ p, pages s' !! blk = Some p ∧ pp_free p = true) ∧
    ¬ linked blk s' ∧
    ¬ free_list_exact s'.
Proof.
  intros order Hex Hhit.
  destruct (buddy_find_exact_hit order s blk rest Hex Hhit)
    as (s' & Hfind & Hpages & (p & Hp & Hfree) & Hnl & Hnex).
  unfold page_alloc. fold order. rewrite Hfind. cbn [mbind outcome_bind].
  destruct (decide (Z.land alloc_flags ALLOC_ZERO ≠ 0%Z)).
  - rewrite (page_get_Some _ _ _ Hp). cbn [mbind outcome_bind].
    eexists s', _. split_and!; eauto.
  - exists s', m. split_and!; eauto.
Qed.

(** X4.  When the list of the requested order is empty and page_alloc
    returns a block, taken from a higher order and split, an exact state
    stays exact: the block has the requested order, is not marked free
    and is linked nowhere, and the number of free pages has fallen by the
    size of the block.  The pages that the block covers are supposed not
    to be marked free themselves. *)
Theorem page_alloc_split_keeps_exactness alloc_flags s m blk s' m' :
  let order :=
    if decide (Z.land alloc_flags ALLOC_HUGE ≠ 0%Z) then BUDDY_2M_PAGE
    else BUDDY_4K_PAGE in
  free_list_exact s →
  buddy_free_list s !! order = Some [] →
  (∀ p i q, pages s !! blk = Some p → order ≤ i < pp_order p →
     pages s !! buddy_of blk i = Some q → pp_free q = false) →
  page_alloc alloc_flags s m = Done (Some blk, s', m') →
  free_list_exact s' ∧ ¬ linked blk s' ∧
  (∃ p', pages s' !! blk = Some p' ∧ pp_free p' = false ∧ pp_order p' = order) ∧
  count_total_free_pages s' + 2 ^ order = count_total_free_pages s.
Proof.
  intros order Hex Hempty Hinner Hrun. apply page_alloc_Some in Hrun.
  by apply (buddy_find_split_exact order s blk s').
Qed.

End Search.

Section Release.
Context `{Config}.

(** X5.  page_free on a block that is not marked free, when it completes,
    keeps an exact state exact and adds the size of the block to the
    number of free pages. *)
Theorem page_free_keeps_exactness pp s p s' :
  free_list_exact s → pages s !! pp = Some p → pp_free p = false →
  page_free pp s = Done s' →
  free_list_exact s' ∧
  count_total_free_pages s' = count_total_free_pages s + 2 ^ pp_order p.
Proof.
  intros Hex Hp Hfree Hrun. unfold page_free in Hrun.
  apply bind_Done in Hrun as ([page' s1] & Hmerge & Hrun).
  injection Hrun as <-.
  by destruct (buddy_merge_exact pp s p page' s1 Hex Hp Hfree Hmerge)
    as (? & _ & ?).
Qed.

(** X6.  page_decref on a block that is not marked free, when it
    completes, keeps an exact state exact; the number of free pages grows
    by the size of the block when the count reaches zero, and not at all
    otherwise. *)
Theorem page_decref_keeps_exactness pp s p s' :
  free_list_exact s → pages s !! pp = Some p → pp_free p = false →
  page_decref pp s = Done s' →
  free_list_exact s' ∧
  count_total_free_pages s' =
    count_total_free_pages s
    + (if decide ((pp_ref p - 1) mod 2 ^ REF_BITS = 0)%Z
       then 2 ^ pp_order p else 0).
Proof. apply page_decref_exact. Qed.

(** X7.  A block obtained by page_alloc through a split and handed back
    by page_free: the state is exact again and the number of free pages is
    what it was before the allocation.  The state before the allocation
    is supposed exact, with the list of the requested order empty and
    with the pages that the block covers (its buddies at the orders from
    the requested one up to its own) not marked free themselves. *)
Theorem alloc_then_free_conserves_count alloc_flags s m blk s1 m1 s2 :
  let order :=
    if decide (Z.land alloc_flags ALLOC_HUGE ≠ 0%Z) then BUDDY_2M_PAGE
    else BUDDY_4K_PAGE in
  free_list_exact s →
  buddy_free_list s !! order = Some [] →
  (∀ p i q, pages s !! blk = Some p → order ≤ i < pp_order p →
     pages s !! buddy_of blk i = Some q → pp_free q = false) →
  page_alloc alloc_flags s m = Done (Some blk, s1, m1) →
  page_free blk s1 = Done s2 →
  free_list_exact s2 ∧
  count_total_free_pages s2 = count_total_free_pages s.
Proof.
  intros order Hex Hempty Hinner Halloc Hfree.
  apply page_alloc_Some in Halloc. fold order in Halloc.
  destruct (buddy_find_split_exact order s blk s1 Hex Hempty Hinner Halloc)
    as (Hex1 & _ & (p' & Hp' & Hf' & Ho') & Hcount).
  unfold page_free in Hfree.
  apply bind_Done in Hfree as ([page' s3] & Hmerge & Hfree).
  injection Hfree as <-.
  destruct (buddy_merge_exact blk s1 p' page' s3 Hex1 Hp' Hf' Hmerge)
    as (Hex2 & _ & Hcount2).
  split; [done|]. rewrite Hcount2, Ho'. done.
Qed.

(** X8.  In every state, page_free on a block of the top order
    BUDDY_MAX_ORDER - 1 whose buddy is free at that order merges the two
    and links the result at [buddy_free_list + BUDDY_MAX_ORDER], past the
    array of heads. *)
Theorem page_free_top_order_faults pp s p b :
  length (buddy_free_list s) = BUDDY_MAX_ORDER →
  pages s !! pp = Some p → S (pp_order p) = BUDDY_MAX_ORDER →
  pages s !! buddy_of pp (pp_order p) = Some b →
  pp_free b = true → pp_order b = pp_order p →
  page_free pp s = Fault (FreeListOutOfRange BUDDY_MAX_ORDER).
Proof.
  intros Hlen Hp Hmax Hb Hbf Hbo. unfold page_free.
  by rewrite (buddy_merge_top_order pp s p b).
Qed.

(** X9.  Two adjacent pages [a] and [a + 1] of order 0, the lower one
    even, both linked nowhere and the upper one not marked free, released
    one after the other, come out as one free block of order 1 headed by
    the lower page: [a] has order 1, is marked free and is linked into
    list 1, and nothing else has changed, list 0 included.  The buddy of
    that block is supposed not to be mergeable. *)
Theorem true_buddies_merge_on_release a s pa pb c l0 l1 :
  1 < BUDDY_MAX_ORDER → (2 | a) →
  pages s !! a = Some pa → pp_order pa = 0 →
  pages s !! (a + 1) = Some pb → pp_order pb = 0 → pp_free pb = false →
  ¬ linked a s → ¬ linked (a + 1) s →
  pages s !! buddy_of a 1 = Some c → pp_free c = false ∨ pp_order c ≠ 1 →
  buddy_free_list s !! 0 = Some l0 → buddy_free_list s !! 1 = Some l1 →
  ∃ s' l',
    page_free a s ≫= page_free (a + 1) = Done s' ∧
    pages s' = <[a := PageInfo (pp_ref pa) 1 true]> (pages s) ∧
    buddy_free_list s' = <[1 := l']> (buddy_free_list s) ∧
    l' ≡ₚ a :: l1.
Proof.
  intros Hmax Heven Hpa Hoa Hpb Hob Hfb Hnla Hnlb Hc Hcun Hl0 Hl1.
  rewrite (release_true_buddies a s pa pb c l0 l1) by done.
  eexists _, (a :: l1). split_and!; done.
Qed.

(** X10.  Two adjacent pages [a] and [a + 1] of order 0, the lower one
    odd, both linked nowhere, are not buddies: released one after the
    other they stay two free blocks of order 0, both marked free and both
    linked into list 0, and nothing else has changed.  The buddy of each
    is supposed not to be mergeable. *)
Theorem strangers_stay_apart_on_release a s pa pb ca cb l0 :
  0 < BUDDY_MAX_ORDER → ¬ (2 | a) →
  pages s !! a = Some pa → pp_order pa = 0 →
  pages s !! (a + 1) = Some pb → pp_order pb = 0 →
  ¬ linked a s → ¬ linked (a + 1) s →
  pages s !! buddy_of a 0 = Some ca → pp_free ca = false ∨ pp_order ca ≠ 0 →
  pages s !! buddy_of (a + 1) 0 = Some cb → pp_free cb = false ∨ pp_order cb ≠ 0 →
  buddy_free_list s !! 0 = Some l0 →
  buddy_of a 0 ≠ a + 1 ∧
  ∃ s' l',
    page_free a s ≫= page_free (a + 1) = Done s' ∧
    pages s' = <[a + 1 := PageInfo (pp_ref pb) 0 true]>
                 (<[a := PageInfo (pp_ref pa) 0 true]> (pages s)) ∧
    buddy_free_list s' = <[0 := l']> (buddy_free_list s) ∧
    l' ≡ₚ a :: (a + 1) :: l0.
Proof.
  intros Hmax Hodd Hpa Hoa Hpb Hob Hnla Hnlb Hca Hcau Hcb Hcbu Hl0.
  destruct (release_adjacent_strangers a s pa pb ca cb l0) as [Hne Hrun];
    try done.
  split; [done|]. rewrite Hrun.
  eexists _, ((a + 1) :: a :: l0). split_and!; try done.
  apply Permutation_swap.
Qed.

(** X11.  The loops of buddy_split and buddy_find come to an end, the
    first within as many turns as the order of the block, the second
    within BUDDY_MAX_ORDER + 1 turns; and so do page_alloc, page_free and
    page_decref, in every state. *)
Theorem allocator_calls_terminate :
  (∀ lhs req s, out_of_fuel (buddy_split lhs req s) = false) ∧
  (∀ req s, out_of_fuel (buddy_find req s) = false) ∧
  (∀ alloc_flags s m, out_of_fuel (page_alloc alloc_flags s m) = false) ∧
  (∀ pp s, out_of_fuel (page_free pp s) = false) ∧
  (∀ pp s, out_of_fuel (page_decref pp s) = false).
Proof.
  assert (Hfree : ∀ pp s, out_of_fuel (page_free pp s) = false).
  { intros pp s. unfold page_free.
    pose proof (buddy_merge_total pp s).
    by destruct (buddy_merge pp s) as [[??]| |]. }
  split_and!.
  - intros lhs req s. pose proof (buddy_split_total lhs req s).
    by destruct (buddy_split lhs req s).
  - intros req s. pose proof (buddy_find_total req s).
    by destruct (buddy_find req s).
  - intros alloc_flags s m. unfold page_alloc. cbn zeta.
    pose proof (buddy_find_total
      (if decide (Z.land alloc_flags ALLOC_HUGE ≠ 0%Z) then BUDDY_2M_PAGE
       else BUDDY_4K_PAGE) s) as Hfind.
    destruct (buddy_find _ s) as [[[page|] s']| |]; try done.
    cbn [mbind outcome_bind]. case_decide; [|done].
    unfold page_get. by destruct (pages s' !! page).
  - done.
  - intros pp s. unfold page_decref, page_get.
    destruct (pages s !! pp) as [p|]; [|done]. cbn [mbind outcome_bind].
    unfold set_pp_ref, page_update, page_get.
    destruct (pages s !! pp); [|done]. cbn [mbind outcome_bind].
    case_decide; [apply Hfree | done].
Qed.

Lemma buddy_merge_loop_refs fuel : ∀ order page s page' s',
  buddy_merge_loop fuel order page s = Done (page', s') → same_refs s s'.
Proof.
  induction fuel as [|fuel IH]; intros order page s page' s';
    cbn [buddy_merge_loop]; case_decide; try done;
    try (intros [= <- <-]; apply same_refs_refl).
  intros (p & _ & Hrun)%bind_Done.
  apply bind_Done in Hrun as (buddy & _ & Hrun).
  apply bind_Done in Hrun as (b & _ & Hrun).
  destruct (negb _ || negb _).
  { injection Hrun as <- <-. apply same_refs_refl. }
  apply bind_Done in Hrun as (s1 & H1%set_pp_order_refs & Hrun).
  apply bind_Done in Hrun as (s2 & H2%set_pp_free_refs & Hrun).
  apply bind_Done in Hrun as (s3 & H3%set_pp_order_refs & Hrun).
  apply bind_Done in Hrun as (s4 & H4%set_pp_free_refs & Hrun%IH).
  intros i. rewrite Hrun, H4, H3, H2, H1. done.
Qed.

Lemma buddy_merge_refs page s page' s' :
  buddy_merge page s = Done (page', s') → same_refs s s'.
Proof.
  unfold buddy_merge. intros (p & _ & Hrun)%bind_Done.
  apply bind_Done in Hrun as ([pg s1] & H1%buddy_merge_loop_refs & Hrun).
  apply bind_Done in Hrun as (s2 & H2%set_pp_free_refs & Hrun).
  apply bind_Done in Hrun as (p2 & _ & Hrun).
  apply bind_Done in Hrun as (s3 & H3%list_add_refs & Hrun).
  injection Hrun as <- <-. intros i. by rewrite H3, H2, H1.
Qed.

(** X12.  page_free, when it completes, has changed no reference count
    and not the size of the table: it does not look at the count of the
    page it frees, nor does it reset it. *)
Theorem page_free_keeps_reference_counts pp s s' :
  page_free pp s = Done s' → same_refs s s' ∧ npages s' = npages s.
Proof.
  unfold page_free. intros ([pg s1] & Hm%buddy_merge_refs & [= <-])%bind_Done.
  split; [done | by apply same_refs_npages].
Qed.

(** X13.  page_decref, when it completes, has taken one from the count of
    its page, modulo [2 ^ REF_BITS], and has changed no other count and
    not the size of the table. *)
Theorem page_decref_touches_one_count pp s p s' :
  pages s !! pp = Some p → page_decref pp s = Done s' →
  npages s' = npages s ∧
  pp_ref <$> pages s' !! pp = Some ((pp_ref p - 1) mod 2 ^ REF_BITS)%Z ∧
  ∀ i, i ≠ pp → pp_ref <$> pages s' !! i = pp_ref <$> pages s !! i.
Proof.
  intros Hp Hrun. unfold page_decref in Hrun.
  rewrite (page_get_Some _ _ _ Hp) in Hrun. cbn [mbind outcome_bind] in Hrun.
  unfold set_pp_ref in Hrun. rewrite (page_update_Some _ _ _ _ Hp) in Hrun.
  cbn [mbind outcome_bind] in Hrun.
  set (s1 := set_pages s _) in Hrun.
  assert (Hlt : pp < length (pages s)) by (by eapply lookup_lt_Some).
  assert (Hrefs : same_refs s1 s').
  { case_decide; [|injection Hrun as <-; apply same_refs_refl].
    unfold page_free in Hrun.
    by apply bind_Done in Hrun as ([pg s2] & Hm%buddy_merge_refs & [= <-]). }
  split_and!.
  - rewrite (same_refs_npages _ _ Hrefs). unfold npages. subst s1; cbn.
    by rewrite length_insert.
  - rewrite Hrefs. subst s1; cbn. by rewrite list_lookup_insert_eq.
  - intros i Hi. rewrite Hrefs. subst s1; cbn.
    by rewrite list_lookup_insert_ne.
Qed.

End Release.

Section Reuse.
Context `{Config}.

(** X14.  Released, then allocated again.  Let the free list of the
    order that the flags select be empty; a block of that order that is
    linked nowhere and is released by page_free without a merge is the
    block that the next page_alloc returns.  The free lists are then as
    they were before the release, and the descriptor table differs by one
    field: the block handed out is still marked free. *)
Theorem release_then_alloc_returns_same_page pp s p b alloc_flags m :
  let order :=
    if decide (Z.land alloc_flags ALLOC_HUGE ≠ 0%Z) then BUDDY_2M_PAGE
    else BUDDY_4K_PAGE in
  pages s !! pp = Some p → pp_order p = order → order < BUDDY_MAX_ORDER →
  pages s !! buddy_of pp order = Some b →
  pp_free b = false ∨ pp_order b ≠ order →
  buddy_free_list s !! order = Some [] →
  ¬ linked pp s →
  ∃ s1 s2 m2,
    page_free pp s = Done s1 ∧
    page_alloc alloc_flags s1 m = Done (Some pp, s2, m2) ∧
    buddy_free_list s2 = buddy_free_list s ∧
    pages s2 = <[pp := PageInfo (pp_ref p) order true]> (pages s).
Proof.
  intros order Hp Hpo Ho Hb Hun Hl Hnl.
  assert (Hlen : order < length (buddy_free_list s))
    by (by eapply lookup_lt_Some).
  assert (Hpp : pp < length (pages s)) by (by eapply lookup_lt_Some).
  set (s1 := State (<[pp := PageInfo (pp_ref p) order true]> (pages s))
                   (<[order := [pp]]> (buddy_free_list s))).
  assert (Hfree : page_free pp s = Done s1).
  { unfold page_free.
    rewrite (buddy_merge_unmergeable pp s p b []); rewrite ?Hpo; done. }
  set (s2 := set_lists s1 (<[order := []]> (buddy_free_list s1))).
  assert (Hfind : buddy_find order s1 = Done (Some pp, s2)).
  { rewrite (buddy_find_hit order order s1 pp []); try lia.
    - cbn zeta. by rewrite decide_False by lia.
    - subst s1; cbn. by apply list_lookup_insert_eq. }
  assert (Hlists : buddy_free_list s2 = buddy_free_list s).
  { subst s2 s1; cbn. rewrite list_insert_insert_eq.
    by apply list_insert_id. }
  assert (Hget : pages s2 !! pp = Some (PageInfo (pp_ref p) order true)).
  { subst s2 s1; cbn. by apply list_lookup_insert_eq. }
  assert (Halloc : ∃ m2, page_alloc alloc_flags s1 m = Done (Some pp, s2, m2)).
  { unfold page_alloc. fold order. rewrite Hfind. cbn [mbind outcome_bind].
    destruct (decide (Z.land alloc_flags ALLOC_ZERO ≠ 0%Z)); [|by exists m].
    rewrite (page_get_Some _ _ _ Hget). cbn [mbind outcome_bind]. by eexists. }
  destruct Halloc as [m2 Halloc]. exists s1, s2, m2. split_and!; done.
Qed.

End Reuse.

Section Counting.
Context `{Config}.

Lemma count_total_loop_zero n s :
  n ≤ BUDDY_MAX_ORDER →
  count_total_loop n s = 0 ↔
  ∀ k l, k < n → buddy_free_list s !! k = Some l → l = [].
Proof.
  intros Hn. induction n as [|n IH]; cbn [count_total_loop].
  { split; [intros _ k l Hk; lia | done]. }
  specialize (IH ltac:(lia)).
  pose proof (Nat.pow_nonzero 2 n ltac:(lia)) as Hpow.
  unfold count_free_pages. rewrite decide_False by lia. split.
  - intros Hz k l Hk Hl.
    assert (Hz1 : count_total_loop n s = 0) by lia.
    assert (Hz2 : length (default [] (buddy_free_list s !! n)) = 0) by nia.
    destruct (decide (k = n)) as [->|Hkn].
    + rewrite Hl in Hz2. cbn in Hz2. by destruct l.
    + apply (proj1 IH Hz1 k l); [lia | done].
  - intros Hall.
    rewrite (proj2 IH) by (intros k l Hk; apply Hall; lia).
    destruct (buddy_free_list s !! n) as [l|] eqn:Hl; [|done].
    by rewrite (Hall n l ltac:(lia) Hl).
Qed.

(** X15.  count_total_free_pages returns zero exactly when every list of
    the BUDDY_MAX_ORDER orders is empty. *)
Theorem no_free_page_no_free_block s :
  count_total_free_pages s = 0 ↔
  ∀ k l, k < BUDDY_MAX_ORDER → buddy_free_list s !! k = Some l → l = [].
Proof. by apply count_total_loop_zero. Qed.

Lemma show_buddy_loop_spec n s :
  (show_buddy_loop n s).1 = (λ k, (k, count_free_pages k s)) <$> seq 0 n ∧
  (show_buddy_loop n s).2 = 4096 * count_total_loop n s.
Proof.
  induction n as [|n [IH1 IH2]]; [done|].
  cbn [show_buddy_loop count_total_loop].
  destruct (show_buddy_loop n s) as [lines nfree]. cbn [fst snd] in *.
  split.
  - rewrite seq_S, fmap_app, IH1. done.
  - rewrite IH2, Nat.pow_add_r. change (2 ^ 12) with 4096. lia.
Qed.

(** X16.  show_buddy_info prints one line an order, from 0 to
    BUDDY_MAX_ORDER - 1, with what count_free_pages returns for it; the
    kiB figure of its last line is four times what count_total_free_pages
    returns. *)
Theorem show_buddy_info_totals s :
  (show_buddy_info s).1
    = (λ k, (k, count_free_pages k s)) <$> seq 0 BUDDY_MAX_ORDER ∧
  (show_buddy_info s).2 = 4 * count_total_free_pages s.
Proof.
  unfold show_buddy_info, count_total_free_pages.
  destruct (show_buddy_loop_spec BUDDY_MAX_ORDER s) as [H1 H2].
  destruct (show_buddy_loop BUDDY_MAX_ORDER s) as [lines nfree].
  cbn [fst snd] in *. split; [done|]. rewrite H2.
  replace (4096 * count_total_loop BUDDY_MAX_ORDER s)
    with ((4 * count_total_loop BUDDY_MAX_ORDER s) * 1024) by lia.
  by rewrite Nat.div_mul.
Qed.

End Counting.

Section RoundTrip.
Context `{Config}.

(** A turn of the loop of buddy_merge that stops. *)
Lemma buddy_merge_loop_stop fuel order page s p b :
  order < BUDDY_MAX_ORDER →
  pages s !! page = Some p → pp_order p = order →
  pages s !! buddy_of page order = Some b →
  pp_free b = false ∨ pp_order b ≠ order →
  buddy_merge_loop (S fuel) order page s = Done (page, s).
Proof.
  intros Ho Hp Hpo Hb Hun. cbn [buddy_merge_loop].
  rewrite decide_True by done.
  rewrite (page_get_Some _ _ _ Hp). cbn [mbind outcome_bind]. rewrite Hpo.
  rewrite pa2page_buddy by (by eapply lookup_lt_Some).
  cbn [mbind outcome_bind].
  rewrite (page_get_Some _ _ _ Hb). cbn [mbind outcome_bind].
  destruct Hun as [->|Hne]; [done|].
  rewrite (bool_decide_eq_false_2 _ Hne). by rewrite orb_true_r.
Qed.

(** The loop of buddy_merge climbing from order [j] to order [j + n]
    through the upper halves that a split has left free. *)
Lemma buddy_merge_loop_climb n : ∀ j s fuel lhs r pc,
  j + n < BUDDY_MAX_ORDER → (2 ^ (j + n) | lhs) →
  pages s !! lhs = Some (PageInfo r j false) →
  (∀ i, j ≤ i < j + n → ∃ ri l,
     pages s !! (lhs + 2 ^ i) = Some (PageInfo ri i true) ∧
     buddy_free_list s !! i = Some (lhs + 2 ^ i :: l)) →
  (∀ i l m, buddy_free_list s !! i = Some l → j ≤ m < j + n →
     lhs + 2 ^ m ∈ l → i = m ∧ ∃ l', l = lhs + 2 ^ m :: l' ∧ lhs + 2 ^ m ∉ l') →
  pages s !! buddy_of lhs (j + n) = Some pc →
  pp_free pc = false ∨ pp_order pc ≠ j + n →
  n < fuel →
  ∃ s', buddy_merge_loop fuel j lhs s = Done (lhs, s') ∧
    pages s' !! lhs = Some (PageInfo r (j + n) false) ∧
    (∀ x, x ≠ lhs → (∀ i, j ≤ i < j + n → x ≠ lhs + 2 ^ i) →
       pages s' !! x = pages s !! x) ∧
    (∀ i l, j ≤ i < j + n → buddy_free_list s !! i = Some (lhs + 2 ^ i :: l) →
       buddy_free_list s' !! i = Some l) ∧
    (∀ i, ¬ (j ≤ i < j + n) →
       buddy_free_list s' !! i = buddy_free_list s !! i).
Proof.
  induction n as [|n IH]; intros j s fuel lhs r pc Hmax Hal Hlhs Hup Hclean Hpc Hun Hfuel.
  - destruct fuel as [|fuel]; [lia|]. rewrite Nat.add_0_r in *.
    exists s. rewrite (buddy_merge_loop_stop fuel j lhs s _ pc) by done.
    split_and!; try done. intros i l Hi. lia.
  - destruct fuel as [|fuel]; [lia|].
    destruct (Hup j ltac:(lia)) as (rj & lj & Hbj & Hlj).
    destruct (buddy_of_in_block lhs (j + S n) j Hal ltac:(lia)) as [Hbo _].
    assert (Hbne : lhs + 2 ^ j ≠ lhs)
      by (pose proof (Nat.pow_nonzero 2 j); lia).
    assert (Hlen : lhs < length (pages s)) by (by eapply lookup_lt_Some).
    assert (Hblen : lhs + 2 ^ j < length (pages s)) by (by eapply lookup_lt_Some).
    rewrite (buddy_merge_loop_step fuel j lhs s (PageInfo r j false)
               (PageInfo rj j true)); try done; try lia; [|by rewrite Hbo].
    cbn zeta. rewrite Hbo. rewrite decide_False by lia. cbn [pp_ref].
    set (s1 := State _ _).
    assert (Hpow : ∀ a b, a ≠ b → lhs + 2 ^ a ≠ lhs + 2 ^ b).
    { intros a b Hab E. apply Hab.
      apply (Nat.pow_inj_r 2); lia. }
    assert (Hfilter : ∀ i l, buddy_free_list s !! i = Some l →
      buddy_free_list s1 !! i
      = Some (if decide (i = j) then lj else l)).
    { intros i l Hl. subst s1; cbn. rewrite list_lookup_fmap, Hl. cbn. f_equal.
      case_decide as Hij.
      - subst i. rewrite Hlj in Hl. injection Hl as <-.
        rewrite filter_cons_False by (by intros ?).
        apply filter_ne_absent.
        assert (Hjj : j ≤ j < j + S n) by lia.
        destruct (Hclean j (lhs + 2 ^ j :: lj) j Hlj Hjj ltac:(by left))
          as (_ & l' & [= <-] & Hnot). done.
      - apply filter_ne_absent. intros Hin.
        assert (Hjj : j ≤ j < j + S n) by lia.
        by destruct (Hclean i l j Hl Hjj Hin) as [? _]. }
    destruct (IH (S j) s1 fuel lhs r pc) as (s' & Hrun & Hlhs' & Hoth & Hin & Hout).
    + lia.
    + by replace (S j + n) with (j + S n) by lia.
    + subst s1; cbn. apply list_lookup_insert_eq. by rewrite length_insert.
    + intros i Hi. destruct (Hup i ltac:(lia)) as (ri & l & Hbi & Hli).
      exists ri, l. split.
      * subst s1; cbn.
        rewrite !list_lookup_insert_ne; [done | ..];
          first [ apply Hpow; lia | pose proof (Nat.pow_nonzero 2 i); lia ].
      * rewrite (Hfilter i _ Hli). by rewrite decide_False by lia.
    + intros i l m Hl Hm Hin'.
      destruct (lookup_lt_is_Some_2 (buddy_free_list s) i) as [l0 Hl0].
      { apply lookup_lt_Some in Hl. subst s1; cbn in Hl.
        by rewrite length_fmap in Hl. }
      rewrite (Hfilter i l0 Hl0) in Hl. injection Hl as <-.
      destruct (decide (i = j)) as [->|Hij].
      * rewrite Hlj in Hl0. injection Hl0 as <-.
        assert (Hm' : j ≤ m < j + S n) by lia.
        destruct (Hclean j (lhs + 2 ^ j :: lj) m Hlj Hm'
                    ltac:(by right)) as [-> _]. lia.
      * assert (Hm' : j ≤ m < j + S n) by lia.
        by apply (Hclean i l0 m Hl0 Hm').
    + replace (S j + n) with (j + S n) by lia.
      subst s1; cbn.
      rewrite !list_lookup_insert_ne; [done | ..];
        first [ apply not_eq_sym, buddy_of_ne
              | rewrite <- Hbo; intros E%buddy_of_inj; lia ].
    + by replace (S j + n) with (j + S n) by lia.
    + lia.
    + exists s'. replace (S j + n) with (j + S n) in * by lia.
      split_and!; try done.
      * intros x Hx Hxb. rewrite Hoth; [| done | intros i Hi; apply Hxb; lia].
        subst s1; cbn.
        rewrite !list_lookup_insert_ne; [done | ..];
          first [ by apply not_eq_sym | apply not_eq_sym, Hxb; lia ].
      * intros i l Hi Hl. destruct (decide (i = j)) as [->|Hij].
        -- rewrite Hout by lia. rewrite (Hfilter j _ Hlj).
           rewrite decide_True by done. rewrite Hlj in Hl. by injection Hl as <-.
        -- apply Hin; [lia|]. rewrite (Hfilter i _ Hl).
           by rewrite decide_False by done.
      * intros i Hi. rewrite Hout by lia.
        destruct (buddy_free_list s !! i) as [l|] eqn:Hl.
        -- rewrite (Hfilter i l Hl). by rewrite decide_False by lia.
        -- apply lookup_ge_None in Hl. apply lookup_ge_None.
           subst s1; cbn. by rewrite length_fmap.
Qed.

(** X17.  Split and merge undo each other.  Let the search for order
    [req] find its first block [lhs] at a higher order [k], and let the
    upper halves [lhs + 2 ^ i] that the split is about to link be linked
    nowhere; when the block is released again and its buddy at order [k]
    cannot be merged, every free list is as it was before the allocation,
    [lhs] heads its block of order [k] again and is marked free, no
    descriptor outside the block has changed, and the number of free
    pages is the same. *)
Theorem alloc_release_round_trip req k s lhs rest p pc :
  req < k → k < BUDDY_MAX_ORDER →
  length (buddy_free_list s) = BUDDY_MAX_ORDER →
  (∀ i, req ≤ i < k → buddy_free_list s !! i = Some []) →
  buddy_free_list s !! k = Some (lhs :: rest) →
  pages s !! lhs = Some p → pp_order p = k →
  (2 ^ k | lhs) → lhs + 2 ^ k ≤ npages s →
  (∀ i, req ≤ i < k → ¬ linked (lhs + 2 ^ i) s) →
  pages s !! buddy_of lhs k = Some pc →
  pp_free pc = false ∨ pp_order pc ≠ k →
  ∃ s1 s2,
    buddy_find req s = Done (Some lhs, s1) ∧
    page_free lhs s1 = Done s2 ∧
    buddy_free_list s2 = buddy_free_list s ∧
    pages s2 !! lhs = Some (PageInfo (pp_ref p) k true) ∧
    (∀ x, x ≠ lhs → (∀ i, req ≤ i < k → x ≠ lhs + 2 ^ i) →
       pages s2 !! x = pages s !! x) ∧
    count_total_free_pages s2 = count_total_free_pages s.
Proof.
  intros Hreq Hk Hlen Hempty Hhit Hp Hpo Hal Hin Hinner Hpc Hun.
  set (s0 := set_lists s (<[k := rest]> (buddy_free_list s))).
  assert (Hb : ∀ i, req ≤ i < k → buddy_of lhs i = lhs + 2 ^ i).
  { intros i Hi. by destruct (buddy_of_in_block lhs k i Hal ltac:(lia)). }
  (* the search pops the block and splits it *)
  destruct (buddy_split_spec s0 lhs k req p)
    as (s1 & Hsplit & _ & Hlen1 & Hlhs1 & Hbud1 & Hoth1 & Hli1 & Hlo1);
    try done; try lia.
  { subst s0; cbn. rewrite length_insert. lia. }
  { intros i Hi. rewrite (Hb i Hi).
    destruct (buddy_of_in_block lhs k i Hal ltac:(lia)) as [_ ?].
    unfold npages in *. subst s0; cbn. lia. }
  rewrite decide_False in Hlhs1 by lia.
  assert (Hfind : buddy_find req s = Done (Some lhs, s1)).
  { rewrite (buddy_find_hit req k s lhs rest); try done; try lia.
    cbn zeta. fold s0. rewrite decide_True by lia. by rewrite Hsplit. }
  assert (Hl0 : ∀ i, i ≠ k → buddy_free_list s0 !! i = buddy_free_list s !! i).
  { intros i Hi. subst s0; cbn. by rewrite list_lookup_insert_ne. }
  assert (Hlk : buddy_free_list s0 !! k = Some rest).
  { subst s0; cbn. apply list_lookup_insert_eq. lia. }
  assert (Hl1 : ∀ i, req ≤ i < k → buddy_free_list s1 !! i = Some [lhs + 2 ^ i]).
  { intros i Hi. rewrite <- (Hb i Hi). apply Hli1; [done|].
    rewrite Hl0 by lia. by apply Hempty. }
  (* the release climbs back to order k *)
  destruct (buddy_merge_loop_climb (k - req) req s1 BUDDY_MAX_ORDER lhs (pp_ref p) pc)
    as (s' & Hloop & Hlhs' & Hoth' & Hli' & Hlo');
    replace (req + (k - req)) with k by lia; try done; try lia.
  { intros i Hi. destruct (Hbud1 i Hi) as (q & _ & Hq).
    exists (pp_ref q), []. rewrite <- (Hb i Hi). split; [done|].
    rewrite (Hb i Hi). by apply Hl1. }
  { intros i l m Hl Hm Hmem.
    destruct (decide (req ≤ i < k)) as [Hi|Hi].
    - rewrite (Hl1 i Hi) in Hl. injection Hl as <-.
      apply list_elem_of_singleton in Hmem.
      assert (m = i) as -> by (apply (Nat.pow_inj_r 2); lia).
      split; [done|]. exists []. split; [done | by intros ?%elem_of_nil].
    - rewrite (Hlo1 i Hi) in Hl. destruct (Hinner m Hm).
      destruct (decide (i = k)) as [->|Hik].
      + rewrite Hlk in Hl. injection Hl as <-.
        exists k, (lhs :: rest). split; [done | by right].
      + rewrite Hl0 in Hl by done. by exists i, l. }
  { rewrite Hoth1; [done | apply buddy_of_ne |].
    intros i Hi E%buddy_of_inj. lia. }
  replace (req + (k - req)) with k in * by lia.
  assert (Hk' : buddy_free_list s' !! k = Some rest).
  { rewrite Hlo' by lia. rewrite Hlo1 by lia. done. }
  set (pgs := <[lhs := PageInfo (pp_ref p) k true]> (pages s')).
  exists s1, (State pgs (<[k := lhs :: rest]> (buddy_free_list s'))).
  assert (Hlists : <[k := lhs :: rest]> (buddy_free_list s') = buddy_free_list s).
  { apply list_eq. intros i. destruct (decide (i = k)) as [->|Hik].
    - rewrite Hhit. apply list_lookup_insert_eq. by eapply lookup_lt_Some.
    - rewrite list_lookup_insert_ne by done.
      destruct (decide (req ≤ i < k)) as [Hi|Hi].
      + rewrite (Hli' i [] Hi (Hl1 i Hi)). symmetry. by apply Hempty.
      + rewrite Hlo' by lia. rewrite Hlo1 by lia. by apply Hl0. }
  split_and!.
  - done.
  - unfold page_free.
    rewrite (buddy_merge_finish lhs lhs s1 s' (PageInfo (pp_ref p) req false)
               (PageInfo (pp_ref p) k false)); try done.
    cbn [pp_ref pp_order]. fold pgs.
    erewrite list_add_Some by (cbn; exact Hk'). done.
  - done.
  - cbn. subst pgs. apply list_lookup_insert_eq. by eapply lookup_lt_Some.
  - intros x Hx Hxb. cbn. subst pgs. rewrite list_lookup_insert_ne by done.
    rewrite Hoth' by done. rewrite Hoth1; [done | done |].
    intros i Hi. rewrite (Hb i Hi). by apply Hxb.
  - apply count_total_lists. done.
Qed.

End RoundTrip.

(** * Properties of the boot-time code (kernel/mem/boot.c) *)

Section Rounding.
Context `{Config}.
Local Open Scope Z_scope.

Lemma page_pos : 0 < Z.of_N PAGE_SIZE.
Proof.
  rewrite PAGE_SIZE_pow2, N2Z.inj_pow. apply Z.pow_pos_nonneg; lia.
Qed.

Lemma page_divides_2_64 :
  (PAGE_SHIFT ≤ 64)%N → (Z.of_N PAGE_SIZE | 2 ^ 64).
Proof.
  intros Hs. rewrite PAGE_SIZE_pow2, N2Z.inj_pow.
  exists (2 ^ (64 - Z.of_N PAGE_SHIFT)).
  rewrite <- Z.pow_add_r by lia. f_equal. lia.
Qed.

Lemma ROUNDDOWN_spec a n :
  0 < n → (n | ROUNDDOWN a n) ∧ ROUNDDOWN a n ≤ a < ROUNDDOWN a n + n.
Proof.
  intros Hn. unfold ROUNDDOWN. pose proof (Z.mod_pos_bound a n Hn).
  split; [|lia]. exists (a / n). pose proof (Z.div_mod a n). lia.
Qed.

Lemma ROUNDUP_multiple a n : 0 < n → (n | ROUNDUP a n).
Proof. intros Hn. by apply ROUNDDOWN_spec. Qed.

Lemma ROUNDUP_spec a n :
  0 < n → 0 ≤ a → a + n ≤ 2 ^ 64 →
  (n | ROUNDUP a n) ∧ a ≤ ROUNDUP a n < a + n.
Proof.
  intros Hn Ha Hfit. unfold ROUNDUP, wrap64.
  rewrite Z.mod_small by lia.
  destruct (ROUNDDOWN_spec (a + n - 1) n Hn) as [Hd Hb]. split; [done | lia].
Qed.

Lemma multiple_in_window n a r :
  0 < n → (n | a) → (n | r) → a ≤ r < a + n → r = a.
Proof. intros Hn [x ->] [y ->] Hb. f_equal. nia. Qed.

Lemma ROUNDDOWN_unique a n r :
  0 < n → (n | r) → r ≤ a < r + n → ROUNDDOWN a n = r.
Proof.
  intros Hn [y ->] Hb. destruct (ROUNDDOWN_spec a n Hn) as [[x Hx] Hxb].
  rewrite Hx in *. f_equal.
  assert (H1 : x * n < (y + 1) * n) by lia.
  assert (H2 : y * n < (x + 1) * n) by lia.
  apply Z.mul_lt_mono_pos_r in H1, H2; lia.
Qed.

Lemma ROUNDDOWN_aligned a n : 0 < n → (n | a) → ROUNDDOWN a n = a.
Proof.
  intros Hn Ha. destruct (ROUNDDOWN_spec a n Hn) as [Hd Hb].
  destruct Ha as [x ->], Hd as [y Hy]. rewrite Hy in *. f_equal. nia.
Qed.

Lemma aligned_top n a :
  0 < n → (n | 2 ^ 64) → (n | a) → a < 2 ^ 64 → a + n ≤ 2 ^ 64.
Proof.
  intros Hn [m Hm] [x ->] Ha. rewrite Hm in *.
  apply Z.mul_lt_mono_pos_r in Ha; [|done].
  replace (x * n + n) with ((x + 1) * n) by lia.
  apply Z.mul_le_mono_nonneg_r; lia.
Qed.

Lemma ROUNDUP_aligned a n :
  0 < n → (n | 2 ^ 64) → (n | a) → 0 ≤ a < 2 ^ 64 → ROUNDUP a n = a.
Proof.
  intros Hn Hm Ha Hr.
  destruct (ROUNDUP_spec a n Hn) as [Hd Hb]; [lia | by apply aligned_top; try lia |].
  by apply (multiple_in_window n).
Qed.

Lemma wrap64_range a : 0 ≤ wrap64 a < 2 ^ 64.
Proof. unfold wrap64. apply Z.mod_pos_bound. lia. Qed.

Lemma wrap64_small a : 0 ≤ a < 2 ^ 64 → wrap64 a = a.
Proof. unfold wrap64. apply Z.mod_small. Qed.

Lemma wrap64_aligned n a : (n | 2 ^ 64) → (n | a) → (n | wrap64 a).
Proof.
  intros Hm Ha. unfold wrap64. rewrite Z.mod_eq by lia.
  apply Z.divide_sub_r; [done|]. by apply Z.divide_mul_l.
Qed.

End Rounding.

Section Boot.
Context `{Config}.
Local Open Scope Z_scope.
Local Abbreviation PS := (Z.of_N PAGE_SIZE).

(** X18.  boot_alloc keeps [next_free] page aligned: from an aligned
    value of the variable (NULL at the first call) the address returned
    and the value left in [next_free] are both multiples of PAGE_SIZE,
    for every [n]. *)
Theorem boot_alloc_aligned kernel_end n next_free :
  (PS | next_free) →
  (PS | (boot_alloc kernel_end n next_free).1) ∧
  (PS | (boot_alloc kernel_end n next_free).2).
Proof.
  intros Hnf. pose proof page_pos as Hp. unfold boot_alloc. cbn [fst snd].
  split; repeat case_decide; try done; by apply ROUNDUP_multiple.
Qed.

(** X19.  Two calls of boot_alloc in a row, the first for [n1 > 0]
    bytes: the first chunk starts at [next_free], or at the first page
    boundary at or after the end of the kernel when [next_free] is still
    NULL; the second chunk starts at the first page boundary at or after
    the end of the first one, so the chunks do not overlap and less than
    a page lies between them.  The addresses are supposed not to wrap
    around. *)
Theorem boot_alloc_chunks_apart kernel_end n1 n2 next_free :
  let start :=
    if decide (next_free = 0) then ROUNDUP kernel_end PS else next_free in
  0 ≤ kernel_end → kernel_end + PS ≤ 2 ^ 64 →
  0 ≤ next_free → (PS | next_free) →
  0 < n1 → start + n1 + PS ≤ 2 ^ 64 →
  let '(r1, nf1) := boot_alloc kernel_end n1 next_free in
  let '(r2, nf2) := boot_alloc kernel_end n2 nf1 in
  r1 = start ∧ (next_free = 0 → kernel_end ≤ r1) ∧
  r1 + n1 ≤ r2 < r1 + n1 + PS ∧ (PS | r2).
Proof.
  intros start Hend Hendfit Hnf Hal Hn1 Hfit. pose proof page_pos as Hp.
  unfold boot_alloc. fold start.
  rewrite (decide_True (P := n1 ≠ 0)) by lia.
  assert (Hstart : 0 ≤ start).
  { subst start. case_decide; [|done].
    destruct (ROUNDUP_spec kernel_end PS) as [_ ?]; lia. }
  destruct (ROUNDUP_spec (wrap64 (start + n1)) PS) as [Hd Hb];
    rewrite ?wrap64_small by lia; try lia.
  rewrite wrap64_small in Hd, Hb by lia.
  rewrite (decide_False (P := ROUNDUP (start + n1) PS = 0)) by lia.
  split_and!; try done; try lia.
  intros ->. subst start. rewrite decide_True by done.
  destruct (ROUNDUP_spec kernel_end PS) as [_ ?]; lia.
Qed.

(** X20.  boot_alloc(0) allocates nothing: it returns the address that
    the next call will return, and a call made after it behaves as if it
    had not been there. *)
Theorem boot_alloc_peek kernel_end n next_free :
  let '(r0, nf0) := boot_alloc kernel_end 0 next_free in
  boot_alloc kernel_end n nf0 = boot_alloc kernel_end n next_free ∧
  r0 = (boot_alloc kernel_end n next_free).1.
Proof.
  unfold boot_alloc. cbn [fst].
  rewrite (decide_False (P := 0 ≠ 0)) by lia.
  split; [|done].
  destruct (decide (next_free = 0)) as [->|Hnf]; [|by rewrite decide_False].
  destruct (decide (ROUNDUP kernel_end PS = 0)) as [E|E]; [by rewrite E|done].
Qed.

End Boot.

Section Align.
Context `{Config}.
Local Open Scope Z_scope.
Local Abbreviation PS := (Z.of_N PAGE_SIZE).

Lemma ROUNDDOWN_range a n :
  0 < n → 0 ≤ a < 2 ^ 64 → 0 ≤ ROUNDDOWN a n < 2 ^ 64.
Proof.
  intros Hn Ha. unfold ROUNDDOWN.
  pose proof (Z.mod_pos_bound a n Hn). pose proof (Z.mod_le a n). lia.
Qed.

Lemma ROUNDUP_range a n : 0 < n → 0 ≤ ROUNDUP a n < 2 ^ 64.
Proof. intros Hn. apply ROUNDDOWN_range; [done | apply wrap64_range]. Qed.

Lemma align_entry_aligned entry :
  (PAGE_SHIFT ≤ 64)%N → entry_in_range entry →
  entry_aligned (align_entry entry) ∧ entry_in_range (align_entry entry) ∧
  entry_type (align_entry entry) = entry_type entry.
Proof.
  intros Hs [Ha Hl]. pose proof page_pos as Hp.
  pose proof (page_divides_2_64 Hs) as Hm.
  unfold entry_aligned, entry_in_range, align_entry.
  destruct entry as [addr len ty]. cbn [entry_addr entry_len entry_type] in *.
  assert (Hty : ty = MMAP_FREE ∨ ty ≠ MMAP_FREE)
    by (destruct ty; auto).
  destruct Hty as [->|Hty].
  - cbn [entry_addr entry_len entry_type]. split; [split|split; [split|]].
    + by apply ROUNDUP_multiple.
    + apply wrap64_aligned; [done|]. apply Z.divide_sub_r.
      * by apply ROUNDDOWN_spec.
      * by apply ROUNDUP_multiple.
    + by apply ROUNDUP_range.
    + apply wrap64_range.
    + done.
  - assert (Hnf : ∀ A (x y : A), match ty with MMAP_FREE => x | _ => y end = y)
      by (intros; by destruct ty).
    rewrite Hnf. cbn [entry_addr entry_len entry_type].
    split; [split|split; [split|]].
    + by apply ROUNDDOWN_spec.
    + apply wrap64_aligned; [done|]. apply Z.divide_sub_r.
      * by apply ROUNDUP_multiple.
      * by apply ROUNDDOWN_spec.
    + by apply ROUNDDOWN_range.
    + apply wrap64_range.
    + done.
Qed.

Lemma wrap64_sub_l a b : wrap64 (wrap64 a - b) = wrap64 (a - b).
Proof. unfold wrap64. by rewrite Zminus_mod_idemp_l. Qed.

Lemma wrap64_add_r a b : wrap64 (a + wrap64 b) = wrap64 (a + b).
Proof. unfold wrap64. by rewrite Zplus_mod_idemp_r. Qed.

Lemma wrap64_sub_r a b : wrap64 (a - wrap64 b) = wrap64 (a - b).
Proof. unfold wrap64. by rewrite Zminus_mod_idemp_r. Qed.

(** An entry whose fields are aligned already is left as it is. *)
Lemma align_entry_fixed entry :
  (PAGE_SHIFT ≤ 64)%N → entry_in_range entry → entry_aligned entry →
  align_entry entry = entry.
Proof.
  intros Hs [Ha Hl] [Haa Hal]. pose proof page_pos as Hp.
  pose proof (page_divides_2_64 Hs) as Hm.
  destruct entry as [addr len ty]. cbn [entry_addr entry_len entry_type] in *.
  assert (Hsum : (PS | wrap64 (addr + len))).
  { apply wrap64_aligned; [done|]. by apply Z.divide_add_r. }
  assert (Hlen : wrap64 (wrap64 (addr + len) - addr) = len).
  { rewrite wrap64_sub_l. replace (addr + len - addr) with len by lia.
    by apply wrap64_small. }
  assert (Hty : ty = MMAP_FREE ∨ ty ≠ MMAP_FREE)
    by (destruct ty; auto).
  unfold align_entry. cbn [entry_addr entry_len entry_type].
  destruct Hty as [->|Hty].
  - rewrite (ROUNDUP_aligned addr PS) by done.
    rewrite Z.sub_diag, (wrap64_small 0), Z.sub_0_r, wrap64_add_r by lia.
    rewrite (ROUNDDOWN_aligned _ PS) by done.
    by rewrite Hlen.
  - assert (Hnf : ∀ A (x y : A), match ty with MMAP_FREE => x | _ => y end = y)
      by (intros; by destruct ty).
    rewrite Hnf. rewrite (ROUNDDOWN_aligned addr PS) by done.
    rewrite Z.sub_diag, (wrap64_small 0), Z.add_0_r, wrap64_add_r by lia.
    rewrite (ROUNDUP_aligned _ PS) by (done || apply wrap64_range).
    by rewrite Hlen.
Qed.

(** X21.  After align_boot_info every entry has an address and a length
    that are multiples of PAGE_SIZE and fit 64 bits; the type of no entry
    has changed; and a second run changes nothing. *)
Theorem align_boot_info_idempotent mmap :
  (PAGE_SHIFT ≤ 64)%N → Forall entry_in_range mmap →
  Forall entry_aligned (align_boot_info mmap) ∧
  Forall entry_in_range (align_boot_info mmap) ∧
  entry_type <$> align_boot_info mmap = entry_type <$> mmap ∧
  align_boot_info (align_boot_info mmap) = align_boot_info mmap.
Proof.
  intros Hs Hall. unfold align_boot_info.
  induction Hall as [|entry mmap Hr Hall (IH1 & IH2 & IH3 & IH4)];
    [by repeat constructor|].
  destruct (align_entry_aligned entry Hs Hr) as (Ha' & Hr' & Hty).
  rewrite !fmap_cons. split_and!.
  - by constructor.
  - by constructor.
  - by rewrite Hty, IH3.
  - by rewrite IH4, align_entry_fixed.
Qed.

(** The bounds of a region that is not free, once aligned. *)
Lemma align_entry_reserved_bounds entry :
  entry_type entry ≠ MMAP_FREE →
  0 ≤ entry_addr entry → 0 ≤ entry_len entry →
  entry_addr entry + entry_len entry + PS ≤ 2 ^ 64 →
  let aligned := align_entry entry in
  entry_aligned aligned ∧
  entry_addr aligned ≤ entry_addr entry < entry_addr aligned + PS ∧
  entry_addr entry + entry_len entry
    ≤ entry_addr aligned + entry_len aligned
    < entry_addr entry + entry_len entry + PS.
Proof.
  intros Hty Ha Hl Hfit. pose proof page_pos as Hp.
  destruct entry as [addr len ty]. cbn [entry_addr entry_len entry_type] in *.
  assert (Hnf : ∀ A (x y : A), match ty with MMAP_FREE => x | _ => y end = y)
    by (intros; by destruct ty).
  unfold entry_aligned, align_entry. cbn [entry_addr entry_len entry_type].
  rewrite Hnf. cbn [entry_addr entry_len entry_type].
  destruct (ROUNDDOWN_spec addr PS Hp) as [Hbd Hbb].
  set (base := ROUNDDOWN addr PS) in *.
  assert (Hb0 : 0 ≤ base).
  { subst base. unfold ROUNDDOWN. pose proof (Z.mod_le addr PS).
    pose proof (Z.mod_pos_bound addr PS Hp). lia. }
  rewrite (wrap64_small (addr - base)) by lia.
  rewrite (wrap64_small (len + (addr - base))) by lia.
  replace (base + (len + (addr - base))) with (addr + len) by lia.
  rewrite (wrap64_small (addr + len)) by lia.
  destruct (ROUNDUP_spec (addr + len) PS Hp) as [Hed Heb]; [lia | lia |].
  set (end_ := ROUNDUP (addr + len) PS) in *.
  rewrite (wrap64_small (end_ - base)) by lia.
  split_and!; try done; try lia.
  by apply Z.divide_sub_r.
Qed.

(** The bounds of a free region, once aligned. *)
Lemma align_entry_free_bounds entry :
  entry_type entry = MMAP_FREE →
  0 ≤ entry_addr entry → 0 ≤ entry_len entry →
  entry_addr entry + PS ≤ 2 ^ 64 →
  entry_addr entry + entry_len entry < 2 ^ 64 →
  ROUNDUP (entry_addr entry) PS ≤ entry_addr entry + entry_len entry →
  let aligned := align_entry entry in
  entry_aligned aligned ∧ 0 ≤ entry_len aligned ∧
  entry_addr entry ≤ entry_addr aligned < entry_addr entry + PS ∧
  entry_addr aligned + entry_len aligned
    ≤ entry_addr entry + entry_len entry
    < entry_addr aligned + entry_len aligned + PS.
Proof.
  intros Hty Ha Hl Hfit Hend Hroom. pose proof page_pos as Hp.
  destruct entry as [addr len ty]. cbn [entry_addr entry_len entry_type] in *.
  subst ty. unfold entry_aligned, align_entry.
  cbn [entry_addr entry_len entry_type].
  destruct (ROUNDUP_spec addr PS Hp Ha Hfit) as [Hbd Hbb].
  set (base := ROUNDUP addr PS) in *.
  rewrite (wrap64_small (base - addr)) by lia.
  rewrite (wrap64_small (len - (base - addr))) by lia.
  replace (base + (len - (base - addr))) with (addr + len) by lia.
  rewrite (wrap64_small (addr + len)) by lia.
  destruct (ROUNDDOWN_spec (addr + len) PS Hp) as [Hed Heb].
  set (end_ := ROUNDDOWN (addr + len) PS) in *.
  assert (Hbe : base ≤ end_).
  { destruct Hbd as [x Hx], Hed as [y Hy].
    assert (Hxy : x * PS < (y + 1) * PS) by lia.
    apply Z.mul_lt_mono_pos_r in Hxy; [|done].
    rewrite Hx, Hy. apply Z.mul_le_mono_nonneg_r; lia. }
  rewrite (wrap64_small (end_ - base)) by lia.
  split_and!; try done; try lia.
  by apply Z.divide_sub_r.
Qed.

(** X22.  A region that is not free grows to page boundaries: the
    aligned region starts at most a page (less one byte) before the old
    start, ends at most a page (less one byte) after the old end, and
    covers the old region.  The end of the region is supposed to lie a
    page below [2 ^ 64]. *)
Theorem align_reserved_covers entry :
  entry_type entry ≠ MMAP_FREE →
  0 ≤ entry_addr entry → 0 ≤ entry_len entry →
  entry_addr entry + entry_len entry + PS ≤ 2 ^ 64 →
  let aligned := align_entry entry in
  entry_aligned aligned ∧
  entry_addr aligned ≤ entry_addr entry < entry_addr aligned + PS ∧
  entry_addr entry + entry_len entry
    ≤ entry_addr aligned + entry_len aligned
    < entry_addr entry + entry_len entry + PS.
Proof. apply align_entry_reserved_bounds. Qed.

(** X23.  A free region that reaches the first page boundary at or after
    its start shrinks to page boundaries: the aligned region lies inside
    the old one and less than a page is lost at either end. *)
Theorem align_free_within entry :
  entry_type entry = MMAP_FREE →
  0 ≤ entry_addr entry → 0 ≤ entry_len entry →
  entry_addr entry + PS ≤ 2 ^ 64 →
  entry_addr entry + entry_len entry < 2 ^ 64 →
  ROUNDUP (entry_addr entry) PS ≤ entry_addr entry + entry_len entry →
  let aligned := align_entry entry in
  entry_aligned aligned ∧ 0 ≤ entry_len aligned ∧
  entry_addr entry ≤ entry_addr aligned < entry_addr entry + PS ∧
  entry_addr aligned + entry_len aligned
    ≤ entry_addr entry + entry_len entry
    < entry_addr aligned + entry_len aligned + PS.
Proof. apply align_entry_free_bounds. Qed.

(** X24.  A free region that starts off a page boundary and ends before
    the next one holds no whole page; align_boot_info does not give it
    length 0: the end is rounded down to the boundary below the start,
    the base up to the boundary above, and the unsigned difference
    [end - base] wraps to [2 ^ 64 - PAGE_SIZE]. *)
Theorem align_free_sliver_wraps entry :
  entry_type entry = MMAP_FREE →
  0 ≤ entry_addr entry → 0 ≤ entry_len entry →
  entry_addr entry + PS ≤ 2 ^ 64 →
  0 < entry_addr entry mod PS →
  entry_addr entry mod PS + entry_len entry < PS →
  align_entry entry =
    MmapEntry (entry_addr entry - entry_addr entry mod PS + PS)
              (2 ^ 64 - PS) MMAP_FREE.
Proof.
  intros Hty Ha Hl Hfit Hoff Hsmall. pose proof page_pos as Hp.
  destruct entry as [addr len ty]. cbn [entry_addr entry_len entry_type] in *.
  subst ty. unfold align_entry. cbn [entry_addr entry_len entry_type].
  pose proof (Z.mod_pos_bound addr PS Hp) as Hmod.
  assert (Hdown : (PS | addr - addr mod PS))
    by apply (ROUNDDOWN_spec addr PS Hp).
  assert (Hbase : ROUNDUP addr PS = addr - addr mod PS + PS).
  { unfold ROUNDUP. rewrite wrap64_small by lia.
    apply ROUNDDOWN_unique; [done | | lia].
    apply Z.divide_add_r; [done | apply Z.divide_refl]. }
  rewrite Hbase.
  set (off := addr mod PS) in *.
  rewrite (wrap64_small (addr - off + PS - addr)) by lia.
  rewrite wrap64_add_r.
  replace (addr - off + PS + (len - (addr - off + PS - addr)))
    with (addr + len) by lia.
  rewrite (wrap64_small (addr + len)) by lia.
  assert (Hend : ROUNDDOWN (addr + len) PS = addr - off).
  { apply ROUNDDOWN_unique; [done | done | lia]. }
  rewrite Hend. f_equal.
  replace (addr - off - (addr - off + PS)) with (- PS) by lia.
  unfold wrap64. symmetry. apply Z.mod_unique with (q := -1); lia.
Qed.

Lemma multiple_lt_le n a b :
  0 < n → (n | a) → (n | b) → a < b + n → a ≤ b.
Proof.
  intros Hn [x ->] [y ->] Hlt.
  assert (Hxy : x * n < (y + 1) * n) by lia.
  apply Z.mul_lt_mono_pos_r in Hxy; [|done].
  apply Z.mul_le_mono_nonneg_r; lia.
Qed.

(** X25.  No page ends up both free and reserved: when a free region
    (one that reaches a page boundary) and a region of another type do
    not overlap in the map of the boot loader, they do not overlap after
    align_boot_info either, whichever comes first, although the one has
    been shrunk and the other widened. *)
Theorem aligned_regions_stay_apart free other :
  entry_type free = MMAP_FREE → entry_type other ≠ MMAP_FREE →
  0 ≤ entry_addr free → 0 ≤ entry_len free →
  entry_addr free + PS ≤ 2 ^ 64 →
  entry_addr free + entry_len free < 2 ^ 64 →
  ROUNDUP (entry_addr free) PS ≤ entry_addr free + entry_len free →
  0 ≤ entry_addr other → 0 ≤ entry_len other →
  entry_addr other + entry_len other + PS ≤ 2 ^ 64 →
  (entry_addr free + entry_len free ≤ entry_addr other →
   entry_addr (align_entry free) + entry_len (align_entry free)
   ≤ entry_addr (align_entry other)) ∧
  (entry_addr other + entry_len other ≤ entry_addr free →
   entry_addr (align_entry other) + entry_len (align_entry other)
   ≤ entry_addr (align_entry free)).
Proof.
  intros Hf Ho Hfa Hfl Hffit Hfend Hroom Hoa Hol Hofit.
  pose proof page_pos as Hp.
  destruct (align_entry_free_bounds free Hf Hfa Hfl Hffit Hfend Hroom)
    as ([Hfd1 Hfd2] & _ & Hfb & Hfe).
  destruct (align_entry_reserved_bounds other Ho Hoa Hol Hofit)
    as ([Hod1 Hod2] & Hob & Hoe).
  split; intros Hsep; apply (multiple_lt_le PS); try done; try lia.
  - by apply Z.divide_add_r.
  - by apply Z.divide_add_r.
Qed.

End Align.

(** ** The further properties at work on the example states *)

Section AllocatorExamples.
#[local] Existing Instance lab.

Lemma one_block_of_8_exact : free_list_exact one_block_of_8.
Proof.
  split.
  - reflexivity.
  - intros k l i Hl Hi. cbn in Hl.
    do 10 (destruct k as [|k];
           [ injection Hl as <-;
             repeat (apply elem_of_cons in Hi as [->|Hi]; [eauto|]);
             by apply elem_of_nil in Hi
           | cbn in Hl ]).
    discriminate Hl.
  - cbn. apply NoDup_singleton.
  - intros i p Hp Hfree. destruct i as [|i].
    { exists 3, [0]. split; [reflexivity | by left]. }
    do 15 (destruct i as [|i];
           [cbn in Hp; injection Hp as <-; discriminate Hfree|]).
    discriminate Hp.
Qed.

(** The pages that the block of [one_block_of_8] covers are not marked
    free. *)
Lemma one_block_of_8_inner p i q :
  pages one_block_of_8 !! 0 = Some p → 0 ≤ i < pp_order p →
  pages one_block_of_8 !! buddy_of 0 i = Some q → pp_free q = false.
Proof.
  intros [= <-] Hi Hq. cbn in Hi.
  destruct i as [|[|[|i]]]; [| | |lia];
    vm_compute in Hq; by injection Hq as <-.
Qed.

Lemma page_alloc_out_of_memory_faults_witness :
  buddy_find 0 all_used = Fault (FreeListOutOfRange 10) ∧
  page_alloc 0 all_used blank = Fault (FreeListOutOfRange 10).
Proof.
  refine (page_alloc_out_of_memory_faults 0 all_used blank _ _ _).
  - vm_compute. lia.
  - reflexivity.
  - intros i Hi. apply lookup_replicate_2. vm_compute in Hi. lia.
Defined.

Lemma page_alloc_exact_hit_breaks_exactness_witness :
  ∃ s' m', page_alloc 0 one_page_free blank = Done (Some 0, s', m') ∧
    pages s' = pages one_page_free ∧
    (∃ p, pages s' !! 0 = Some p ∧ pp_free p = true).
Proof.
  destruct (page_alloc_exact_hit_breaks_exactness 0 one_page_free blank 0 []
              one_page_free_exact eq_refl)
    as (s' & m' & Hrun & Hpages & Hfree & _).
  exists s', m'. split_and!; [exact Hrun | exact Hpages | exact Hfree].
Defined.

Lemma page_alloc_split_keeps_exactness_witness :
  page_alloc 0 one_block_of_8 blank = Done (Some 0, block_of_8_split, blank) ∧
  free_list_exact block_of_8_split ∧
  count_total_free_pages block_of_8_split + 2 ^ 0
  = count_total_free_pages one_block_of_8.
Proof.
  assert (Hrun : page_alloc 0 one_block_of_8 blank
                 = Done (Some 0, block_of_8_split, blank)) by reflexivity.
  split; [exact Hrun|].
  destruct (page_alloc_split_keeps_exactness 0 one_block_of_8 blank 0
              block_of_8_split blank
              one_block_of_8_exact eq_refl one_block_of_8_inner Hrun)
    as (Hex & _ & _ & Hcount).
  split; [exact Hex | exact Hcount].
Defined.

Lemma page_free_keeps_exactness_witness :
  page_free 2 one_pair = Done pair_and_held_page ∧
  free_list_exact pair_and_held_page ∧
  count_total_free_pages pair_and_held_page
  = count_total_free_pages one_pair + 2 ^ 0.
Proof.
  assert (Hrun : page_free 2 one_pair = Done pair_and_held_page)
    by reflexivity.
  split; [exact Hrun|].
  exact (page_free_keeps_exactness 2 one_pair (used 0) pair_and_held_page
           one_pair_exact eq_refl eq_refl Hrun).
Defined.

Lemma page_decref_keeps_exactness_witness :
  page_decref 2 one_pair = Done pair_and_page ∧
  free_list_exact pair_and_page ∧
  count_total_free_pages pair_and_page = count_total_free_pages one_pair + 1.
Proof.
  assert (Hrun : page_decref 2 one_pair = Done pair_and_page) by reflexivity.
  split; [exact Hrun|].
  exact (page_decref_keeps_exactness 2 one_pair (used 0) pair_and_page
           one_pair_exact eq_refl eq_refl Hrun).
Defined.

Lemma alloc_then_free_conserves_count_witness :
  page_alloc 0 one_block_of_8 blank = Done (Some 0, block_of_8_split, blank) ∧
  page_free 0 block_of_8_split = Done block_of_8_rejoined ∧
  free_list_exact block_of_8_rejoined ∧
  count_total_free_pages block_of_8_rejoined
  = count_total_free_pages one_block_of_8.
Proof.
  assert (Halloc : page_alloc 0 one_block_of_8 blank
                   = Done (Some 0, block_of_8_split, blank)) by reflexivity.
  assert (Hfree : page_free 0 block_of_8_split = Done block_of_8_rejoined)
    by reflexivity.
  split; [exact Halloc|]. split; [exact Hfree|].
  exact (alloc_then_free_conserves_count 0 one_block_of_8 blank 0
           block_of_8_split blank block_of_8_rejoined
           one_block_of_8_exact eq_refl one_block_of_8_inner Halloc Hfree).
Defined.

Lemma page_free_top_order_faults_witness :
  page_free 0 two_top_blocks = Fault (FreeListOutOfRange 10).
Proof.
  refine (page_free_top_order_faults 0 two_top_blocks (released 9) (avail 9)
            _ _ _ _ _ _).
  - reflexivity.
  - reflexivity.
  - reflexivity.
  - vm_compute. reflexivity.
  - reflexivity.
  - reflexivity.
Defined.

Lemma true_buddies_merge_on_release_witness :
  ∃ s' l',
    page_free 0 pair_in_use ≫= page_free 1 = Done s' ∧
    pages s' = pages one_pair ∧
    buddy_free_list s' = <[1 := l']> no_free_block ∧
    l' ≡ₚ [0].
Proof.
  refine (true_buddies_merge_on_release 0 pair_in_use
            (released 0) (released 0) (used 0) [] []
            _ _ _ _ _ _ _ _ _ _ _ _ _).
  - cbn. lia.
  - exists 0. reflexivity.
  - reflexivity.
  - reflexivity.
  - reflexivity.
  - reflexivity.
  - reflexivity.
  - apply not_linked_Forall. cbn. repeat constructor.
  - apply not_linked_Forall. cbn. repeat constructor.
  - reflexivity.
  - left. reflexivity.
  - reflexivity.
  - reflexivity.
Defined.

Lemma strangers_stay_apart_on_release_witness :
  buddy_of 1 0 ≠ 2 ∧
  ∃ s' l',
    page_free 1 all_used ≫= page_free 2 = Done s' ∧
    pages s' = [used 0; PageInfo 1 0 true; PageInfo 1 0 true; used 0] ∧
    buddy_free_list s' = <[0 := l']> no_free_block ∧
    l' ≡ₚ [1; 2].
Proof.
  refine (strangers_stay_apart_on_release 1 all_used
            (used 0) (used 0) (used 0) (used 0) []
            _ _ _ _ _ _ _ _ _ _ _ _ _).
  - cbn. lia.
  - intros [k Hk]. lia.
  - reflexivity.
  - reflexivity.
  - reflexivity.
  - reflexivity.
  - apply not_linked_Forall. cbn. repeat constructor.
  - apply not_linked_Forall. cbn. repeat constructor.
  - reflexivity.
  - left. reflexivity.
  - reflexivity.
  - left. reflexivity.
  - reflexivity.
Defined.

Lemma page_free_keeps_reference_counts_witness :
  page_free 2 one_pair = Done pair_and_held_page ∧
  same_refs one_pair pair_and_held_page ∧
  npages pair_and_held_page = npages one_pair.
Proof.
  assert (Hrun : page_free 2 one_pair = Done pair_and_held_page)
    by reflexivity.
  split; [exact Hrun|].
  exact (page_free_keeps_reference_counts 2 one_pair pair_and_held_page Hrun).
Defined.

Lemma page_decref_touches_one_count_witness :
  page_decref 2 one_pair = Done pair_and_page ∧
  npages pair_and_page = npages one_pair ∧
  pp_ref <$> pages pair_and_page !! 2 = Some 0%Z ∧
  ∀ i, i ≠ 2 →
    pp_ref <$> pages pair_and_page !! i = pp_ref <$> pages one_pair !! i.
Proof.
  assert (Hrun : page_decref 2 one_pair = Done pair_and_page) by reflexivity.
  split; [exact Hrun|].
  exact (page_decref_touches_one_count 2 one_pair (used 0) pair_and_page
           eq_refl Hrun).
Defined.

Lemma alloc_release_round_trip_witness :
  buddy_find 0 one_block_of_8 = Done (Some 0, block_of_8_split) ∧
  page_free 0 block_of_8_split = Done block_of_8_rejoined ∧
  buddy_free_list block_of_8_rejoined = buddy_free_list one_block_of_8 ∧
  pages block_of_8_rejoined !! 0 = Some (avail 3) ∧
  count_total_free_pages block_of_8_rejoined
  = count_total_free_pages one_block_of_8.
Proof.
  destruct (alloc_release_round_trip 0 3 one_block_of_8 0 [] (avail 3) (used 0))
    as (s1 & s2 & Hfind & Hfree & Hlists & Hhead & _ & Hcount).
  - lia.
  - cbn. lia.
  - reflexivity.
  - intros i Hi. destruct i as [|[|[|i]]]; [reflexivity..|lia].
  - reflexivity.
  - reflexivity.
  - reflexivity.
  - exists 0. reflexivity.
  - cbn. lia.
  - intros i Hi. apply not_linked_Forall. cbn.
    pose proof (Nat.pow_nonzero 2 i). repeat constructor. lia.
  - vm_compute. reflexivity.
  - left. reflexivity.
  - assert (Hfind' : buddy_find 0 one_block_of_8
                     = Done (Some 0, block_of_8_split)) by reflexivity.
    rewrite Hfind' in Hfind. injection Hfind as <-.
    assert (Hfree' : page_free 0 block_of_8_split = Done block_of_8_rejoined)
      by reflexivity.
    rewrite Hfree' in Hfree. injection Hfree as <-.
    split_and!; [exact Hfind' | exact Hfree' | reflexivity | reflexivity
                | reflexivity].
Defined.

Lemma release_then_alloc_returns_same_page_witness :
  ∃ s1 s2 m2,
    page_free 0 two_used = Done s1 ∧
    page_alloc 0 s1 blank = Done (Some 0, s2, m2) ∧
    buddy_free_list s2 = buddy_free_list two_used ∧
    pages s2 = [PageInfo 1 0 true; used 0].
Proof.
  refine (release_then_alloc_returns_same_page 0 two_used (used 0) (used 0)
            0 blank _ _ _ _ _ _ _).
  - reflexivity.
  - reflexivity.
  - compute_done.
  - reflexivity.
  - left. reflexivity.
  - reflexivity.
  - apply not_linked_Forall. cbn. repeat constructor.
Defined.

End AllocatorExamples.

Section BootExamples.
#[local] Existing Instance lab.
Local Open Scope Z_scope.

Lemma boot_alloc_aligned_witness :
  boot_alloc 1051192 100 0 = (1052672, 1056768) ∧
  (4096 | (boot_alloc 1051192 100 0).1) ∧
  (4096 | (boot_alloc 1051192 100 0).2).
Proof.
  split; [reflexivity|].
  refine (boot_alloc_aligned 1051192 100 0 _). exists 0. reflexivity.
Defined.

Lemma boot_alloc_chunks_apart_witness :
  boot_alloc 1051192 100 0 = (1052672, 1056768) ∧
  boot_alloc 1051192 5000 1056768 = (1056768, 1064960) ∧
  1052672 + 100 ≤ 1056768 < 1052672 + 100 + 4096 ∧
  (4096 | 1056768).
Proof.
  split; [reflexivity|]. split; [reflexivity|].
  assert (Hal : (Z.of_N PAGE_SIZE | 0)) by (exists 0; reflexivity).
  assert (Hend : 0 ≤ 1051192) by lia.
  assert (Hendfit : 1051192 + Z.of_N PAGE_SIZE ≤ 2 ^ 64)
    by compute_done.
  assert (Hnf : 0 ≤ 0) by lia.
  assert (Hn1 : 0 < 100) by lia.
  assert (Hfit : 1052672 + 100 + Z.of_N PAGE_SIZE ≤ 2 ^ 64)
    by compute_done.
  exact (proj2 (proj2 (boot_alloc_chunks_apart 1051192 100 5000 0
                         Hend Hendfit Hnf Hal Hn1 Hfit))).
Defined.

Lemma align_boot_info_idempotent_witness :
  align_boot_info boot_map
  = [MmapEntry 0 651264 MMAP_FREE; MmapEntry 651264 4096 MMAP_RESERVED] ∧
  Forall entry_aligned (align_boot_info boot_map) ∧
  align_boot_info (align_boot_info boot_map) = align_boot_info boot_map.
Proof.
  split; [reflexivity|].
  destruct (align_boot_info_idempotent boot_map) as (Hal & _ & _ & Hidem).
  - compute_done.
  - repeat constructor; compute_done.
  - split; [exact Hal | exact Hidem].
Defined.

Lemma align_reserved_covers_witness :
  align_entry bios_area = MmapEntry 651264 4096 MMAP_RESERVED ∧
  entry_aligned (align_entry bios_area) ∧
  entry_addr (align_entry bios_area) ≤ 654336 ∧
  654336 + 1024
    ≤ entry_addr (align_entry bios_area) + entry_len (align_entry bios_area).
Proof.
  split; [reflexivity|].
  destruct (align_reserved_covers bios_area) as (Hal & [Hlo _] & [Hhi _]).
  - discriminate.
  - compute_done.
  - compute_done.
  - compute_done.
  - split_and!; [exact Hal | exact Hlo | exact Hhi].
Defined.

Lemma align_free_within_witness :
  align_entry low_memory = MmapEntry 0 651264 MMAP_FREE ∧
  entry_aligned (align_entry low_memory) ∧
  entry_addr (align_entry low_memory) + entry_len (align_entry low_memory)
    ≤ 0 + 654336.
Proof.
  split; [reflexivity|].
  destruct (align_free_within low_memory) as (Hal & _ & _ & [Hhi _]).
  - reflexivity.
  - compute_done.
  - compute_done.
  - compute_done.
  - compute_done.
  - compute_done.
  - split; [exact Hal | exact Hhi].
Defined.

Lemma align_free_sliver_wraps_witness :
  align_entry sliver = MmapEntry 8192 18446744073709547520 MMAP_FREE.
Proof.
  refine (align_free_sliver_wraps sliver _ _ _ _ _ _).
  - reflexivity.
  - compute_done.
  - compute_done.
  - compute_done.
  - reflexivity.
  - reflexivity.
Defined.

Lemma aligned_regions_stay_apart_witness :
  entry_addr (align_entry low_memory) + entry_len (align_entry low_memory)
  ≤ entry_addr (align_entry bios_area).
Proof.
  refine (proj1 (aligned_regions_stay_apart low_memory bios_area
                   _ _ _ _ _ _ _ _ _ _) _).
  - reflexivity.
  - discriminate.
  - compute_done.
  - compute_done.
  - compute_done.
  - compute_done.
  - compute_done.
  - compute_done.
  - compute_done.
  - compute_done.
  - compute_done.
Defined.

End BootExamples.
